(** * NRF registry and connection manager of the 5G core simulation

    A shallow embedding of [NRFRegistry] (registration, heartbeat renewal,
    discovery, deregistration, heartbeat sweep) and of [ConnectionManager]
    (3GPP connection policy, subnet restriction, link creation and removal
    with the registration they trigger), followed by the properties proved
    about them.

    Conventions of the embedding:
    - a JavaScript [Map] that the code iterates ([this.registry]) is an
      association list kept in insertion order; a [Map] that is only looked
      up by key ([registrationMessages], [deregistrationMessages]) is a
      [gmap];
    - a table written as an object literal ([validConnections], the tables
      of [getServicesForNF] and [getAllowedNfTypes]) is a [gmap] of its own
      keys read through [js_property], which also finds the members every
      object inherits from [Object.prototype]; a call that may throw returns
      an [Outcome];
    - an optional key of an object is an [option]; truthiness tests ([||],
      [&&], [if (x)]) are written out on the value;
    - [Date.now()] is an explicit argument [now], one reading per event-loop
      task; [setTimeout] and [setInterval] add entries to the pending timers
      of the browser state, and firing a timer is a function of its own;
    - logging ([window.logEngine]), rendering ([window.canvasRenderer]) and
      [console] output carry no state of the model and are left out. *)

From Stdlib Require Import ZArith QArith Lia Ascii String.
From stdpp Require Import base option list strings gmap fin_maps.

Local Open Scope string_scope.
Local Open Scope list_scope.
Local Open Scope Z_scope.

(** * The embedding *)

(** ** JavaScript helpers *)

(** [s.split(sep)] for a one-character separator. *)
Fixpoint js_split (sep : ascii) (s : string) : list string :=
  match s with
  | EmptyString => [EmptyString]
  | String c rest =>
      if Ascii.eqb c sep then EmptyString :: js_split sep rest
      else match js_split sep rest with
           | [] => [String c EmptyString]
           | hd :: tl => String c hd :: tl
           end
  end.

(** [`${parts[i]}`]: a missing element prints as [undefined]. *)
Definition js_part (parts : list string) (i : nat) : string :=
  default "undefined" (parts !! i).

(** [s.slice(-n)]: the last [n] characters, the whole string when shorter. *)
Definition js_slice_last (n : nat) (s : string) : string :=
  let len := String.length s in
  if (len <=? n)%nat then s else String.substring (len - n) n s.

(** Truthiness of a string and of a number. *)
Definition truthy_str (s : string) : bool := negb (String.eqb s "").

Definition truthy_num (z : Z) : bool := negb (z =? 0).

(** [a || b] on optional strings and numbers. *)
Definition or_str (a : option string) (b : string) : string :=
  match a with
  | Some s => if truthy_str s then s else b
  | None => b
  end.

Definition or_num (a : option Z) (b : Z) : Z :=
  match a with
  | Some z => if truthy_num z then z else b
  | None => b
  end.

(** [xs.includes(x)] on an array of strings. *)
Definition includes (x : string) (xs : list string) : bool :=
  existsb (String.eqb x) xs.

(** What a call does: it returns a value or throws. The only error of the
    model is the [TypeError] of calling a method that the receiver does not
    have. *)
Inductive JsError := TypeError.

Inductive Outcome (A : Type) :=
| Returns (a : A)
| Throws (e : JsError).

Arguments Returns {A} _.

Arguments Throws {A} _.

Global Instance Outcome_ret : MRet Outcome := fun A a => Returns a.

Global Instance Outcome_bind : MBind Outcome := fun A B f m =>
  match m with
  | Returns a => f a
  | Throws e => Throws e
  end.

(** [xs.filter(f)] and the [forEach] loops that push the elements [f]
    accepts, for an [f] that may throw. *)
Fixpoint js_filter {A : Type} (f : A → Outcome bool) (xs : list A) : Outcome (list A) :=
  match xs with
  | [] => Returns []
  | x :: rest =>
      keep ← f x;
      kept ← js_filter f rest;
      Returns (if keep : bool then x :: kept else kept)
  end.

(** The names of the members that every plain object inherits from
    [Object.prototype]. *)
Definition objectPrototypeNames : list string :=
  [ "constructor"; "__defineGetter__"; "__defineSetter__"; "hasOwnProperty";
    "__lookupGetter__"; "__lookupSetter__"; "isPrototypeOf"; "propertyIsEnumerable";
    "toString"; "valueOf"; "__proto__"; "toLocaleString" ].

(** [table[key]] for a table written as an object literal: the value of its
    own key, the inherited member when [key] names one, [undefined]
    otherwise. An inherited member is a function ([Object.prototype] itself
    for [__proto__]): it is truthy and has no array method. *)
Inductive Property (A : Type) :=
| Own (a : A)
| Inherited (name : string)
| Undefined.

Arguments Own {A} _.

Arguments Inherited {A} _.

Arguments Undefined {A}.

Definition js_property {A : Type} (table : gmap string A) (key : string) : Property A :=
  match table !! key with
  | Some a => Own a
  | None => if includes key objectPrototypeNames then Inherited key else Undefined
  end.

(** [table[key] || []] for a table of arrays: every array is truthy, and so
    is an inherited member. *)
Inductive TableValue (A : Type) :=
| ArrayValue (xs : list A)
| InheritedValue (name : string).

Arguments ArrayValue {A} _.

Arguments InheritedValue {A} _.

Definition or_empty {A : Type} (table : gmap string (list A)) (key : string)
    : TableValue A :=
  match js_property table key with
  | Own xs => ArrayValue xs
  | Inherited name => InheritedValue name
  | Undefined => ArrayValue []
  end.

(** ** Connectivity policy ([ConnectionManager]) *)

(** [initializeValidConnections()]: the 3GPP table, by NF type. *)
Definition validConnectionsTable : list (string * list string) :=
  [ ("NRF",    ["AMF"; "SMF"; "UPF"; "AUSF"; "UDM"; "PCF"; "NSSF"; "UDR"]);
    ("AMF",    ["NRF"; "SMF"; "AUSF"; "UDM"; "PCF"; "NSSF"; "gNB"; "UE"]);
    ("SMF",    ["NRF"; "AMF"; "UPF"; "PCF"; "UDM"; "UDR"]);
    ("UPF",    ["NRF"; "SMF"; "gNB"]);
    ("AUSF",   ["NRF"; "AMF"; "UDM"]);
    ("UDM",    ["NRF"; "AMF"; "SMF"; "AUSF"; "PCF"; "UDR"]);
    ("PCF",    ["NRF"; "AMF"; "SMF"; "UDM"]);
    ("NSSF",   ["NRF"; "AMF"]);
    ("UDR",    ["NRF"; "SMF"; "UDM"; "MySQL"]);
    ("gNB",    ["AMF"; "UPF"; "UE"]);
    ("UE",     ["gNB"; "AMF"]);
    ("MySQL",  ["UDR"]);
    ("ext-dn", ["UPF"]) ].

Definition initializeValidConnections : gmap string (list string) :=
  list_to_map validConnectionsTable.

(** [isConnectionValid(sourceType, targetType)], over any table. The table
    is a plain object: for a type that names an inherited member the guard
    [!validConnections[type]] does not fire and [.includes] is called on the
    member, which throws. *)
Definition isConnectionValid_in (validConnections : gmap string (list string))
    (sourceType targetType : string) : Outcome bool :=
  match js_property validConnections sourceType with
  | Undefined => Returns false
  | Inherited _ => Throws TypeError
  | Own targets =>
      if includes targetType targets then Returns true
      else match js_property validConnections targetType with
           | Undefined => Returns false
           | Inherited _ => Throws TypeError
           | Own sources => Returns (includes sourceType sources)
           end
  end.

(** The constructor stores [initializeValidConnections()] in
    [this.validConnections]. *)
Definition isConnectionValid : string -> string -> Outcome bool :=
  isConnectionValid_in initializeValidConnections.

(** [getNetworkFromIP(ip)]: the first three dot-separated parts. *)
Definition getNetworkFromIP (ip : string) : string :=
  let parts := js_split "." ip in
  js_part parts 0 +:+ "." +:+ js_part parts 1 +:+ "." +:+ js_part parts 2.

(** [areIPsInSameSubnet(ip1, ip2)]. *)
Definition areIPsInSameSubnet (ip1 ip2 : string) : bool :=
  String.eqb (getNetworkFromIP ip1) (getNetworkFromIP ip2).

(** ** Insertion-ordered maps (JavaScript [Map]) *)

Section JsMap.
Context {V : Type}.

(** [m.get(k)] *)
Fixpoint jsmap_get (k : string) (m : list (string * V)) : option V :=
  match m with
  | [] => None
  | (k', v) :: rest => if String.eqb k k' then Some v else jsmap_get k rest
  end.

(** [m.set(k, v)]: an existing key keeps its position, a new key is
    appended. Assigning to a field of the object stored under [k]
    ([profile.nfStatus = ...]) is [jsmap_set k] of the changed object. *)
Fixpoint jsmap_set (k : string) (v : V) (m : list (string * V)) : list (string * V) :=
  match m with
  | [] => [(k, v)]
  | (k', v') :: rest =>
      if String.eqb k k' then (k', v) :: rest else (k', v') :: jsmap_set k v rest
  end.

(** [m.delete(k)] *)
Fixpoint jsmap_delete (k : string) (m : list (string * V)) : list (string * V) :=
  match m with
  | [] => []
  | (k', v') :: rest =>
      if String.eqb k k' then jsmap_delete k rest else (k', v') :: jsmap_delete k rest
  end.

Definition jsmap_keys (m : list (string * V)) : list string := m.*1.
Definition jsmap_values (m : list (string * V)) : list V := m.*2.

(** How many entries are stored under [k]. *)
Definition jsmap_count (k : string) (m : list (string * V)) : nat :=
  length (List.filter (fun e => String.eqb k e.1) m).
End JsMap.

(** ** Data model of the registry *)

(** [nfStatus] of a profile. *)
Inductive NfStatus := REGISTERED | UNAVAILABLE | REMOVED.

Global Instance NfStatus_eq_dec : EqDecision NfStatus.
Proof. solve_decision. Defined.

(** A service entry of a profile, as [getServicesForNF] builds it. *)
Record NFService := {
  serviceName : string;
  serviceInstanceId : string
}.

(** The [nfProfile] argument of [registerNF]: the keys that the callers of
    this repository supply and that [registerNF] reads. *)
Record NFProfileInput := {
  in_nfType : string;
  in_nfName : option string;
  in_ipAddress : option string;
  in_port : option Z;
  in_httpProtocol : option string;
  in_services : option (list NFService);
  in_priority : option Z;
  in_capacity : option Z;
  in_load : option Z
}.

(** A profile stored in [this.registry]. *)
Record NFProfile := {
  nfInstanceId : string;
  nfType : string;
  nfName : string;
  nfStatus : NfStatus;
  heartBeatTimer : Z;
  registeredAt : Z;
  lastHeartbeat : Z;
  statusChangedAt : Z;
  ipAddress : option string;
  port : option Z;
  httpProtocol : option string;
  services : option (list NFService);
  priority : option Z;
  capacity : option Z;
  load : option Z;
  deregisteredAt : option Z;
  deregistrationReason : option string;
  deregisteredMonitorIntervalId : option positive
}.

(** Field assignments on a profile object. *)
Definition set_nfStatus (st : NfStatus) (now : Z) (p : NFProfile) : NFProfile :=
  {| nfInstanceId := nfInstanceId p; nfType := nfType p; nfName := nfName p;
     nfStatus := st;
     heartBeatTimer := heartBeatTimer p; registeredAt := registeredAt p;
     lastHeartbeat := lastHeartbeat p;
     statusChangedAt := now;
     ipAddress := ipAddress p; port := port p; httpProtocol := httpProtocol p;
     services := services p; priority := priority p; capacity := capacity p;
     load := load p; deregisteredAt := deregisteredAt p;
     deregistrationReason := deregistrationReason p;
     deregisteredMonitorIntervalId := deregisteredMonitorIntervalId p |}.

Definition set_lastHeartbeat (now : Z) (p : NFProfile) : NFProfile :=
  {| nfInstanceId := nfInstanceId p; nfType := nfType p; nfName := nfName p;
     nfStatus := nfStatus p;
     heartBeatTimer := heartBeatTimer p; registeredAt := registeredAt p;
     lastHeartbeat := now;
     statusChangedAt := statusChangedAt p;
     ipAddress := ipAddress p; port := port p; httpProtocol := httpProtocol p;
     services := services p; priority := priority p; capacity := capacity p;
     load := load p; deregisteredAt := deregisteredAt p;
     deregistrationReason := deregistrationReason p;
     deregisteredMonitorIntervalId := deregisteredMonitorIntervalId p |}.

Definition set_deregistered (now : Z) (reason : string) (p : NFProfile) : NFProfile :=
  {| nfInstanceId := nfInstanceId p; nfType := nfType p; nfName := nfName p;
     nfStatus := nfStatus p;
     heartBeatTimer := heartBeatTimer p; registeredAt := registeredAt p;
     lastHeartbeat := lastHeartbeat p;
     statusChangedAt := statusChangedAt p;
     ipAddress := ipAddress p; port := port p; httpProtocol := httpProtocol p;
     services := services p; priority := priority p; capacity := capacity p;
     load := load p;
     deregisteredAt := Some now;
     deregistrationReason := Some reason;
     deregisteredMonitorIntervalId := deregisteredMonitorIntervalId p |}.

Definition set_deregisteredMonitorIntervalId (i : option positive) (p : NFProfile)
    : NFProfile :=
  {| nfInstanceId := nfInstanceId p; nfType := nfType p; nfName := nfName p;
     nfStatus := nfStatus p;
     heartBeatTimer := heartBeatTimer p; registeredAt := registeredAt p;
     lastHeartbeat := lastHeartbeat p;
     statusChangedAt := statusChangedAt p;
     ipAddress := ipAddress p; port := port p; httpProtocol := httpProtocol p;
     services := services p; priority := priority p; capacity := capacity p;
     load := load p; deregisteredAt := deregisteredAt p;
     deregistrationReason := deregistrationReason p;
     deregisteredMonitorIntervalId := i |}.

(** The request and response kept in a registration record. The
    [nfServices] of the request hold identifiers drawn from [Math.random()]
    and are not part of the model. *)
Record RegistrationRequest := {
  rq_nfInstanceId : string;
  rq_nfType : string;
  rq_nfStatus : NfStatus;
  rq_ipv4Addresses : list string;
  rq_allowedNfTypes : TableValue string;
  rq_priority : Z;
  rq_capacity : Z;
  rq_load : Z;
  rq_nfProfileChangesSupportInd : bool
}.

Record RegistrationResponse := {
  rs_nfInstanceId : string;
  rs_nfType : string;
  rs_nfStatus : NfStatus;
  rs_heartBeatTimer : Q;
  rs_nfProfileChangesInd : bool
}.

Record RegistrationRecord := {
  reg_nfInstanceId : string;
  reg_nfType : string;
  reg_nfName : string;
  reg_timestamp : Z;
  reg_request : RegistrationRequest;
  reg_response : RegistrationResponse
}.

(** The request and response kept in a deregistration record; the ISO
    strings of the source are the instants they print. *)
Record DeregistrationRequest := {
  dq_nfInstanceId : string;
  dq_nfType : string;
  dq_action : string;
  dq_reason : string;
  dq_timestamp : Z
}.

Record DeregistrationResponse := {
  ds_nfInstanceId : string;
  ds_nfType : string;
  ds_nfStatus : NfStatus;
  ds_result : string;
  ds_deregisteredAt : Z
}.

Record DeregistrationRecord := {
  dereg_nfInstanceId : string;
  dereg_nfType : string;
  dereg_nfName : string;
  dereg_timestamp : Z;
  dereg_request : DeregistrationRequest;
  dereg_response : DeregistrationResponse
}.

(** What [registerNF] returns. *)
Record RegisterResult := {
  res_nfInstanceId : string;
  res_nfStatus : NfStatus;
  res_validity : Z;
  res_heartbeatTimer : Z
}.

(** The state of an [NRFRegistry] object. *)
Record NRFRegistry := {
  registry : list (string * NFProfile);
  registrationMessages : gmap string RegistrationRecord;
  registrationHistory : list RegistrationRecord;
  deregistrationMessages : gmap string DeregistrationRecord;
  deregistrationHistory : list DeregistrationRecord;
  heartbeatInterval : Z;
  heartbeatTimeout : Z;
  gracePeriod : Z;
  monitorIntervalId : option positive;
  isMonitoring : bool
}.

(** [new NRFRegistry()] *)
Definition NRFRegistry_new : NRFRegistry :=
  {| registry := [];
     registrationMessages := ∅;
     registrationHistory := [];
     deregistrationMessages := ∅;
     deregistrationHistory := [];
     heartbeatInterval := 60000;
     heartbeatTimeout := 120000;
     gracePeriod := 30000;
     monitorIntervalId := None;
     isMonitoring := false |}.

Definition set_registry (m : list (string * NFProfile)) (r : NRFRegistry) : NRFRegistry :=
  {| registry := m;
     registrationMessages := registrationMessages r;
     registrationHistory := registrationHistory r;
     deregistrationMessages := deregistrationMessages r;
     deregistrationHistory := deregistrationHistory r;
     heartbeatInterval := heartbeatInterval r;
     heartbeatTimeout := heartbeatTimeout r;
     gracePeriod := gracePeriod r;
     monitorIntervalId := monitorIntervalId r;
     isMonitoring := isMonitoring r |}.

(** ** The browser side: data store and timers *)

(** An NF object of the topology, as the service manager creates it. *)
(** [config.tun0Interface] of a UPF. Any of its keys may be missing on an
    object that [createConnection] did not build itself. *)
Record Tun0Interface := {
  tun_name : option string;
  tun_ipAddress : option string;
  tun_netmask : option string;
  tun_network : option string;
  tun_gatewayIP : option string;
  tun_assignedIPs : option (list string);
  tun_nextAvailableIP : option Z;
  tun_createdAt : option Z
}.

Record NFConfig := {
  cfg_ipAddress : string;
  cfg_port : option Z;
  cfg_httpProtocol : option string;
  cfg_tun0Interface : option Tun0Interface
}.

Definition cfg_set_tun0Interface (t : Tun0Interface) (c : NFConfig) : NFConfig :=
  {| cfg_ipAddress := cfg_ipAddress c; cfg_port := cfg_port c;
     cfg_httpProtocol := cfg_httpProtocol c; cfg_tun0Interface := Some t |}.

Record NF := {
  nf_id : string;
  nf_name : string;
  nf_type : string;
  nf_config : NFConfig;
  nf_status : string;
  nf_nrfStatus : option NfStatus;
  nf_heartbeatIntervalId : option positive
}.

Definition nf_set_nrfStatus (st : NfStatus) (nf : NF) : NF :=
  {| nf_id := nf_id nf; nf_name := nf_name nf; nf_type := nf_type nf;
     nf_config := nf_config nf; nf_status := nf_status nf;
     nf_nrfStatus := Some st;
     nf_heartbeatIntervalId := nf_heartbeatIntervalId nf |}.

Definition nf_set_status (st : string) (nf : NF) : NF :=
  {| nf_id := nf_id nf; nf_name := nf_name nf; nf_type := nf_type nf;
     nf_config := nf_config nf; nf_status := st;
     nf_nrfStatus := nf_nrfStatus nf;
     nf_heartbeatIntervalId := nf_heartbeatIntervalId nf |}.

Definition nf_set_config (c : NFConfig) (nf : NF) : NF :=
  {| nf_id := nf_id nf; nf_name := nf_name nf; nf_type := nf_type nf;
     nf_config := c; nf_status := nf_status nf;
     nf_nrfStatus := nf_nrfStatus nf;
     nf_heartbeatIntervalId := nf_heartbeatIntervalId nf |}.

Definition nf_set_heartbeatIntervalId (i : option positive) (nf : NF) : NF :=
  {| nf_id := nf_id nf; nf_name := nf_name nf; nf_type := nf_type nf;
     nf_config := nf_config nf; nf_status := nf_status nf;
     nf_nrfStatus := nf_nrfStatus nf;
     nf_heartbeatIntervalId := i |}.

(** A connection object, as [createConnection] builds it. *)
Record Connection := {
  conn_id : string;
  sourceId : string;
  targetId : string;
  interfaceName : string;
  protocol : string;
  conn_status : string;
  createdAt : Z;
  isManual : bool;
  showVisual : bool
}.

(** Modelled from the spec: [window.dataStore] is not among the sources. It
    is the external inventory of instances and the owner of the link
    collection: instances and links are looked up by id, a created link is
    stored, a deleted link is removed. *)
Record DataStore := {
  nfs : list NF;
  connections : list Connection
}.

(** Modelled from the spec: [dataStore.getNFById(id)], lookup by id. *)
Definition getNFById (id : string) (d : DataStore) : option NF :=
  List.find (fun nf => String.eqb (nf_id nf) id) (nfs d).

(** Modelled from the spec: the effect of assigning to fields of the object
    that [getNFById] returned and of [dataStore.updateNF(id, fields)]. *)
Fixpoint modify_first (id : string) (f : NF -> NF) (l : list NF) : list NF :=
  match l with
  | [] => []
  | nf :: rest =>
      if String.eqb (nf_id nf) id then f nf :: rest
      else nf :: modify_first id f rest
  end.

Definition updateNF (id : string) (f : NF -> NF) (d : DataStore) : DataStore :=
  {| nfs := modify_first id f (nfs d); connections := connections d |}.

(** Modelled from the spec: [dataStore.addConnection(connection)] stores the
    link. *)
Definition addConnection (c : Connection) (d : DataStore) : DataStore :=
  {| nfs := nfs d; connections := connections d ++ [c] |}.

(** Modelled from the spec: [dataStore.getConnectionById(id)]. *)
Definition getConnectionById (id : string) (d : DataStore) : option Connection :=
  List.find (fun c => String.eqb (conn_id c) id) (connections d).

(** Modelled from the spec: [dataStore.removeConnection(id)] removes the
    link. *)
Definition removeConnection (id : string) (d : DataStore) : DataStore :=
  {| nfs := nfs d;
     connections := List.filter (fun c => negb (String.eqb (conn_id c) id)) (connections d) |}.

(** Modelled from the spec: [dataStore.getConnectionsForNF(id)], the links
    with [id] at either end. *)
Definition getConnectionsForNF (id : string) (d : DataStore) : list Connection :=
  List.filter (fun c => String.eqb (sourceId c) id || String.eqb (targetId c) id)
              (connections d).

(** Callbacks handed to [setTimeout]. *)
Inductive TimeoutTask :=
| PurgeProfile (nfInstanceId : string)   (* deregisterNF: registry.delete *)
| RegisterWithNRF (nf : NF)              (* createConnection: registerNF + heartbeat *)
| NASRegistration (ue amf : NF).         (* createConnection: NAS signalling, log only *)

(** Callbacks handed to [setInterval]. *)
Inductive IntervalTask :=
| HeartbeatMonitorTick                       (* startHeartbeatMonitor *)
| NFHeartbeatTick (nfId : string)            (* startNFHeartbeat *)
| DeregisteredNFTick (nfInstanceId : string) (* startDeregisteredNFMonitoring *).

Record Timer (T : Type) := {
  timer_id : positive;
  timer_delay : Z;
  timer_task : T
}.

Arguments timer_id {T} _.

Arguments timer_delay {T} _.

Arguments timer_task {T} _.

(** Everything of [window] that the two classes touch, the registry apart. *)
Record Browser := {
  dataStore : DataStore;
  timeouts : list (Timer TimeoutTask);
  intervals : list (Timer IntervalTask);
  nextTimerId : positive;
  globalHTTPProtocol : option string
}.

Definition set_dataStore (d : DataStore) (b : Browser) : Browser :=
  {| dataStore := d; timeouts := timeouts b; intervals := intervals b;
     nextTimerId := nextTimerId b; globalHTTPProtocol := globalHTTPProtocol b |}.

(** [setTimeout(task, delay)] *)
Definition setTimeout (task : TimeoutTask) (delay : Z) (b : Browser) : Browser :=
  {| dataStore := dataStore b;
     timeouts := timeouts b ++ [{| timer_id := nextTimerId b; timer_delay := delay;
                                   timer_task := task |}];
     intervals := intervals b;
     nextTimerId := Pos.succ (nextTimerId b);
     globalHTTPProtocol := globalHTTPProtocol b |}.

(** [setInterval(task, delay)], with the identifier it returns. *)
Definition setInterval (task : IntervalTask) (delay : Z) (b : Browser)
    : Browser * positive :=
  ({| dataStore := dataStore b;
      timeouts := timeouts b;
      intervals := intervals b ++ [{| timer_id := nextTimerId b; timer_delay := delay;
                                      timer_task := task |}];
      nextTimerId := Pos.succ (nextTimerId b);
      globalHTTPProtocol := globalHTTPProtocol b |},
   nextTimerId b).

(** [clearInterval(id)] *)
Definition clearInterval (i : positive) (b : Browser) : Browser :=
  {| dataStore := dataStore b;
     timeouts := timeouts b;
     intervals := List.filter (fun t => negb (Pos.eqb (timer_id t) i)) (intervals b);
     nextTimerId := nextTimerId b;
     globalHTTPProtocol := globalHTTPProtocol b |}.

(** A pending timeout leaves the queue when it fires. *)
Definition dropTimeout (i : positive) (b : Browser) : Browser :=
  {| dataStore := dataStore b;
     timeouts := List.filter (fun t => negb (Pos.eqb (timer_id t) i)) (timeouts b);
     intervals := intervals b;
     nextTimerId := nextTimerId b;
     globalHTTPProtocol := globalHTTPProtocol b |}.

(** [const nf = window.dataStore?.getNFById(id); if (nf) { ...f...;
    window.dataStore.updateNF(id, ...) }] *)
Definition updateStoredNF (id : string) (f : NF -> NF) (b : Browser) : Browser :=
  match getNFById id (dataStore b) with
  | Some _ => set_dataStore (updateNF id f (dataStore b)) b
  | None => b
  end.

(** ** [NRFRegistry] methods

    A method takes the registry object and the browser state and returns
    both, with its result if it has one. *)

(** [{ key: literal, ...nfProfile }]: a key that [nfProfile] supplies
    replaces the value of the literal. *)
Definition spread {A : Type} (supplied : option A) (literal : A) : A :=
  default literal supplied.

(** [getAllowedNfTypes(nfType)] *)
Definition allowedTypesTable : list (string * list string) :=
  [ ("AMF", ["SMF"]); ("SMF", ["AMF"]); ("AUSF", ["AMF"]);
    ("UDM", ["AMF"; "SMF"; "AUSF"]); ("UDR", ["PCF"; "UDM"]);
    ("PCF", ["AMF"; "SMF"; "NEF"; "AF"]); ("NSSF", ["AMF"]);
    ("UPF", []); ("gNB", []); ("UE", []); ("MySQL", []); ("ext-dn", []) ].

Definition getAllowedNfTypes (nfType : string) : TableValue string :=
  or_empty (list_to_map allowedTypesTable) nfType.

(** [registerNF(nfInstanceId, nfProfile)] *)
Definition registerNF (now : Z) (nfInstanceId : string) (nfProfile : NFProfileInput)
    (r : NRFRegistry) (b : Browser) : NRFRegistry * Browser * RegisterResult :=
  let existingProfile := jsmap_get nfInstanceId (registry r) in
  let profile :=
    {| nfInstanceId := nfInstanceId;
       nfType := in_nfType nfProfile;
       nfName := spread (in_nfName nfProfile)
                   (or_str (in_nfName nfProfile)
                      (in_nfType nfProfile +:+ "-" +:+ js_slice_last 6 nfInstanceId));
       nfStatus := REGISTERED;
       heartBeatTimer := heartbeatInterval r;
       registeredAt := or_num (registeredAt <$> existingProfile) now;
       lastHeartbeat := now;
       statusChangedAt := now;
       ipAddress := in_ipAddress nfProfile;
       port := in_port nfProfile;
       httpProtocol := in_httpProtocol nfProfile;
       services := in_services nfProfile;
       priority := in_priority nfProfile;
       capacity := in_capacity nfProfile;
       load := in_load nfProfile;
       deregisteredAt := None;
       deregistrationReason := None;
       deregisteredMonitorIntervalId := None |} in
  let b' := updateStoredNF nfInstanceId (nf_set_nrfStatus REGISTERED) b in
  let requestMessage :=
    {| rq_nfInstanceId := nfInstanceId;
       rq_nfType := in_nfType nfProfile;
       rq_nfStatus := REGISTERED;
       rq_ipv4Addresses :=
         match in_ipAddress nfProfile with
         | Some ip => if truthy_str ip then [ip] else []
         | None => []
         end;
       rq_allowedNfTypes := getAllowedNfTypes (in_nfType nfProfile);
       rq_priority := or_num (in_priority nfProfile) 0;
       rq_capacity := default 100 (in_capacity nfProfile);
       rq_load := or_num (in_load nfProfile) 0;
       rq_nfProfileChangesSupportInd := true |} in
  let responseMessage :=
    {| rs_nfInstanceId := nfInstanceId;
       rs_nfType := in_nfType nfProfile;
       rs_nfStatus := REGISTERED;
       rs_heartBeatTimer := Qmake (heartbeatInterval r) 1000;
       rs_nfProfileChangesInd := true |} in
  let registrationRecord :=
    {| reg_nfInstanceId := nfInstanceId;
       reg_nfType := in_nfType nfProfile;
       reg_nfName := nfName profile;
       reg_timestamp := now;
       reg_request := requestMessage;
       reg_response := responseMessage |} in
  ({| registry := jsmap_set nfInstanceId profile (registry r);
      registrationMessages := <[nfInstanceId := registrationRecord]> (registrationMessages r);
      registrationHistory := registrationHistory r ++ [registrationRecord];
      deregistrationMessages := deregistrationMessages r;
      deregistrationHistory := deregistrationHistory r;
      heartbeatInterval := heartbeatInterval r;
      heartbeatTimeout := heartbeatTimeout r;
      gracePeriod := gracePeriod r;
      monitorIntervalId := monitorIntervalId r;
      isMonitoring := isMonitoring r |},
   b',
   {| res_nfInstanceId := nfInstanceId;
      res_nfStatus := REGISTERED;
      res_validity := 3600;
      res_heartbeatTimer := heartbeatInterval r |}).

(** [updateHeartbeat(nfInstanceId)] *)
Definition updateHeartbeat (now : Z) (nfInstanceId : string)
    (r : NRFRegistry) (b : Browser) : NRFRegistry * Browser * bool :=
  match jsmap_get nfInstanceId (registry r) with
  | None => (r, b, false)
  | Some profile =>
      let profile1 := set_lastHeartbeat now profile in
      match nfStatus profile1 with
      | UNAVAILABLE =>
          let profile2 := set_nfStatus REGISTERED now profile1 in
          (set_registry (jsmap_set nfInstanceId profile2 (registry r)) r,
           updateStoredNF nfInstanceId (nf_set_nrfStatus REGISTERED) b,
           true)
      | _ =>
          (set_registry (jsmap_set nfInstanceId profile1 (registry r)) r, b, true)
      end
  end.

(** The [query] argument of [discoverNFs]. *)
Record DiscoveryQuery := {
  q_nfType : option string;
  q_service : option string
}.

(** Truthiness of an optional string key ([query.nfType &&]). *)
Definition truthy_opt_str (o : option string) : bool :=
  match o with
  | Some s => truthy_str s
  | None => false
  end.

(** The body of the [forEach] of [discoverNFs]: [false] where it returns
    early, [true] where it reaches [results.push]. *)
Definition discover_keeps (query : DiscoveryQuery) (profile : NFProfile) : bool :=
  if negb (bool_decide (nfStatus profile = REGISTERED)) then false
  else if truthy_opt_str (q_nfType query)
          && negb (bool_decide (Some (nfType profile) = q_nfType query)) then false
  else
    match q_service query, services profile with
    | Some service, Some svcs =>
        if truthy_str service then
          existsb (fun svc => String.eqb (serviceInstanceId svc) service
                              || String.eqb (serviceName svc) service) svcs
        else true
    | _, _ => true
    end.

(** [discoverNFs(query)]: the pushed object is a copy of the profile. *)
Definition discoverNFs (query : DiscoveryQuery) (r : NRFRegistry) : list NFProfile :=
  List.filter (discover_keeps query) (jsmap_values (registry r)).

(** [startDeregisteredNFMonitoring(nfInstanceId, profile)] *)
Definition startDeregisteredNFMonitoring (nfInstanceId : string) (profile : NFProfile)
    (b : Browser) : NFProfile * Browser :=
  match getNFById nfInstanceId (dataStore b) with
  | None => (profile, b)
  | Some _ =>
      match deregisteredMonitorIntervalId profile with
      | Some _ => (profile, b)
      | None =>
          let '(b', i) := setInterval (DeregisteredNFTick nfInstanceId) 20000 b in
          (set_deregisteredMonitorIntervalId (Some i) profile, b')
      end
  end.

(** [deregisterNF(nfInstanceId, reason)] *)
Definition deregisterNF (now : Z) (nfInstanceId : string) (reason : string)
    (r : NRFRegistry) (b : Browser) : NRFRegistry * Browser :=
  match jsmap_get nfInstanceId (registry r) with
  | None => (r, b)
  | Some profile =>
      let profile1 := set_deregistered now reason (set_nfStatus REMOVED now profile) in
      let b1 := updateStoredNF nfInstanceId
                  (fun nf => nf_set_status "unstable" (nf_set_nrfStatus REMOVED nf)) b in
      let deregRequest :=
        {| dq_nfInstanceId := nfInstanceId; dq_nfType := nfType profile1;
           dq_action := "DEREGISTER"; dq_reason := reason; dq_timestamp := now |} in
      let deregResponse :=
        {| ds_nfInstanceId := nfInstanceId; ds_nfType := nfType profile1;
           ds_nfStatus := REMOVED; ds_result := "DEREGISTERED";
           ds_deregisteredAt := now |} in
      let deregRecord :=
        {| dereg_nfInstanceId := nfInstanceId; dereg_nfType := nfType profile1;
           dereg_nfName := nfName profile1; dereg_timestamp := now;
           dereg_request := deregRequest; dereg_response := deregResponse |} in
      let '(profile2, b2) := startDeregisteredNFMonitoring nfInstanceId profile1 b1 in
      let b3 := setTimeout (PurgeProfile nfInstanceId) 5000 b2 in
      ({| registry := jsmap_set nfInstanceId profile2 (registry r);
          registrationMessages := registrationMessages r;
          registrationHistory := registrationHistory r;
          deregistrationMessages := <[nfInstanceId := deregRecord]> (deregistrationMessages r);
          deregistrationHistory := deregistrationHistory r ++ [deregRecord];
          heartbeatInterval := heartbeatInterval r;
          heartbeatTimeout := heartbeatTimeout r;
          gracePeriod := gracePeriod r;
          monitorIntervalId := monitorIntervalId r;
          isMonitoring := isMonitoring r |},
       b3)
  end.

(** [deregisterNF(nfInstanceId)], with the default reason. *)
Definition deregisterNF_manual (now : Z) (nfInstanceId : string) :=
  deregisterNF now nfInstanceId "MANUAL".

(** The setTimeout callback of [deregisterNF]: [this.registry.delete(id)]. *)
Definition purgeProfile (nfInstanceId : string) (r : NRFRegistry) : NRFRegistry :=
  set_registry (jsmap_delete nfInstanceId (registry r)) r.

(** The timestamp the sweep measures from:
    [profile.lastHeartbeat || profile.registeredAt]. *)
Definition lastRenewal (profile : NFProfile) : Z :=
  if truthy_num (lastHeartbeat profile) then lastHeartbeat profile
  else registeredAt profile.

(** The [forEach] of [checkHeartbeatTimeouts]: the profiles as the scan leaves
    them, the browser state, and [toRemove]. *)
Fixpoint sweepScan (now timeout grace : Z) (m : list (string * NFProfile)) (b : Browser)
    : list (string * NFProfile) * Browser * list string :=
  match m with
  | [] => ([], b, [])
  | (nfInstanceId, profile) :: rest =>
      let timeSinceHeartbeat := now - lastRenewal profile in
      let '(profile', b', marked) :=
        if timeSinceHeartbeat >? timeout then
          match nfStatus profile with
          | REGISTERED =>
              (set_nfStatus UNAVAILABLE now profile,
               updateStoredNF nfInstanceId (nf_set_nrfStatus UNAVAILABLE) b,
               [])
          | UNAVAILABLE =>
              let timeSinceUnavailable := now - statusChangedAt profile in
              if timeSinceUnavailable >? grace then (profile, b, [nfInstanceId])
              else (profile, b, [])
          | REMOVED => (profile, b, [])
          end
        else (profile, b, []) in
      let '(rest', b'', toRemove) := sweepScan now timeout grace rest b' in
      ((nfInstanceId, profile') :: rest', b'', marked ++ toRemove)
  end.

(** The [toRemove.forEach] of [checkHeartbeatTimeouts]. *)
Definition removeAll (now : Z) (toRemove : list string) (r : NRFRegistry) (b : Browser)
    : NRFRegistry * Browser :=
  fold_left (fun st nfInstanceId =>
               deregisterNF now nfInstanceId "AUTOMATIC_HEARTBEAT_TIMEOUT" st.1 st.2)
            toRemove (r, b).

(** [checkHeartbeatTimeouts()] *)
Definition checkHeartbeatTimeouts (now : Z) (r : NRFRegistry) (b : Browser)
    : NRFRegistry * Browser :=
  let '(m, b', toRemove) :=
    sweepScan now (heartbeatTimeout r) (gracePeriod r) (registry r) b in
  removeAll now toRemove (set_registry m r) b'.

(** [getNFProfile(nfInstanceId)] *)
Definition getNFProfile (nfInstanceId : string) (r : NRFRegistry) : option NFProfile :=
  jsmap_get nfInstanceId (registry r).

(** [getRegistrationRecord] and [getDeregistrationRecord]: the latest record
    of an instance. *)
Definition getRegistrationRecord (nfInstanceId : string) (r : NRFRegistry) :=
  registrationMessages r !! nfInstanceId.

Definition getDeregistrationRecord (nfInstanceId : string) (r : NRFRegistry) :=
  deregistrationMessages r !! nfInstanceId.

(** [startHeartbeatMonitor()] and [stopHeartbeatMonitor()] *)
Definition startHeartbeatMonitor (r : NRFRegistry) (b : Browser) : NRFRegistry * Browser :=
  if isMonitoring r then (r, b)
  else
    let '(b', i) := setInterval HeartbeatMonitorTick 10000 b in
    ({| registry := registry r;
        registrationMessages := registrationMessages r;
        registrationHistory := registrationHistory r;
        deregistrationMessages := deregistrationMessages r;
        deregistrationHistory := deregistrationHistory r;
        heartbeatInterval := heartbeatInterval r;
        heartbeatTimeout := heartbeatTimeout r;
        gracePeriod := gracePeriod r;
        monitorIntervalId := Some i;
        isMonitoring := true |}, b').

Definition stopHeartbeatMonitor (r : NRFRegistry) (b : Browser) : NRFRegistry * Browser :=
  match monitorIntervalId r with
  | Some i =>
      ({| registry := registry r;
          registrationMessages := registrationMessages r;
          registrationHistory := registrationHistory r;
          deregistrationMessages := deregistrationMessages r;
          deregistrationHistory := deregistrationHistory r;
          heartbeatInterval := heartbeatInterval r;
          heartbeatTimeout := heartbeatTimeout r;
          gracePeriod := gracePeriod r;
          monitorIntervalId := None;
          isMonitoring := false |}, clearInterval i b)
  | None => (r, b)
  end.

(** ** [ConnectionManager] methods *)

(** [window]: the browser state, [window.nrfRegistry] if it is set, and
    whether [window.connectionManager] is set. *)
Record World := {
  browser : Browser;
  nrfRegistry : option NRFRegistry;
  connectionManager : bool
}.

Definition set_browser (b : Browser) (w : World) : World :=
  {| browser := b; nrfRegistry := nrfRegistry w;
     connectionManager := connectionManager w |}.

(** [getInterfaceName(sourceType, targetType)]. The two keys it looks up
    hold a dash, which no member of [Object.prototype] has in its name, so
    the table is read by its own keys. *)
Definition interfacesTable : list (string * string) :=
  [ ("AMF-NRF", "Nnrf_NFManagement"); ("SMF-NRF", "Nnrf_NFDiscovery");
    ("UPF-NRF", "Nnrf_NFManagement"); ("AUSF-NRF", "Nnrf_NFManagement");
    ("UDM-NRF", "Nnrf_NFManagement"); ("PCF-NRF", "Nnrf_NFManagement");
    ("NSSF-NRF", "Nnrf_NFManagement"); ("UDR-NRF", "Nnrf_NFManagement");
    ("AMF-SMF", "Namf_Communication"); ("AMF-AUSF", "Nausf_UEAuthentication");
    ("AMF-UDM", "Nudm_UECM"); ("AMF-PCF", "Npcf_AMPolicyControl");
    ("AMF-NSSF", "Nnssf_NSSelection"); ("AMF-UE", "N1");
    ("SMF-UPF", "N4"); ("SMF-PCF", "Npcf_SMPolicyControl");
    ("SMF-UDM", "Nudm_SDM"); ("SMF-UDR", "Nudr_EventExposure");
    ("AUSF-UDM", "Nudm_Authentication"); ("PCF-UDM", "Nudm_PolicyControl");
    ("gNB-AMF", "N2"); ("gNB-UPF", "N3"); ("gNB-UE", "Radio"); ("UE-gNB", "Radio");
    ("UE-AMF", "N1"); ("UDM-UDR", "Nudr_DataRepository");
    ("UDR-UDM", "Nudr_DataRepository"); ("UDR-MySQL", "SQL/REST API");
    ("MySQL-UDR", "SQL/REST API"); ("UPF-ext-dn", "N6"); ("ext-dn-UPF", "N6") ].

Definition getInterfaceName (sourceType targetType : string) : string :=
  let interfaces : gmap string string := list_to_map interfacesTable in
  match interfaces !! (sourceType +:+ "-" +:+ targetType) with
  | Some name => name
  | None =>
      match interfaces !! (targetType +:+ "-" +:+ sourceType) with
      | Some name => name
      | None => "SBI"
      end
  end.

(** [getServicesForNF(nfType)] *)
Definition svc (name : string) : NFService :=
  {| serviceName := name; serviceInstanceId := name +:+ "-v1" |}.

Definition servicesTable : list (string * list NFService) :=
  [ ("AMF", [svc "namf-comm"; svc "namf-evts"]);
    ("SMF", [svc "nsmf-pdusession"; svc "nsmf-event-exposure"]);
    ("UPF", [svc "nupf-pfcp"]);
    ("AUSF", [svc "nausf-auth"]);
    ("UDM", [svc "nudm-sdm"; svc "nudm-uecm"; svc "nudm-ueau"]);
    ("PCF", [svc "npcf-am-policy-control"; svc "npcf-smpolicycontrol"]);
    ("NSSF", [svc "nnssf-nsselection"]);
    ("UDR", [svc "nudr-dr"]);
    ("NRF", [svc "nnrf-nfm"; svc "nnrf-disc"]) ].

Definition getServicesForNF (nfType : string) : TableValue NFService :=
  or_empty (list_to_map servicesTable) nfType.

(** The array a table value is, when it is one. *)
Definition arrayOf {A : Type} (v : TableValue A) : option (list A) :=
  match v with
  | ArrayValue xs => Some xs
  | InheritedValue _ => None
  end.

(** Why [createConnection] returned [null]: the branch taken, with what its
    message names. *)
Inductive Rejection :=
| InvalidNFIds                                              (* console.error *)
| SelfConnection                                            (* alert: itself *)
| SubnetRestriction (sourceNetwork targetNetwork : string)  (* alert and log *)
| InvalidConnection (sourceType targetType : string).       (* alert: 3GPP   *)

(** How a [createConnection] call ends: it returns [null], it returns the
    connection, or the error that [isConnectionValid] throws leaves it. *)
Inductive CreateResult :=
| Rejected (why : Rejection)
| Created (connection : Connection)
| Threw (e : JsError).

(** The connection [createConnection] returns, if it returns one. *)
Definition returned (res : CreateResult) : option Connection :=
  match res with
  | Rejected _ => None
  | Created c => Some c
  | Threw _ => None
  end.

(** [stopNFHeartbeat(nfId)] *)
Definition stopNFHeartbeat (nfId : string) (b : Browser) : Browser :=
  match getNFById nfId (dataStore b) with
  | Some nf =>
      match nf_heartbeatIntervalId nf with
      | Some i =>
          let b' := clearInterval i b in
          set_dataStore (updateNF nfId (nf_set_heartbeatIntervalId None) (dataStore b')) b'
      | None => b
      end
  | None => b
  end.

(** The NF at the other end of [conn], seen from [nfId]. *)
Definition otherEnd (nfId : string) (conn : Connection) : string :=
  if String.eqb (sourceId conn) nfId then targetId conn else sourceId conn.

(** [startNFHeartbeat(nfId)] *)
Definition startNFHeartbeat (now : Z) (nfId : string) (w : World) : World :=
  let b := browser w in
  match getNFById nfId (dataStore b) with
  | None => w
  | Some nf =>
      if String.eqb (nf_type nf) "NRF" then w
      else
        match nf_heartbeatIntervalId nf with
        | Some _ => w
        | None =>
            let nrfConnection :=
              List.find (fun conn =>
                           match getNFById (otherEnd nfId conn) (dataStore b) with
                           | Some otherNF => String.eqb (nf_type otherNF) "NRF"
                           | None => false
                           end)
                        (getConnectionsForNF nfId (dataStore b)) in
            match nrfConnection with
            | None => w
            | Some _ =>
                let '(b1, i) := setInterval (NFHeartbeatTick nfId) 60000 b in
                let b2 := set_dataStore
                            (updateNF nfId (nf_set_heartbeatIntervalId (Some i))
                                      (dataStore b1)) b1 in
                match nrfRegistry w with
                | Some r =>
                    let '(r', b3, _) := updateHeartbeat now nfId r b2 in
                    {| browser := b3; nrfRegistry := Some r';
                       connectionManager := connectionManager w |}
                | None => set_browser b2 w
                end
            end
        end
  end.

(** The profile [createConnection] derives from an NF object. Its
    [services] are an array for every type the connection table lists, and
    the registration callback is queued for such types only; an inherited
    member, which is no array, is outside [NFProfileInput]. *)
Definition profileOfNF (nf : NF) : NFProfileInput :=
  {| in_nfType := nf_type nf;
     in_nfName := Some (nf_name nf);
     in_ipAddress := Some (cfg_ipAddress (nf_config nf));
     in_port := cfg_port (nf_config nf);
     in_httpProtocol := Some (or_str (cfg_httpProtocol (nf_config nf)) "HTTP/2");
     in_services := arrayOf (getServicesForNF (nf_type nf));
     in_priority := None;
     in_capacity := None;
     in_load := None |}.

(** The [tun0] interface of a UPF that is linked to ext-dn: built when the
    UPF has none, completed where a key is missing or falsy otherwise. *)
Definition ensureTun0 (now : Z) (c : NFConfig) : NFConfig :=
  match cfg_tun0Interface c with
  | None =>
      cfg_set_tun0Interface
        {| tun_name := Some "tun0"; tun_ipAddress := Some "10.0.0.1";
           tun_netmask := Some "255.255.255.0"; tun_network := Some "10.0.0.0/24";
           tun_gatewayIP := Some "10.0.0.1"; tun_assignedIPs := Some [];
           tun_nextAvailableIP := Some 2; tun_createdAt := Some now |} c
  | Some t =>
      cfg_set_tun0Interface
        {| tun_name := Some (or_str (tun_name t) "tun0");
           tun_ipAddress := Some (or_str (tun_ipAddress t) "10.0.0.1");
           tun_netmask := Some (or_str (tun_netmask t) "255.255.255.0");
           tun_network := tun_network t;
           tun_gatewayIP := tun_gatewayIP t;
           tun_assignedIPs := Some (default [] (tun_assignedIPs t));
           tun_nextAvailableIP := Some (or_num (tun_nextAvailableIP t) 2);
           tun_createdAt := tun_createdAt t |} c
  end.

(** [createConnection(sourceId, targetId, isManual)]. [connId] is what
    [generateConnectionId()] draws. Nothing is written before
    [isConnectionValid] is called, so its error leaves the state as it was. *)
Definition createConnection (now : Z) (connId : string)
    (sourceId targetId : string) (isManual : bool) (w : World) : World * CreateResult :=
  let b := browser w in
  match getNFById sourceId (dataStore b), getNFById targetId (dataStore b) with
  | Some sourceNF, Some targetNF =>
      if String.eqb sourceId targetId then (w, Rejected SelfConnection)
      else
        let sourceNetwork := getNetworkFromIP (cfg_ipAddress (nf_config sourceNF)) in
        let targetNetwork := getNetworkFromIP (cfg_ipAddress (nf_config targetNF)) in
        if negb (String.eqb sourceNetwork targetNetwork)
        then (w, Rejected (SubnetRestriction sourceNetwork targetNetwork))
        else
          match isConnectionValid (nf_type sourceNF) (nf_type targetNF) with
          | Throws e => (w, Threw e)
          | Returns false =>
              (w, Rejected (InvalidConnection (nf_type sourceNF) (nf_type targetNF)))
          | Returns true =>
              let connection :=
                {| conn_id := connId;
                   sourceId := sourceId;
                   targetId := targetId;
                   interfaceName := getInterfaceName (nf_type sourceNF) (nf_type targetNF);
                   protocol := or_str (globalHTTPProtocol b) "HTTP/2";
                   conn_status := "connected";
                   createdAt := now;
                   isManual := isManual;
                   showVisual := true |} in
              let b1 := set_dataStore (addConnection connection (dataStore b)) b in
              let b2 :=
                if String.eqb (nf_type targetNF) "NRF"
                   && negb (String.eqb (nf_type sourceNF) "NRF")
                then setTimeout (RegisterWithNRF sourceNF) 1500 b1
                else if String.eqb (nf_type sourceNF) "NRF"
                        && negb (String.eqb (nf_type targetNF) "NRF")
                then setTimeout (RegisterWithNRF targetNF) 1500 b1
                else b1 in
              let b3 :=
                if String.eqb (nf_type sourceNF) "UPF" && String.eqb (nf_type targetNF) "ext-dn"
                   || String.eqb (nf_type sourceNF) "ext-dn"
                      && String.eqb (nf_type targetNF) "UPF"
                then
                  let upf := if String.eqb (nf_type sourceNF) "UPF"
                             then sourceNF else targetNF in
                  set_dataStore
                    (updateNF (nf_id upf)
                              (fun nf => nf_set_config (ensureTun0 now (nf_config nf)) nf)
                              (dataStore b2)) b2
                else b2 in
              let b4 :=
                if String.eqb (nf_type sourceNF) "UE" && String.eqb (nf_type targetNF) "AMF"
                   || String.eqb (nf_type sourceNF) "AMF" && String.eqb (nf_type targetNF) "UE"
                then
                  let ue := if String.eqb (nf_type sourceNF) "UE"
                            then sourceNF else targetNF in
                  let amf := if String.eqb (nf_type sourceNF) "AMF"
                             then sourceNF else targetNF in
                  setTimeout (NASRegistration ue amf) 1000 b3
                else b3 in
              (set_browser b4 w, Created connection)
          end
  | _, _ => (w, Rejected InvalidNFIds)
  end.

(** The body that both NRF branches of [deleteConnection] run for the NF
    [nf] that loses its link to the NRF:
    [if (window.nrfRegistry) deregisterNF(nf.id, 'NRF_CONNECTION_REMOVED');
     if (window.connectionManager) stopNFHeartbeat(nf.id)]. *)
Definition deregisterDisconnected (now : Z) (nf : NF) (w : World) : World :=
  let w1 :=
    match nrfRegistry w with
    | Some r =>
        let '(r', b') := deregisterNF now (nf_id nf) "NRF_CONNECTION_REMOVED"
                           r (browser w) in
        {| browser := b'; nrfRegistry := Some r';
           connectionManager := connectionManager w |}
    | None => w
    end in
  if connectionManager w1
  then set_browser (stopNFHeartbeat (nf_id nf) (browser w1)) w1
  else w1.

(** [deleteConnection(connectionId)] *)
Definition deleteConnection (now : Z) (connectionId : string) (w : World) : World :=
  let b := browser w in
  match getConnectionById connectionId (dataStore b) with
  | None => w
  | Some connection =>
      let w1 :=
        match getNFById (sourceId connection) (dataStore b),
              getNFById (targetId connection) (dataStore b) with
        | Some sourceNF, Some targetNF =>
            if String.eqb (nf_type targetNF) "NRF" && negb (String.eqb (nf_type sourceNF) "NRF")
            then deregisterDisconnected now sourceNF w
            else if String.eqb (nf_type sourceNF) "NRF"
                    && negb (String.eqb (nf_type targetNF) "NRF")
            then deregisterDisconnected now targetNF w
            else w
        | _, _ => w
        end in
      set_browser (set_dataStore (removeConnection connectionId (dataStore (browser w1)))
                                 (browser w1)) w1
  end.

(** A pending [setTimeout] callback runs: it leaves the queue and its body is
    executed. The callback of [createConnection] holds the NF object it was
    created with. *)
Definition fireTimeout (now : Z) (t : Timer TimeoutTask) (w : World) : World :=
  let w0 := set_browser (dropTimeout (timer_id t) (browser w)) w in
  match timer_task t with
  | PurgeProfile nfInstanceId =>
      match nrfRegistry w0 with
      | Some r =>
          {| browser := browser w0; nrfRegistry := Some (purgeProfile nfInstanceId r);
             connectionManager := connectionManager w0 |}
      | None => w0
      end
  | RegisterWithNRF nf =>
      match nrfRegistry w0 with
      | Some r =>
          let '(r', b', _) := registerNF now (nf_id nf) (profileOfNF nf) r (browser w0) in
          startNFHeartbeat now (nf_id nf)
            {| browser := b'; nrfRegistry := Some r';
               connectionManager := connectionManager w0 |}
      | None => w0
      end
  | NASRegistration _ _ => w0
  end.

(** One tick of the interval [startNFHeartbeat] installs, for the interval
    with identifier [i]. *)
Definition heartbeatTick (now : Z) (i : positive) (nfId : string) (w : World) : World :=
  match getNFById nfId (dataStore (browser w)) with
  | None => set_browser (clearInterval i (browser w)) w
  | Some _ =>
      match nrfRegistry w with
      | Some r =>
          let '(r', b', _) := updateHeartbeat now nfId r (browser w) in
          {| browser := b'; nrfRegistry := Some r';
             connectionManager := connectionManager w |}
      | None => w
      end
  end.

(** One tick of the advisory interval [startDeregisteredNFMonitoring]
    installs, with identifier [i], for the profile object it was started for.
    That object records [i] as its monitor until this tick releases it, and no
    other object ever records [i]: it is the entry under [nfInstanceId] as
    long as that entry records [i]. Once the NF has left the data store, or
    the id is registered again, the tick clears its interval and the record;
    otherwise it only logs. *)
Definition releaseMonitor (i : positive) (nfInstanceId : string) (r : NRFRegistry)
    : NRFRegistry :=
  match jsmap_get nfInstanceId (registry r) with
  | Some profile =>
      if bool_decide (deregisteredMonitorIntervalId profile = Some i)
      then set_registry
             (jsmap_set nfInstanceId (set_deregisteredMonitorIntervalId None profile)
                        (registry r)) r
      else r
  | None => r
  end.

Definition deregisteredNFTick (i : positive) (nfInstanceId : string) (w : World) : World :=
  let released :=
    {| browser := clearInterval i (browser w);
       nrfRegistry := releaseMonitor i nfInstanceId <$> nrfRegistry w;
       connectionManager := connectionManager w |} in
  match getNFById nfInstanceId (dataStore (browser w)) with
  | None => released
  | Some _ =>
      match nrfRegistry w with
      | Some r =>
          match jsmap_get nfInstanceId (registry r) with
          | Some currentProfile =>
              if bool_decide (nfStatus currentProfile = REGISTERED) then released else w
          | None => w
          end
      | None => w
      end
  end.

(** An installed [setInterval] callback runs once: the interval stays
    installed unless the callback clears it. The registry whose monitor and
    advisory intervals run is [window.nrfRegistry], the one instance. *)
Definition fireInterval (now : Z) (t : Timer IntervalTask) (w : World) : World :=
  match timer_task t with
  | HeartbeatMonitorTick =>
      match nrfRegistry w with
      | Some r =>
          let '(r', b') := checkHeartbeatTimeouts now r (browser w) in
          {| browser := b'; nrfRegistry := Some r';
             connectionManager := connectionManager w |}
      | None => w
      end
  | NFHeartbeatTick nfId => heartbeatTick now (timer_id t) nfId w
  | DeregisteredNFTick nfInstanceId => deregisteredNFTick (timer_id t) nfInstanceId w
  end.
(** * Vocabulary of the properties *)

(** [{ nfType: T }] *)
Definition byType (T : string) : DiscoveryQuery :=
  {| q_nfType := Some T; q_service := None |}.

(** The profiles of the registry that are REGISTERED and of type [T], in
    registry order: what a discovery by type is specified to return. *)
Definition registeredOfType (T : string) (r : NRFRegistry) : list NFProfile :=
  List.filter (fun p => bool_decide (nfStatus p = REGISTERED) && String.eqb (nfType p) T)
              (jsmap_values (registry r)).

(** The profiles of the registry that are REGISTERED, in registry order. *)
Definition registeredProfiles (r : NRFRegistry) : list NFProfile :=
  List.filter (fun p => bool_decide (nfStatus p = REGISTERED)) (jsmap_values (registry r)).

(** The keys of the registry map are distinct, as in any [Map]. *)
Definition keys_unique (r : NRFRegistry) : Prop := NoDup (jsmap_keys (registry r)).

(** Every stored profile carries a non-zero [registeredAt]. *)
Definition stamped (r : NRFRegistry) : Prop :=
  ∀ k p, jsmap_get k (registry r) = Some p → registeredAt p ≠ 0.

(** The name a profile ends up with: the supplied [nfName] if the key is
    there, the type and the last six characters of the id otherwise. *)
Definition registeredName (id : string) (nfProfile : NFProfileInput) : string :=
  match in_nfName nfProfile with
  | Some n => n
  | None => in_nfType nfProfile +:+ "-" +:+ js_slice_last 6 id
  end.

(** The heartbeat of [p] has expired at [now]. *)
Definition expired (now timeout : Z) (p : NFProfile) : bool :=
  now - lastRenewal p >? timeout.

(** What the scan does to one profile. *)
Definition scanProfile (now timeout : Z) (p : NFProfile) : NFProfile :=
  if expired now timeout p && bool_decide (nfStatus p = REGISTERED)
  then set_nfStatus UNAVAILABLE now p else p.

(** The scan marks [p] for removal. *)
Definition dueForRemoval (now timeout grace : Z) (p : NFProfile) : bool :=
  expired now timeout p && bool_decide (nfStatus p = UNAVAILABLE)
  && (now - statusChangedAt p >? grace).

(** A profile deregistered by the sweep: REMOVED, stamped at [now], with the
    reason the sweep passes. *)
Definition sweptAway (now : Z) (p : NFProfile) : Prop :=
  nfStatus p = REMOVED
  ∧ deregisteredAt p = Some now
  ∧ deregistrationReason p = Some "AUTOMATIC_HEARTBEAT_TIMEOUT".

(** The operations of the registry. *)
Inductive RegistryOp :=
| Register (now : Z) (id : string) (nfProfile : NFProfileInput)
| Renew (now : Z) (id : string)
| Deregister (now : Z) (id reason : string)
| Sweep (now : Z).

Definition applyOp (op : RegistryOp) (st : NRFRegistry * Browser) : NRFRegistry * Browser :=
  match op with
  | Register now id nfProfile => (registerNF now id nfProfile st.1 st.2).1
  | Renew now id => (updateHeartbeat now id st.1 st.2).1
  | Deregister now id reason => deregisterNF now id reason st.1 st.2
  | Sweep now => checkHeartbeatTimeouts now st.1 st.2
  end.

Definition runOps (ops : list RegistryOp) (st : NRFRegistry * Browser)
    : NRFRegistry * Browser :=
  fold_left (fun st op => applyOp op st) ops st.

(** What happens to a registry in its life: the calls of its operations, at
    any clock readings, and the purges that deregistrations queue, whenever
    they run. *)
Inductive RegistryEvent :=
| Call (op : RegistryOp)
| Purged (id : string).

Definition applyEvent (ev : RegistryEvent) (st : NRFRegistry * Browser)
    : NRFRegistry * Browser :=
  match ev with
  | Call op => applyOp op st
  | Purged id => (purgeProfile id st.1, st.2)
  end.

Definition runEvents (evs : list RegistryEvent) (st : NRFRegistry * Browser)
    : NRFRegistry * Browser :=
  fold_left (fun st ev => applyEvent ev st) evs st.

(** Every UNAVAILABLE profile is so since a moment at which its last renewal
    was older than the heartbeat timeout. *)
Definition unavailableSinceExpiry (r : NRFRegistry) : Prop :=
  ∀ k p, (k, p) ∈ registry r → nfStatus p = UNAVAILABLE →
         statusChangedAt p - lastRenewal p > heartbeatTimeout r.

(** The clock reading an operation is run at. *)
Definition opTime (op : RegistryOp) : Z :=
  match op with
  | Register now _ _ | Renew now _ | Deregister now _ _ | Sweep now => now
  end.

(** The moves the status of the profile under [id] makes in one operation:
    none; to REGISTERED by a registration of [id]; from UNAVAILABLE to
    REGISTERED by a renewal of [id]; to REMOVED, from any status, by a
    deregistration of [id]; from REGISTERED to UNAVAILABLE or from UNAVAILABLE
    to REMOVED by a sweep. *)
Definition statusMove (op : RegistryOp) (id : string) (s s' : NfStatus) : Prop :=
  s' = s
  ∨ match op with
    | Register _ k _ => k = id ∧ s' = REGISTERED
    | Renew _ k => k = id ∧ s = UNAVAILABLE ∧ s' = REGISTERED
    | Deregister _ k _ => k = id ∧ s' = REMOVED
    | Sweep _ => (s = REGISTERED ∧ s' = UNAVAILABLE) ∨ (s = UNAVAILABLE ∧ s' = REMOVED)
    end.

(** In the words of the specification: the status only moves
    REGISTERED to UNAVAILABLE to REMOVED, or UNAVAILABLE to REGISTERED on a
    renewal; a registration starts a profile afresh as REGISTERED. *)
Definition statusMoveAsSpecified (op : RegistryOp) (id : string) (s s' : NfStatus) : Prop :=
  s' = s
  ∨ (s = REGISTERED ∧ s' = UNAVAILABLE)
  ∨ (s = UNAVAILABLE ∧ s' = REMOVED)
  ∨ (s = UNAVAILABLE ∧ s' = REGISTERED ∧ ∃ now, op = Renew now id)
  ∨ (s' = REGISTERED ∧ ∃ now nfProfile, op = Register now id nfProfile).

(** A string without a dot: one part of a dotted address. *)
Fixpoint dot_free (s : string) : bool :=
  match s with
  | EmptyString => true
  | String c rest => negb (Ascii.eqb c ".") && dot_free rest
  end.

(** Every type listed as a peer has an entry of its own. *)
Definition table_closed (t : gmap string (list string)) : Prop :=
  ∀ k l x, t !! k = Some l → x ∈ l → is_Some (t !! x).

(** In the words of the specification: [typeB] appears in
    [typeA]'s allowed-peer set, or [typeA] appears in [typeB]'s. *)
Definition compatibleEitherWay (typeA typeB : string) : Prop :=
  (∃ peers, initializeValidConnections !! typeA = Some peers ∧ typeB ∈ peers)
  ∨ (∃ peers, initializeValidConnections !! typeB = Some peers ∧ typeA ∈ peers).

(** The two NFs may be linked: both exist, they differ, their addresses are in
    the same network, and their types are compatible in either direction. *)
Definition admissible (a b : string) (d : DataStore) : Prop :=
  ∃ nfA nfB,
    getNFById a d = Some nfA ∧ getNFById b d = Some nfB
    ∧ a ≠ b
    ∧ getNetworkFromIP (cfg_ipAddress (nf_config nfA))
      = getNetworkFromIP (cfg_ipAddress (nf_config nfB))
    ∧ compatibleEitherWay (nf_type nfA) (nf_type nfB).

(** What the registry never touches on an NF object: everything but
    [status] and [nrfStatus]. *)
Definition sameNF (nf nf' : NF) : Prop :=
  nf_id nf' = nf_id nf ∧ nf_name nf' = nf_name nf ∧ nf_type nf' = nf_type nf
  ∧ nf_config nf' = nf_config nf
  ∧ nf_heartbeatIntervalId nf' = nf_heartbeatIntervalId nf.

(** Two states of the browser with the same connections, the same NF objects
    up to their status, and the same interval timers up to new advisory
    timers of deregistered NFs. *)
Definition sameWiring (b b' : Browser) : Prop :=
  connections (dataStore b') = connections (dataStore b)
  ∧ (∀ id nf, getNFById id (dataStore b) = Some nf →
       ∃ nf', getNFById id (dataStore b') = Some nf' ∧ sameNF nf nf')
  ∧ (∀ t, t ∈ intervals b → t ∈ intervals b')
  ∧ (∀ t, t ∈ intervals b' →
       t ∈ intervals b ∨ ∃ k, timer_task t = DeregisteredNFTick k).

(** Each profile is stored under its own [nfInstanceId]. *)
Definition keyed (r : NRFRegistry) : Prop :=
  ∀ k p, (k, p) ∈ registry r → nfInstanceId p = k.

(** The NF that a link with the NRF registers and deregisters: the end that
    is not the NRF, when exactly one end is. *)
Definition nonRegistryEnd (sourceNF targetNF : NF) : option NF :=
  if String.eqb (nf_type targetNF) "NRF" && negb (String.eqb (nf_type sourceNF) "NRF")
  then Some sourceNF
  else if String.eqb (nf_type sourceNF) "NRF" && negb (String.eqb (nf_type targetNF) "NRF")
  then Some targetNF
  else None.




(** * A small laboratory topology *)

Definition lab_nf (id name type ip : string) : NF :=
  {| nf_id := id; nf_name := name; nf_type := type;
     nf_config := {| cfg_ipAddress := ip; cfg_port := Some 7777;
                     cfg_httpProtocol := None; cfg_tun0Interface := None |};
     nf_status := "stable"; nf_nrfStatus := None; nf_heartbeatIntervalId := None |}.

Definition nrf1 : NF := lab_nf "nrf-1" "NRF" "NRF" "192.168.1.2".

Definition amf1 : NF := lab_nf "amf-1" "AMF" "AMF" "192.168.1.5".

Definition smf1 : NF := lab_nf "smf-1" "SMF" "SMF" "10.0.0.9".

(** An instance whose type is the name of an inherited member. *)
Definition odd1 : NF := lab_nf "odd-1" "Odd" "constructor" "192.168.1.9".

Definition lab_browser : Browser :=
  {| dataStore := {| nfs := [nrf1; amf1; smf1]; connections := [] |};
     timeouts := []; intervals := []; nextTimerId := 1%positive;
     globalHTTPProtocol := None |}.

Definition lab_world : World :=
  {| browser := lab_browser; nrfRegistry := Some NRFRegistry_new;
     connectionManager := true |}.

(** The laboratory with [odd1] added. *)
Definition lab_world_odd : World :=
  {| browser := {| dataStore := {| nfs := [nrf1; amf1; smf1; odd1]; connections := [] |};
                   timeouts := []; intervals := []; nextTimerId := 1%positive;
                   globalHTTPProtocol := None |};
     nrfRegistry := Some NRFRegistry_new;
     connectionManager := true |}.

(** amf-1 registered at time 1000. *)
Definition lab_registered : NRFRegistry * Browser :=
  (registerNF 1000 "amf-1" (profileOfNF amf1) NRFRegistry_new lab_browser).1.

(** The sweep at time 130000 finds the heartbeat of amf-1 expired. *)
Definition lab_unavailable : NRFRegistry * Browser :=
  checkHeartbeatTimeouts 130000 lab_registered.1 lab_registered.2.

(** The sweep at time 170000 finds the grace period over. *)
Definition lab_swept : NRFRegistry * Browser :=
  checkHeartbeatTimeouts 170000 lab_unavailable.1 lab_unavailable.2.

(** amf-1 deregistered at time 2000. *)
Definition lab_removed : NRFRegistry * Browser :=
  deregisterNF 2000 "amf-1" "MANUAL" lab_registered.1 lab_registered.2.

(** What amf-1 re-registers with. *)
Definition amf1_again : NFProfileInput :=
  {| in_nfType := "AMF"; in_nfName := Some "AMF-blue";
     in_ipAddress := Some "192.168.1.50"; in_port := Some 8080;
     in_httpProtocol := Some "HTTP/2"; in_services := arrayOf (getServicesForNF "AMF");
     in_priority := Some 1; in_capacity := None; in_load := None |}.

(** The link amf-1 to nrf-1, created at time 500. *)
Definition lab_link : Connection :=
  {| conn_id := "conn-1"; sourceId := "amf-1"; targetId := "nrf-1";
     interfaceName := "Nnrf_NFManagement"; protocol := "HTTP/2";
     conn_status := "connected"; createdAt := 500; isManual := true;
     showVisual := true |}.

(** The profile of amf-1 after its registration at time 1000. *)
Definition amf1_profile : NFProfile :=
  {| nfInstanceId := "amf-1"; nfType := "AMF"; nfName := "AMF";
     nfStatus := REGISTERED; heartBeatTimer := 60000; registeredAt := 1000;
     lastHeartbeat := 1000; statusChangedAt := 1000;
     ipAddress := Some "192.168.1.5"; port := Some 7777;
     httpProtocol := Some "HTTP/2"; services := arrayOf (getServicesForNF "AMF");
     priority := None; capacity := None; load := None;
     deregisteredAt := None; deregistrationReason := None;
     deregisteredMonitorIntervalId := None |}.

(** Closes a decidable goal on concrete data by evaluation. *)
Ltac by_decide :=
  unfold keys_unique; apply (bool_decide_unpack _); vm_compute; exact I.

(** * Further functions of the two classes *)

(** ** [NRFRegistry] queries *)

(** What [getStatistics] returns. *)
Record RegistryStatistics := {
  stat_total : nat;
  stat_registered : nat;
  stat_unavailable : nat;
  stat_removed : nat
}.

(** The [forEach] body of [getStatistics]. *)
Definition countStatus (stats : RegistryStatistics) (profile : NFProfile)
    : RegistryStatistics :=
  match nfStatus profile with
  | REGISTERED =>
      {| stat_total := stat_total stats; stat_registered := S (stat_registered stats);
         stat_unavailable := stat_unavailable stats; stat_removed := stat_removed stats |}
  | UNAVAILABLE =>
      {| stat_total := stat_total stats; stat_registered := stat_registered stats;
         stat_unavailable := S (stat_unavailable stats); stat_removed := stat_removed stats |}
  | REMOVED =>
      {| stat_total := stat_total stats; stat_registered := stat_registered stats;
         stat_unavailable := stat_unavailable stats; stat_removed := S (stat_removed stats) |}
  end.

(** [getStatistics()] *)
Definition getStatistics (r : NRFRegistry) : RegistryStatistics :=
  fold_left countStatus (jsmap_values (registry r))
    {| stat_total := length (registry r); stat_registered := 0;
       stat_unavailable := 0; stat_removed := 0 |}.

(** [getAllRegisteredNFs()]: every stored profile, whatever its status. *)
Definition getAllRegisteredNFs (r : NRFRegistry) : list NFProfile :=
  jsmap_values (registry r).

(** [getAllRegistrationRecords()] and [getAllDeregistrationRecords()] *)
Definition getAllRegistrationRecords (r : NRFRegistry) : list RegistrationRecord :=
  registrationHistory r.

Definition getAllDeregistrationRecords (r : NRFRegistry) : list DeregistrationRecord :=
  deregistrationHistory r.

(** ** Further [ConnectionManager] methods *)

(** Modelled from the spec: [dataStore.getAllNFs()], every instance of the
    external inventory. *)
Definition getAllNFs (d : DataStore) : list NF := nfs d.

(** Modelled from the spec: [dataStore.getAllConnections()], every stored
    link. *)
Definition getAllConnections (d : DataStore) : list Connection := connections d.

(** [getValidTargets(nfId)]: the error of [isConnectionValid] leaves the
    loop. *)
Definition getValidTargets (nfId : string) (d : DataStore) : Outcome (list NF) :=
  match getNFById nfId d with
  | None => Returns []
  | Some sourceNF =>
      js_filter (fun nf =>
                   if negb (String.eqb (nf_id nf) nfId)
                   then isConnectionValid (nf_type sourceNF) (nf_type nf)
                   else Returns false)
                (getAllNFs d)
  end.

(** [getValidTargetsInSameSubnet(nfId)]: the network of an NF is compared
    after its type has been accepted. *)
Definition getValidTargetsInSameSubnet (nfId : string) (d : DataStore)
    : Outcome (list NF) :=
  match getNFById nfId d with
  | None => Returns []
  | Some sourceNF =>
      let sourceNetwork := getNetworkFromIP (cfg_ipAddress (nf_config sourceNF)) in
      js_filter (fun nf =>
                   if negb (String.eqb (nf_id nf) nfId)
                   then
                     valid ← isConnectionValid (nf_type sourceNF) (nf_type nf);
                     Returns (valid && String.eqb (getNetworkFromIP
                                                     (cfg_ipAddress (nf_config nf)))
                                                  sourceNetwork)
                   else Returns false)
                (getAllNFs d)
  end.

(** [getConnectionStats()]. The groups are the properties of a plain object
    keyed by [getNetworkFromIP] of an address; such a key holds two dots, so
    it is neither an array index nor a name of [Object.prototype], and
    [Object.keys] lists the groups in the order of their creation. *)
Record SubnetNF := {
  snf_name : string;
  snf_type : string;
  snf_ip : string
}.

Record SubnetInfo := {
  network : string;
  nfCount : nat;
  subnet_nfs : list SubnetNF
}.

Record ConnectionStats := {
  total : nat;
  byProtocol_HTTP2 : nat;
  byProtocol_HTTP1 : nat;
  byStatus_connected : nat;
  byStatus_disconnected : nat;
  totalSubnets : nat;
  subnets : list SubnetInfo
}.

Definition subnetGroups (allNFs : list NF) : list (string * list NF) :=
  fold_left (fun groups nf =>
               let subnet := getNetworkFromIP (cfg_ipAddress (nf_config nf)) in
               jsmap_set subnet (default [] (jsmap_get subnet groups) ++ [nf]) groups)
            allNFs [].

Definition getConnectionStats (d : DataStore) : ConnectionStats :=
  let connections := getAllConnections d in
  let groups := subnetGroups (getAllNFs d) in
  {| total := length connections;
     byProtocol_HTTP2 :=
       length (List.filter (fun c => String.eqb (protocol c) "HTTP/2") connections);
     byProtocol_HTTP1 :=
       length (List.filter (fun c => String.eqb (protocol c) "HTTP/1") connections);
     byStatus_connected :=
       length (List.filter (fun c => String.eqb (conn_status c) "connected") connections);
     byStatus_disconnected :=
       length (List.filter (fun c => String.eqb (conn_status c) "disconnected") connections);
     totalSubnets := length (jsmap_keys groups);
     subnets :=
       List.map (fun subnet =>
                   let group := default [] (jsmap_get subnet groups) in
                   {| network := subnet +:+ ".0/24";
                      nfCount := length group;
                      subnet_nfs :=
                        List.map (fun nf => {| snf_name := nf_name nf;
                                               snf_type := nf_type nf;
                                               snf_ip := cfg_ipAddress (nf_config nf) |})
                                 group |})
                (jsmap_keys groups) |}.

(** ** [DeploymentManager] *)

(** [getDeploymentOrder(nfs)], for topology entries of any shape with their
    [type] field. *)
Definition deploymentOrder : list string :=
  ["NRF"; "AMF"; "SMF"; "UPF"; "AUSF"; "ext-dn"; "UDM"; "PCF"; "NSSF"; "UDR";
   "MySQL"; "gNB"; "UE"].

Definition getDeploymentOrder {A : Type} (type : A → string) (nfs : list A) : list A :=
  flat_map (fun ty => List.filter (fun nf => String.eqb (type nf) ty) nfs) deploymentOrder.

(** * Vocabulary of the further properties *)

(** The query without filters. *)
Definition anyNF : DiscoveryQuery := {| q_nfType := None; q_service := None |}.

(** [{ service: s }] *)
Definition byService (s : string) : DiscoveryQuery :=
  {| q_nfType := None; q_service := Some s |}.

(** A service entry answers to [s] by its instance id or by its name. *)
Definition answersTo (s : string) (svc : NFService) : Prop :=
  serviceInstanceId svc = s ∨ serviceName svc = s.

(** The last record of a history that is about [id]. *)
Definition latestOf {A : Type} (idOf : A → string) (id : string) (h : list A) : option A :=
  last (List.filter (fun rec => String.eqb (idOf rec) id) h).

(** The latest-record maps agree with the histories. *)
Definition recordsConsistent (r : NRFRegistry) : Prop :=
  (∀ id, getRegistrationRecord id r
         = latestOf reg_nfInstanceId id (getAllRegistrationRecords r))
  ∧ (∀ id, getDeregistrationRecord id r
           = latestOf dereg_nfInstanceId id (getAllDeregistrationRecords r)).

(** A profile that a sweep at [now] leaves as it is and does not mark. *)
Definition settled (now timeout grace : Z) (p : NFProfile) : bool :=
  negb (expired now timeout p && bool_decide (nfStatus p = REGISTERED))
  && negb (dueForRemoval now timeout grace p).

(** The ways to cut [k] at one of its dashes: the pairs [(s, t)] with
    [k = s-t]. *)
Fixpoint dash_splits (k : string) : list (string * string) :=
  match k with
  | EmptyString => []
  | String c rest =>
      (if Ascii.eqb c "-" then [(EmptyString, rest)] else [])
      ++ List.map (fun st => (String c st.1, st.2)) (dash_splits rest)
  end.

(** The interface table gives one name to a pair of types in both orders:
    checked entry by entry. *)
Definition interfaces_agree : bool :=
  forallb (fun e =>
             forallb (fun st =>
                        match (list_to_map interfacesTable : gmap string string)
                                !! (st.2 +:+ "-" +:+ st.1) with
                        | Some name => String.eqb name e.2
                        | None => true
                        end)
                     (dash_splits e.1))
          interfacesTable.

(** Every pair of types that the connection table lists has an interface
    name of its own: checked entry by entry. *)
Definition interfaces_cover : bool :=
  forallb (fun e =>
             forallb (fun peer => negb (String.eqb (getInterfaceName e.1 peer) "SBI")) e.2)
          validConnectionsTable.

(** The NFs of [nfs] whose address lies in [subnet], in the order of [nfs]. *)
Definition inSubnet (subnet : string) (nfs : list NF) : list NF :=
  List.filter (fun nf => String.eqb (getNetworkFromIP (cfg_ipAddress (nf_config nf))) subnet)
              nfs.

(** An address of four dot-separated parts. *)
Definition dotted (a b c d : string) : string :=
  a +:+ "." +:+ b +:+ "." +:+ c +:+ "." +:+ d.

(** In the words of the specification: the two addresses have the same
    first three dot-separated parts, a missing part reading as
    [undefined]. *)
Definition samePrefix (ipA ipB : string) : Prop :=
  ∀ i, (i < 3)%nat → js_part (js_split "." ipA) i = js_part (js_split "." ipB) i.

(** The two NFs may be linked, in the words of the specification: both
    exist, they differ, their addresses have the same prefix, and their types
    are compatible in either direction. *)
Definition linkable (a b : string) (d : DataStore) : Prop :=
  ∃ nfA nfB,
    getNFById a d = Some nfA ∧ getNFById b d = Some nfB
    ∧ a ≠ b
    ∧ samePrefix (cfg_ipAddress (nf_config nfA)) (cfg_ipAddress (nf_config nfB))
    ∧ compatibleEitherWay (nf_type nfA) (nf_type nfB).

(** A type that names no member of [Object.prototype]. *)
Definition plainName (T : string) : Prop := includes T objectPrototypeNames = false.

(** [T1] stands at or before [T2] in [order]. *)
Definition precedes (order : list string) (T1 T2 : string) : Prop :=
  ∃ l1 l2, order = l1 ++ T1 :: l2 ∧ T2 ∈ T1 :: l2.

(** * Properties *)

(** ** The connectivity policy on examples *)

Example getNetworkFromIP_lan : getNetworkFromIP "192.168.1.5" = "192.168.1".
Proof. reflexivity. Qed.

Example getNetworkFromIP_short : getNetworkFromIP "10" = "10.undefined.undefined".
Proof. reflexivity. Qed.

Example isConnectionValid_amf_nrf : isConnectionValid "AMF" "NRF" = Returns true.
Proof. vm_compute. reflexivity. Qed.

Example isConnectionValid_extdn_upf :
  isConnectionValid "ext-dn" "UPF" = Returns true
  /\ isConnectionValid "UPF" "ext-dn" = Returns true.
Proof. vm_compute. split; reflexivity. Qed.

Example isConnectionValid_unknown : isConnectionValid "Service" "AMF" = Returns false.
Proof. vm_compute. reflexivity. Qed.

Example isConnectionValid_inherited :
  isConnectionValid "toString" "AMF" = Throws TypeError
  /\ isConnectionValid "AMF" "toString" = Throws TypeError.
Proof. vm_compute. split; reflexivity. Qed.

Example getAllowedNfTypes_examples :
  getAllowedNfTypes "UDR" = ArrayValue ["PCF"; "UDM"]
  /\ getAllowedNfTypes "NRF" = ArrayValue []
  /\ getAllowedNfTypes "valueOf" = InheritedValue "valueOf".
Proof. vm_compute. split_and!; reflexivity. Qed.

(** ** Insertion-ordered maps *)

Section JsMapFacts.
Context {V : Type}.
Implicit Types (m : list (string * V)) (k : string) (v : V).

Lemma jsmap_get_set_eq k v m : jsmap_get k (jsmap_set k v m) = Some v.
Proof.
  induction m as [|[k' v'] m IH]; csimpl.
  - by rewrite String.eqb_refl.
  - destruct (String.eqb_spec k k') as [->|Hne]; csimpl.
    + by rewrite String.eqb_refl.
    + by apply String.eqb_neq in Hne as ->.
Qed.

Lemma jsmap_get_set_ne k k' v m :
  k ≠ k' → jsmap_get k' (jsmap_set k v m) = jsmap_get k' m.
Proof.
  intros Hne. induction m as [|[k0 v0] m IH]; csimpl.
  - assert (k' ≠ k) as ->%String.eqb_neq by congruence. done.
  - destruct (String.eqb_spec k k0) as [->|Hk]; csimpl.
    + assert (k' ≠ k0) as ->%String.eqb_neq by congruence. done.
    + destruct (String.eqb k' k0); [done|apply IH].
Qed.

Lemma jsmap_get_delete_eq k m : jsmap_get k (jsmap_delete k m) = None.
Proof.
  induction m as [|[k0 v0] m IH]; csimpl; [done|].
  destruct (String.eqb_spec k k0) as [->|Hk]; csimpl; [done|].
  by apply String.eqb_neq in Hk as ->.
Qed.

Lemma jsmap_get_delete_ne k k' m :
  k ≠ k' → jsmap_get k' (jsmap_delete k m) = jsmap_get k' m.
Proof.
  intros Hne. induction m as [|[k0 v0] m IH]; csimpl; [done|].
  destruct (String.eqb_spec k k0) as [->|Hk]; csimpl.
  - assert (k' ≠ k0) as ->%String.eqb_neq by congruence. done.
  - by rewrite IH.
Qed.

(** Writing under a key that is present keeps the keys and their order. *)
Lemma jsmap_keys_set_present k v m :
  is_Some (jsmap_get k m) → jsmap_keys (jsmap_set k v m) = jsmap_keys m.
Proof.
  unfold jsmap_keys. induction m as [|[k0 v0] m IH]; csimpl.
  - by intros [? ?].
  - destruct (String.eqb_spec k k0) as [->|Hk]; csimpl; [done|].
    intros H. by rewrite IH.
Qed.

Lemma jsmap_keys_set_absent k v m :
  jsmap_get k m = None → jsmap_keys (jsmap_set k v m) = jsmap_keys m ++ [k].
Proof.
  unfold jsmap_keys. induction m as [|[k0 v0] m IH]; csimpl; [done|].
  destruct (String.eqb_spec k k0) as [->|Hk]; csimpl; [done|].
  intros H. by rewrite IH.
Qed.

Lemma jsmap_get_None k m : jsmap_get k m = None ↔ k ∉ jsmap_keys m.
Proof.
  unfold jsmap_keys. induction m as [|[k0 v0] m IH]; csimpl.
  - split; [intros _; apply not_elem_of_nil|done].
  - rewrite not_elem_of_cons. destruct (String.eqb_spec k k0) as [->|Hk].
    + split; [done|]. by intros [? _].
    + rewrite IH. tauto.
Qed.

Lemma jsmap_get_Some_elem k v m : jsmap_get k m = Some v → (k, v) ∈ m.
Proof.
  induction m as [|[k0 v0] m IH]; csimpl; [done|].
  destruct (String.eqb_spec k k0) as [->|Hk].
  - intros [= ->]. apply elem_of_cons. by left.
  - intros H. apply elem_of_cons. right. by apply IH.
Qed.

Lemma jsmap_elem_get k v m :
  NoDup (jsmap_keys m) → (k, v) ∈ m → jsmap_get k m = Some v.
Proof.
  unfold jsmap_keys. induction m as [|[k0 v0] m IH]; csimpl.
  - intros _ H. by apply elem_of_nil in H.
  - intros [Hnotin Hnd]%NoDup_cons [Heq|Hin]%elem_of_cons.
    + injection Heq as -> ->. by rewrite String.eqb_refl.
    + destruct (String.eqb_spec k k0) as [->|Hk]; [|by apply IH].
      exfalso. apply Hnotin. apply list_elem_of_fmap. by exists (k0, v).
Qed.

Lemma jsmap_keys_NoDup_set k v m :
  NoDup (jsmap_keys m) → NoDup (jsmap_keys (jsmap_set k v m)).
Proof.
  intros Hnd. destruct (jsmap_get k m) as [v0|] eqn:Hget.
  - by rewrite jsmap_keys_set_present.
  - rewrite jsmap_keys_set_absent by done.
    apply NoDup_app. split_and!; [done| |apply NoDup_singleton].
    intros x Hx ->%list_elem_of_singleton. by apply jsmap_get_None in Hget.
Qed.

Lemma jsmap_keys_delete k m :
  jsmap_keys (jsmap_delete k m) = List.filter (fun k' => negb (String.eqb k k')) (jsmap_keys m).
Proof.
  unfold jsmap_keys. induction m as [|[k0 v0] m IH]; csimpl; [done|].
  destruct (String.eqb k k0); csimpl; by rewrite IH.
Qed.

Lemma jsmap_count_absent k m : jsmap_get k m = None → jsmap_count k m = 0%nat.
Proof.
  unfold jsmap_count. induction m as [|[k0 v0] m IH]; csimpl; [done|].
  destruct (String.eqb k k0); [done|]. apply IH.
Qed.

(** With distinct keys, a key that is present names exactly one entry. *)
Lemma jsmap_count_present k m :
  NoDup (jsmap_keys m) → is_Some (jsmap_get k m) → jsmap_count k m = 1%nat.
Proof.
  unfold jsmap_count, jsmap_keys. induction m as [|[k0 v0] m IH]; csimpl.
  - by intros _ [? ?].
  - intros [Hnotin Hnd]%NoDup_cons. destruct (String.eqb_spec k k0) as [->|Hk]; csimpl.
    + intros _. f_equal. apply (jsmap_count_absent k0 m).
      by apply jsmap_get_None.
    + by apply IH.
Qed.

Lemma jsmap_get_fmap (f : string → V → V) k m :
  jsmap_get k (List.map (fun e => (e.1, f e.1 e.2)) m) = f k <$> jsmap_get k m.
Proof.
  induction m as [|[k0 v0] m IH]; csimpl; [done|].
  destruct (String.eqb_spec k k0) as [->|Hk]; [done|apply IH].
Qed.
End JsMapFacts.

Lemma jsmap_set_elem {V} k (v : V) m e : e ∈ jsmap_set k v m → e = (k, v) ∨ e ∈ m.
Proof.
  induction m as [|[k0 v0] m IH]; simpl.
  - intros ->%list_elem_of_singleton. by left.
  - destruct (String.eqb_spec k k0) as [->|Hk].
    + intros [->|H]%elem_of_cons; [by left|]. right. apply elem_of_cons. by right.
    + intros [->|H]%elem_of_cons.
      * right. apply elem_of_cons. by left.
      * destruct (IH H) as [->|?]; [by left|]. right. apply elem_of_cons. by right.
Qed.

Lemma jsmap_delete_elem {V} k (m : list (string * V)) e : e ∈ jsmap_delete k m → e ∈ m.
Proof.
  induction m as [|[k0 v0] m IH]; simpl; [done|].
  destruct (String.eqb k k0).
  - intros H. apply elem_of_cons. right. by apply IH.
  - intros [->|H]%elem_of_cons; apply elem_of_cons; [by left|right; by apply IH].
Qed.

(** ** Browser state *)

Lemma timeouts_updateStoredNF id f b : timeouts (updateStoredNF id f b) = timeouts b.
Proof. unfold updateStoredNF. by destruct (getNFById id (dataStore b)). Qed.

Lemma intervals_updateStoredNF id f b : intervals (updateStoredNF id f b) = intervals b.
Proof. unfold updateStoredNF. by destruct (getNFById id (dataStore b)). Qed.

Lemma nextTimerId_updateStoredNF id f b :
  nextTimerId (updateStoredNF id f b) = nextTimerId b.
Proof. unfold updateStoredNF. by destruct (getNFById id (dataStore b)). Qed.

Lemma connections_updateStoredNF id f b :
  connections (dataStore (updateStoredNF id f b)) = connections (dataStore b).
Proof. unfold updateStoredNF. by destruct (getNFById id (dataStore b)). Qed.

Lemma startDeregisteredNFMonitoring_timeouts id p b :
  timeouts (startDeregisteredNFMonitoring id p b).2 = timeouts b.
Proof.
  unfold startDeregisteredNFMonitoring.
  destruct (getNFById id (dataStore b)); [|done].
  by destruct (deregisteredMonitorIntervalId p).
Qed.

(** Monitoring touches only the monitor identifier of the profile. *)
Lemma startDeregisteredNFMonitoring_profile id p b :
  let p' := (startDeregisteredNFMonitoring id p b).1 in
  nfStatus p' = nfStatus p ∧ lastHeartbeat p' = lastHeartbeat p
  ∧ statusChangedAt p' = statusChangedAt p ∧ registeredAt p' = registeredAt p
  ∧ deregisteredAt p' = deregisteredAt p
  ∧ deregistrationReason p' = deregistrationReason p
  ∧ nfType p' = nfType p ∧ nfInstanceId p' = nfInstanceId p.
Proof.
  unfold startDeregisteredNFMonitoring.
  destruct (getNFById id (dataStore b)); [|done].
  by destruct (deregisteredMonitorIntervalId p).
Qed.

(** ** Heartbeat renewal *)

Lemma updateHeartbeat_get now id r b p :
  getNFProfile id r = Some p →
  getNFProfile id (updateHeartbeat now id r b).1.1
  = Some (match nfStatus p with
          | UNAVAILABLE => set_nfStatus REGISTERED now (set_lastHeartbeat now p)
          | _ => set_lastHeartbeat now p
          end).
Proof.
  unfold getNFProfile, updateHeartbeat. intros ->. simpl.
  destruct (nfStatus p); simpl; by rewrite jsmap_get_set_eq.
Qed.

(** C7. [updateHeartbeat] returns [false] exactly when the instance is not in
    the registry. When it is, the profile's [lastHeartbeat] becomes the
    current time; an UNAVAILABLE profile goes back to REGISTERED with
    [statusChangedAt] set to the current time, and any other status and its
    [statusChangedAt] are left as they are. *)
Theorem updateHeartbeat_spec (now : Z) (id : string) (r : NRFRegistry) (b : Browser) :
  ((updateHeartbeat now id r b).2 = false ↔ getNFProfile id r = None)
  ∧ (∀ p, getNFProfile id r = Some p →
       ∃ p', getNFProfile id (updateHeartbeat now id r b).1.1 = Some p'
             ∧ lastHeartbeat p' = now
             ∧ (nfStatus p = UNAVAILABLE →
                nfStatus p' = REGISTERED ∧ statusChangedAt p' = now)
             ∧ (nfStatus p ≠ UNAVAILABLE →
                nfStatus p' = nfStatus p ∧ statusChangedAt p' = statusChangedAt p)).
Proof.
  unfold getNFProfile, updateHeartbeat.
  destruct (jsmap_get id (registry r)) as [p|] eqn:Hget.
  - split.
    + destruct (nfStatus (set_lastHeartbeat now p)); simpl; split; discriminate.
    + intros ? [= <-]. simpl.
      destruct (nfStatus p) eqn:Hst; simpl; rewrite jsmap_get_set_eq;
        eexists; (split; [reflexivity|]); simpl; rewrite ?Hst;
        split_and!; try done; intros; congruence.
  - split; [done|]. intros ? [=].
Qed.

(** C10. A heartbeat for a profile that is REMOVED but still in the registry
    map is accepted ([true]) and moves [lastHeartbeat], yet the status stays
    REMOVED; a new [registerNF] under the same id is what makes it
    REGISTERED again. *)
Theorem heartbeat_does_not_resurrect (now : Z) (id : string) (r : NRFRegistry)
    (b : Browser) (p : NFProfile) :
  getNFProfile id r = Some p →
  nfStatus p = REMOVED →
  (updateHeartbeat now id r b).2 = true
  ∧ (∃ p', getNFProfile id (updateHeartbeat now id r b).1.1 = Some p'
           ∧ lastHeartbeat p' = now ∧ nfStatus p' = REMOVED)
  ∧ (∀ now' nfProfile,
       ∃ p'', getNFProfile id
                (registerNF now' id nfProfile (updateHeartbeat now id r b).1.1
                            (updateHeartbeat now id r b).1.2).1.1 = Some p''
              ∧ nfStatus p'' = REGISTERED).
Proof.
  unfold getNFProfile. intros Hget Hst.
  split_and!.
  - unfold updateHeartbeat. rewrite Hget. simpl. by rewrite Hst.
  - unfold updateHeartbeat. rewrite Hget. simpl. rewrite Hst. simpl.
    rewrite jsmap_get_set_eq. eexists. split; [reflexivity|]. by simpl.
  - intros now' nfProfile. unfold registerNF. simpl.
    rewrite jsmap_get_set_eq. eexists. split; [reflexivity|]. done.
Qed.

(** ** Deregistration *)

(** [deregisterNF] on an id that is in the registry. *)
Lemma deregisterNF_known now id reason r b p :
  getNFProfile id r = Some p →
  let r' := (deregisterNF now id reason r b).1 in
  let b' := (deregisterNF now id reason r b).2 in
  (∃ p', getNFProfile id r' = Some p'
         ∧ nfStatus p' = REMOVED
         ∧ deregisteredAt p' = Some now
         ∧ deregistrationReason p' = Some reason)
  ∧ (∃ rec, deregistrationHistory r' = deregistrationHistory r ++ [rec]
            ∧ getDeregistrationRecord id r' = Some rec
            ∧ dereg_nfInstanceId rec = id
            ∧ dq_reason (dereg_request rec) = reason)
  ∧ (∀ k, k ≠ id → getDeregistrationRecord k r' = getDeregistrationRecord k r)
  ∧ registrationHistory r' = registrationHistory r
  ∧ registrationMessages r' = registrationMessages r
  ∧ (∃ i, timeouts b' = timeouts b ++
            [{| timer_id := i; timer_delay := 5000;
                timer_task := PurgeProfile id |}])
  ∧ getNFProfile id (purgeProfile id r') = None.
Proof.
  unfold getNFProfile, getDeregistrationRecord.
  intros Hget. unfold deregisterNF. rewrite Hget.
  set (p1 := set_deregistered now reason (set_nfStatus REMOVED now p)).
  set (b1 := updateStoredNF id _ b).
  pose proof (startDeregisteredNFMonitoring_profile id p1 b1) as Hp.
  pose proof (startDeregisteredNFMonitoring_timeouts id p1 b1) as Ht.
  destruct (startDeregisteredNFMonitoring id p1 b1) as [p2 b2].
  simpl in *. destruct Hp as (Hs & _ & _ & _ & Hda & Hdr & _).
  split_and!.
  - rewrite jsmap_get_set_eq. exists p2. by rewrite Hs, Hda, Hdr.
  - eexists. split; [reflexivity|]. by rewrite lookup_insert_eq.
  - intros k Hk. by rewrite lookup_insert_ne.
  - done.
  - done.
  - exists (nextTimerId b2). rewrite Ht. unfold b1.
    by rewrite timeouts_updateStoredNF.
  - apply jsmap_get_delete_eq.
Qed.

(** C9. [deregisterNF] on an id that is not in the registry changes nothing:
    the registry object (profile map, histories, latest-record maps) and the
    browser state are returned as they were. On a known id the profile's
    status becomes REMOVED, [deregisteredAt] and [deregistrationReason] are
    stamped, one record is appended to the deregistration history and becomes
    the latest record of that id (the latest records of other ids and the
    registration records are untouched), and one timeout of 5000 ms is queued
    whose callback deletes the id from the registry map. *)
Theorem deregisterNF_spec (now : Z) (id reason : string) (r : NRFRegistry) (b : Browser) :
  (getNFProfile id r = None → deregisterNF now id reason r b = (r, b))
  ∧ (∀ p, getNFProfile id r = Some p →
       let r' := (deregisterNF now id reason r b).1 in
       let b' := (deregisterNF now id reason r b).2 in
       (∃ p', getNFProfile id r' = Some p'
              ∧ nfStatus p' = REMOVED
              ∧ deregisteredAt p' = Some now
              ∧ deregistrationReason p' = Some reason)
       ∧ (∃ rec, deregistrationHistory r' = deregistrationHistory r ++ [rec]
                 ∧ getDeregistrationRecord id r' = Some rec
                 ∧ dereg_nfInstanceId rec = id
                 ∧ dq_reason (dereg_request rec) = reason)
       ∧ (∀ k, k ≠ id → getDeregistrationRecord k r' = getDeregistrationRecord k r)
       ∧ registrationHistory r' = registrationHistory r
       ∧ registrationMessages r' = registrationMessages r
       ∧ (∃ i, timeouts b' = timeouts b ++
                 [{| timer_id := i; timer_delay := 5000;
                     timer_task := PurgeProfile id |}])
       ∧ getNFProfile id (purgeProfile id r') = None).
Proof.
  split.
  - unfold getNFProfile. intros Hget. unfold deregisterNF. by rewrite Hget.
  - intros p Hget. exact (deregisterNF_known now id reason r b p Hget).
Qed.

(** ** Discovery *)

Lemma discover_keeps_REGISTERED q p : discover_keeps q p = true → nfStatus p = REGISTERED.
Proof.
  unfold discover_keeps. destruct (bool_decide_reflect (nfStatus p = REGISTERED)); simpl.
  - done.
  - discriminate.
Qed.

Lemma discover_keeps_byType T p :
  T ≠ "" →
  discover_keeps (byType T) p
  = bool_decide (nfStatus p = REGISTERED) && String.eqb (nfType p) T.
Proof.
  intros HT. unfold discover_keeps, byType, truthy_opt_str, truthy_str. simpl.
  apply String.eqb_neq in HT as ->. simpl.
  destruct (bool_decide (nfStatus p = REGISTERED)); simpl; [|done].
  destruct (String.eqb_spec (nfType p) T) as [->|Hne].
  - by rewrite bool_decide_eq_true_2.
  - rewrite bool_decide_eq_false_2; [done|congruence].
Qed.

Lemma discoverNFs_REGISTERED q r p : p ∈ discoverNFs q r → nfStatus p = REGISTERED.
Proof.
  unfold discoverNFs. intros Hin.
  apply list_elem_of_In, filter_In in Hin as [_ Hk].
  by eapply discover_keeps_REGISTERED.
Qed.

(** C1 (as amended). Whatever the query, [discoverNFs] returns no profile
    whose status is not REGISTERED; for every non-empty type [T],
    [discoverNFs({nfType: T})] returns exactly the profiles of the registry
    that are REGISTERED and whose type is [T]; and for the empty type, which
    is falsy and switches the type filter off, [discoverNFs({nfType: ""})]
    returns every REGISTERED profile of the registry, whatever its type. *)
Theorem discoverNFs_spec :
  (∀ q r p, p ∈ discoverNFs q r → nfStatus p = REGISTERED)
  ∧ (∀ T r, T ≠ "" → discoverNFs (byType T) r = registeredOfType T r)
  ∧ (∀ r, discoverNFs (byType "") r = registeredProfiles r).
Proof.
  split_and!.
  - apply discoverNFs_REGISTERED.
  - intros T r HT. unfold discoverNFs, registeredOfType.
    apply filter_ext. intros p. by apply discover_keeps_byType.
  - intros r. unfold discoverNFs, registeredProfiles.
    apply filter_ext. intros p. unfold discover_keeps, byType. simpl.
    by destruct (bool_decide (nfStatus p = REGISTERED)).
Qed.

(** ** Registration *)

Lemma keys_unique_new : keys_unique NRFRegistry_new.
Proof. apply NoDup_nil_2. Qed.

Lemma stamped_new : stamped NRFRegistry_new.
Proof. intros k p [=]. Qed.

Lemma keys_unique_registerNF now id nfProfile r b :
  keys_unique r → keys_unique (registerNF now id nfProfile r b).1.1.
Proof. unfold keys_unique. simpl. apply jsmap_keys_NoDup_set. Qed.

Lemma or_num_nonzero (a : option Z) (d : Z) :
  d ≠ 0 → or_num a d ≠ 0.
Proof.
  intros Hd. unfold or_num, truthy_num. destruct a as [z|]; [|done].
  destruct (Z.eqb_spec z 0); simpl; done.
Qed.

Lemma stamped_registerNF now id nfProfile r b :
  now ≠ 0 → stamped r → stamped (registerNF now id nfProfile r b).1.1.
Proof.
  intros Hnow Hr k p. simpl. destruct (decide (id = k)) as [->|Hne].
  - rewrite jsmap_get_set_eq. intros [= <-]. simpl. by apply or_num_nonzero.
  - rewrite jsmap_get_set_ne by done. apply Hr.
Qed.

Lemma keys_unique_updateHeartbeat now id r b :
  keys_unique r → keys_unique (updateHeartbeat now id r b).1.1.
Proof.
  unfold keys_unique, updateHeartbeat.
  destruct (jsmap_get id (registry r)) as [p|]; [|done].
  destruct (nfStatus (set_lastHeartbeat now p)); simpl; apply jsmap_keys_NoDup_set.
Qed.

Lemma stamped_updateHeartbeat now id r b :
  stamped r → stamped (updateHeartbeat now id r b).1.1.
Proof.
  intros Hr k q. unfold updateHeartbeat.
  destruct (jsmap_get id (registry r)) as [p|] eqn:Hget; [|apply Hr].
  destruct (decide (id = k)) as [->|Hne].
  - destruct (nfStatus (set_lastHeartbeat now p)); simpl;
      rewrite jsmap_get_set_eq; intros [= <-]; simpl; by eapply Hr.
  - destruct (nfStatus (set_lastHeartbeat now p)); simpl;
      rewrite jsmap_get_set_ne by done; apply Hr.
Qed.

Lemma keys_deregisterNF now id reason r b :
  jsmap_keys (registry (deregisterNF now id reason r b).1) = jsmap_keys (registry r).
Proof.
  unfold deregisterNF.
  destruct (jsmap_get id (registry r)) as [p|] eqn:Hget; [|done].
  destruct (startDeregisteredNFMonitoring _ _ _) as [p2 b2]. simpl.
  apply jsmap_keys_set_present. by rewrite Hget.
Qed.

Lemma keys_unique_deregisterNF now id reason r b :
  keys_unique r → keys_unique (deregisterNF now id reason r b).1.
Proof. unfold keys_unique. by rewrite keys_deregisterNF. Qed.

Lemma stamped_deregisterNF now id reason r b :
  stamped r → stamped (deregisterNF now id reason r b).1.
Proof.
  intros Hr k q. unfold deregisterNF.
  destruct (jsmap_get id (registry r)) as [p|] eqn:Hget; [|apply Hr].
  set (p1 := set_deregistered _ _ _).
  pose proof (startDeregisteredNFMonitoring_profile id p1
                (updateStoredNF id (fun nf => nf_set_status "unstable"
                                                (nf_set_nrfStatus REMOVED nf)) b)) as Hp.
  destruct (startDeregisteredNFMonitoring _ _ _) as [p2 b2]. simpl in *.
  destruct Hp as (_ & _ & _ & Hra & _).
  destruct (decide (id = k)) as [->|Hne].
  - rewrite jsmap_get_set_eq. intros [= <-]. rewrite Hra. simpl. by eapply Hr.
  - rewrite jsmap_get_set_ne by done. apply Hr.
Qed.

Lemma keys_unique_purgeProfile id r : keys_unique r → keys_unique (purgeProfile id r).
Proof.
  unfold keys_unique, purgeProfile. simpl. rewrite jsmap_keys_delete.
  intros H%NoDup_ListNoDup. by apply NoDup_ListNoDup, List.NoDup_filter.
Qed.

(** C3. A [registerNF] call for an id that is already in the registry is
    accepted: the stored profile takes the newly supplied fields, keeps the
    [registeredAt] of the profile it replaces, and the id still names exactly
    one entry of the registry map, at the same position. *)
Theorem registerNF_again (now : Z) (id : string) (nfProfile : NFProfileInput)
    (r : NRFRegistry) (b : Browser) (p : NFProfile) :
  keys_unique r →
  getNFProfile id r = Some p →
  registeredAt p ≠ 0 →
  let r' := (registerNF now id nfProfile r b).1.1 in
  let res := (registerNF now id nfProfile r b).2 in
  (∃ p', getNFProfile id r' = Some p'
         ∧ registeredAt p' = registeredAt p
         ∧ nfInstanceId p' = id
         ∧ nfType p' = in_nfType nfProfile
         ∧ nfName p' = registeredName id nfProfile
         ∧ ipAddress p' = in_ipAddress nfProfile
         ∧ port p' = in_port nfProfile
         ∧ httpProtocol p' = in_httpProtocol nfProfile
         ∧ services p' = in_services nfProfile
         ∧ priority p' = in_priority nfProfile
         ∧ capacity p' = in_capacity nfProfile
         ∧ load p' = in_load nfProfile
         ∧ nfStatus p' = REGISTERED
         ∧ lastHeartbeat p' = now
         ∧ statusChangedAt p' = now)
  ∧ jsmap_count id (registry r') = 1%nat
  ∧ jsmap_keys (registry r') = jsmap_keys (registry r)
  ∧ res_nfInstanceId res = id
  ∧ res_nfStatus res = REGISTERED.
Proof.
  unfold keys_unique, getNFProfile. intros Hnd Hget Hra. simpl.
  split_and!; try done.
  - rewrite jsmap_get_set_eq. eexists. split; [reflexivity|]. simpl.
    rewrite Hget. simpl. unfold truthy_num.
    apply Z.eqb_neq in Hra as ->. simpl.
    split_and!; try done.
    unfold registeredName, spread, or_str. by destruct (in_nfName nfProfile).
  - apply jsmap_count_present.
    + by apply jsmap_keys_NoDup_set.
    + by rewrite jsmap_get_set_eq.
  - apply jsmap_keys_set_present. by rewrite Hget.
Qed.

(** ** The heartbeat sweep *)

Lemma sweepScan_registry now timeout grace m b :
  (sweepScan now timeout grace m b).1.1
  = List.map (fun e => (e.1, scanProfile now timeout e.2)) m.
Proof.
  revert b. induction m as [|[id p] m IH]; intros b; simpl; [done|].
  unfold scanProfile, expired.
  destruct (now - lastRenewal p >? timeout) eqn:Hexp; simpl.
  - destruct (nfStatus p) eqn:Hst; simpl.
    + specialize (IH (updateStoredNF id (nf_set_nrfStatus UNAVAILABLE) b)).
      destruct (sweepScan _ _ _ m _) as [[m' b''] rm]. simpl in *. by rewrite IH.
    + destruct (now - statusChangedAt p >? grace);
        specialize (IH b); destruct (sweepScan _ _ _ m _) as [[m' b''] rm];
        simpl in *; by rewrite IH.
    + specialize (IH b). destruct (sweepScan _ _ _ m _) as [[m' b''] rm].
      simpl in *. by rewrite IH.
  - specialize (IH b). destruct (sweepScan _ _ _ m _) as [[m' b''] rm].
    simpl in *. by rewrite IH.
Qed.

Lemma sweepScan_toRemove now timeout grace m b :
  (sweepScan now timeout grace m b).2
  = List.map fst (List.filter (fun e => dueForRemoval now timeout grace e.2) m).
Proof.
  revert b. induction m as [|[id p] m IH]; intros b; simpl; [done|].
  unfold dueForRemoval, expired.
  destruct (now - lastRenewal p >? timeout) eqn:Hexp; simpl.
  - destruct (nfStatus p) eqn:Hst; simpl.
    + specialize (IH (updateStoredNF id (nf_set_nrfStatus UNAVAILABLE) b)).
      destruct (sweepScan _ _ _ m _) as [[m' b''] rm]. simpl in *. by rewrite IH.
    + destruct (now - statusChangedAt p >? grace);
        specialize (IH b); destruct (sweepScan _ _ _ m _) as [[m' b''] rm];
        simpl in *; by rewrite IH.
    + specialize (IH b). destruct (sweepScan _ _ _ m _) as [[m' b''] rm].
      simpl in *. by rewrite IH.
  - specialize (IH b). destruct (sweepScan _ _ _ m _) as [[m' b''] rm].
    simpl in *. by rewrite IH.
Qed.

Lemma scan_keys now timeout (m : list (string * NFProfile)) :
  jsmap_keys (List.map (fun e => (e.1, scanProfile now timeout e.2)) m) = jsmap_keys m.
Proof.
  unfold jsmap_keys. induction m as [|[k p] m IH]; csimpl; [done|]. by f_equal.
Qed.

Lemma scan_get now timeout id (m : list (string * NFProfile)) :
  jsmap_get id (List.map (fun e => (e.1, scanProfile now timeout e.2)) m)
  = scanProfile now timeout <$> jsmap_get id m.
Proof. apply (jsmap_get_fmap (fun _ => scanProfile now timeout)). Qed.

(** With distinct keys, an id is marked exactly when its profile is due. *)
Lemma toRemove_elem now timeout grace id p (m : list (string * NFProfile)) :
  NoDup (jsmap_keys m) →
  jsmap_get id m = Some p →
  id ∈ List.map fst (List.filter (fun e => dueForRemoval now timeout grace e.2) m)
  ↔ dueForRemoval now timeout grace p = true.
Proof.
  intros Hnd Hget. rewrite list_elem_of_In, in_map_iff. split.
  - intros [[k q] [Hk [Hin Hdue]%filter_In]]. simpl in *. subst k.
    apply list_elem_of_In, jsmap_elem_get in Hin; [|done]. congruence.
  - intros Hdue. exists (id, p). split; [done|]. apply filter_In. split; [|done].
    by apply list_elem_of_In, jsmap_get_Some_elem.
Qed.

Lemma deregisterNF_get_ne now id id' reason r b :
  id' ≠ id →
  getNFProfile id (deregisterNF now id' reason r b).1 = getNFProfile id r.
Proof.
  intros Hne. unfold getNFProfile, deregisterNF.
  destruct (jsmap_get id' (registry r)) as [p|]; [|done].
  destruct (startDeregisteredNFMonitoring _ _ _) as [p2 b2]. simpl.
  by apply jsmap_get_set_ne.
Qed.

Lemma deregisterNF_get_eq now id reason r b p :
  getNFProfile id r = Some p →
  ∃ p', getNFProfile id (deregisterNF now id reason r b).1 = Some p'
        ∧ nfStatus p' = REMOVED
        ∧ deregisteredAt p' = Some now
        ∧ deregistrationReason p' = Some reason.
Proof. intros Hget. by destruct (deregisterNF_known now id reason r b p Hget). Qed.

Lemma removeAll_cons now id ids r b :
  removeAll now (id :: ids) r b
  = removeAll now ids (deregisterNF now id "AUTOMATIC_HEARTBEAT_TIMEOUT" r b).1
                      (deregisterNF now id "AUTOMATIC_HEARTBEAT_TIMEOUT" r b).2.
Proof.
  unfold removeAll. simpl.
  by destruct (deregisterNF now id "AUTOMATIC_HEARTBEAT_TIMEOUT" r b).
Qed.

Lemma removeAll_keys now ids r b :
  jsmap_keys (registry (removeAll now ids r b).1) = jsmap_keys (registry r).
Proof.
  revert r b. induction ids as [|k ids IH]; intros r b; [done|].
  rewrite removeAll_cons, IH. apply keys_deregisterNF.
Qed.

Lemma removeAll_get_notin now ids id r b :
  id ∉ ids → getNFProfile id (removeAll now ids r b).1 = getNFProfile id r.
Proof.
  revert r b. induction ids as [|k ids IH]; intros r b Hnotin; [done|].
  apply not_elem_of_cons in Hnotin as [Hne Hnotin].
  rewrite removeAll_cons, IH by done. by apply deregisterNF_get_ne.
Qed.

Lemma removeAll_keeps_swept now ids id r b p :
  getNFProfile id r = Some p → sweptAway now p →
  ∃ p', getNFProfile id (removeAll now ids r b).1 = Some p' ∧ sweptAway now p'.
Proof.
  revert r b p. induction ids as [|k ids IH]; intros r b p Hget Hp.
  - by exists p.
  - rewrite removeAll_cons. destruct (decide (k = id)) as [->|Hne].
    + destruct (deregisterNF_get_eq now id "AUTOMATIC_HEARTBEAT_TIMEOUT" r b p Hget)
        as (p' & Hget' & ? & ? & ?).
      by eapply IH.
    + eapply IH; [|done]. by rewrite deregisterNF_get_ne.
Qed.

Lemma removeAll_get_in now ids id r b p :
  id ∈ ids → getNFProfile id r = Some p →
  ∃ p', getNFProfile id (removeAll now ids r b).1 = Some p' ∧ sweptAway now p'.
Proof.
  revert r b p. induction ids as [|k ids IH]; intros r b p Hin Hget.
  - by apply elem_of_nil in Hin.
  - rewrite removeAll_cons. destruct (decide (k = id)) as [->|Hne].
    + destruct (deregisterNF_get_eq now id "AUTOMATIC_HEARTBEAT_TIMEOUT" r b p Hget)
        as (p' & Hget' & ? & ? & ?).
      by eapply removeAll_keeps_swept.
    + apply elem_of_cons in Hin as [->|Hin]; [done|].
      eapply IH; [done|]. by rewrite deregisterNF_get_ne.
Qed.

(** [checkHeartbeatTimeouts] is the removals applied to what the scan left. *)
Lemma checkHeartbeatTimeouts_unfold now r b :
  checkHeartbeatTimeouts now r b
  = removeAll now
      (List.map fst (List.filter
         (fun e => dueForRemoval now (heartbeatTimeout r) (gracePeriod r) e.2) (registry r)))
      (set_registry
         (List.map (fun e => (e.1, scanProfile now (heartbeatTimeout r) e.2)) (registry r)) r)
      (sweepScan now (heartbeatTimeout r) (gracePeriod r) (registry r) b).1.2.
Proof.
  unfold checkHeartbeatTimeouts.
  pose proof (sweepScan_registry now (heartbeatTimeout r) (gracePeriod r) (registry r) b) as H1.
  pose proof (sweepScan_toRemove now (heartbeatTimeout r) (gracePeriod r) (registry r) b) as H2.
  destruct (sweepScan _ _ _ _ _) as [[m b'] rm]. simpl in *. by subst.
Qed.

Lemma keys_checkHeartbeatTimeouts now r b :
  jsmap_keys (registry (checkHeartbeatTimeouts now r b).1) = jsmap_keys (registry r).
Proof.
  rewrite checkHeartbeatTimeouts_unfold, removeAll_keys. simpl. apply scan_keys.
Qed.

Lemma keys_unique_checkHeartbeatTimeouts now r b :
  keys_unique r → keys_unique (checkHeartbeatTimeouts now r b).1.
Proof. unfold keys_unique. by rewrite keys_checkHeartbeatTimeouts. Qed.

(** What a sweep does to the profile stored under [id]. *)
Lemma checkHeartbeatTimeouts_get now r b id p :
  keys_unique r →
  getNFProfile id r = Some p →
  if dueForRemoval now (heartbeatTimeout r) (gracePeriod r) p
  then ∃ p', getNFProfile id (checkHeartbeatTimeouts now r b).1 = Some p'
             ∧ sweptAway now p'
  else getNFProfile id (checkHeartbeatTimeouts now r b).1
       = Some (scanProfile now (heartbeatTimeout r) p).
Proof.
  unfold keys_unique. intros Hnd Hget.
  rewrite checkHeartbeatTimeouts_unfold.
  pose proof (toRemove_elem now (heartbeatTimeout r) (gracePeriod r) id p
                (registry r) Hnd Hget) as Hmark.
  destruct (dueForRemoval now (heartbeatTimeout r) (gracePeriod r) p) eqn:Hdue.
  - eapply removeAll_get_in; [by apply Hmark|].
    unfold getNFProfile in *. simpl. rewrite scan_get, Hget. done.
  - rewrite removeAll_get_notin.
    + unfold getNFProfile in *. simpl. by rewrite scan_get, Hget.
    + intros Hin. apply Hmark in Hin. discriminate.
Qed.

Lemma expired_true now timeout p :
  now - lastRenewal p > timeout → expired now timeout p = true.
Proof. unfold expired. destruct (Z.gtb_spec (now - lastRenewal p) timeout); [done|lia]. Qed.

(** The sweep on any registry with distinct keys. The removals are collected
    during the scan and applied after it: the scan keeps every key, turns no
    status into REMOVED, leaves each marked profile in the map as
    UNAVAILABLE, and the sweep is [deregisterNF] over the collected ids on the
    state the completed scan left. *)
Lemma checkHeartbeatTimeouts_sweeps (now : Z) (r : NRFRegistry) (b : Browser) :
  keys_unique r →
  (∀ id p, getNFProfile id r = Some p →
     nfStatus p = REGISTERED →
     now - lastRenewal p > heartbeatTimeout r →
     ∃ p', getNFProfile id (checkHeartbeatTimeouts now r b).1 = Some p'
           ∧ nfStatus p' = UNAVAILABLE ∧ statusChangedAt p' = now)
  ∧ (∀ id p, getNFProfile id r = Some p →
       nfStatus p = UNAVAILABLE →
       now - lastRenewal p > heartbeatTimeout r →
       now - statusChangedAt p > gracePeriod r →
       ∃ p', getNFProfile id (checkHeartbeatTimeouts now r b).1 = Some p'
             ∧ nfStatus p' = REMOVED
             ∧ deregisteredAt p' = Some now
             ∧ deregistrationReason p' = Some "AUTOMATIC_HEARTBEAT_TIMEOUT")
  ∧ (∃ m b1 toRemove,
       sweepScan now (heartbeatTimeout r) (gracePeriod r) (registry r) b = (m, b1, toRemove)
       ∧ checkHeartbeatTimeouts now r b = removeAll now toRemove (set_registry m r) b1
       ∧ jsmap_keys m = jsmap_keys (registry r)
       ∧ (∀ id q, jsmap_get id m = Some q → nfStatus q = REMOVED →
            jsmap_get id (registry r) = Some q)
       ∧ (∀ id, id ∈ toRemove →
            ∃ q, jsmap_get id m = Some q ∧ nfStatus q = UNAVAILABLE)).
Proof.
  intros Hnd. split_and!.
  - intros id p Hget Hst Hexp.
    pose proof (checkHeartbeatTimeouts_get now r b id p Hnd Hget) as H.
    unfold dueForRemoval in H. rewrite Hst in H.
    rewrite andb_false_r in H. simpl in H.
    eexists. split; [exact H|]. unfold scanProfile.
    rewrite expired_true by done. by rewrite Hst.
  - intros id p Hget Hst Hexp Hgrace.
    pose proof (checkHeartbeatTimeouts_get now r b id p Hnd Hget) as H.
    unfold dueForRemoval in H. rewrite expired_true, Hst in H by done. simpl in H.
    destruct (Z.gtb_spec (now - statusChangedAt p) (gracePeriod r)); [|lia].
    destruct H as (p' & Hget' & ? & ? & ?). by exists p'.
  - pose proof (sweepScan_registry now (heartbeatTimeout r) (gracePeriod r) (registry r) b)
      as H1.
    pose proof (sweepScan_toRemove now (heartbeatTimeout r) (gracePeriod r) (registry r) b)
      as H2.
    unfold checkHeartbeatTimeouts.
    destruct (sweepScan _ _ _ _ _) as [[m b1] toRemove]. simpl in *. subst.
    eexists _, b1, _. split_and!; try done.
    + apply scan_keys.
    + intros id q. rewrite scan_get.
      destruct (jsmap_get id (registry r)) as [q0|]; [|done]. simpl.
      intros [= <-]. unfold scanProfile.
      by destruct (expired _ _ q0 && bool_decide (nfStatus q0 = REGISTERED)).
    + intros id Hin. rewrite list_elem_of_In, in_map_iff in Hin.
      destruct Hin as [[k q0] [Hk [Hin Hdue]%filter_In]]. simpl in *. subst k.
      apply list_elem_of_In, jsmap_elem_get in Hin; [|done].
      rewrite scan_get, Hin. simpl. unfold dueForRemoval in Hdue.
      apply andb_prop in Hdue as [[_ Hst%bool_decide_eq_true]%andb_prop _].
      eexists. split; [done|]. unfold scanProfile.
      rewrite Hst, andb_false_r. done.
Qed.

(** ** The status state machine *)

Lemma keys_unique_applyOp op st : keys_unique st.1 → keys_unique (applyOp op st).1.
Proof.
  destruct op; unfold applyOp.
  - apply keys_unique_registerNF.
  - apply keys_unique_updateHeartbeat.
  - apply keys_unique_deregisterNF.
  - apply keys_unique_checkHeartbeatTimeouts.
Qed.

Lemma keys_unique_runOps ops st : keys_unique st.1 → keys_unique (runOps ops st).1.
Proof.
  revert st. induction ops as [|op ops IH]; intros st H; [done|].
  simpl. apply IH. by apply keys_unique_applyOp.
Qed.

(** One operation on any registry with distinct keys. *)
Lemma applyOp_statusMove op st id p :
  keys_unique st.1 →
  getNFProfile id st.1 = Some p →
  ∃ p', getNFProfile id (applyOp op st).1 = Some p'
        ∧ statusMove op id (nfStatus p) (nfStatus p').
Proof.
  destruct st as [r b]. simpl. intros Hnd Hget.
  destruct op as [now k nfProfile|now k|now k reason|now]; simpl.
  - unfold getNFProfile in *. simpl. destruct (decide (k = id)) as [->|Hne].
    + rewrite jsmap_get_set_eq. eexists. split; [done|]. right. done.
    + rewrite jsmap_get_set_ne by done. exists p. split; [done|]. by left.
  - destruct (decide (k = id)) as [->|Hne].
    + rewrite (updateHeartbeat_get now id r b p Hget). eexists. split; [done|].
      destruct (nfStatus p) eqn:Hst; simpl; rewrite ?Hst; [by left|by right|by left].
    + exists p. split; [|by left]. unfold getNFProfile in *. unfold updateHeartbeat.
      destruct (jsmap_get k (registry r)) as [q|]; [|done].
      destruct (nfStatus (set_lastHeartbeat now q)); simpl;
        by rewrite jsmap_get_set_ne.
  - destruct (decide (k = id)) as [->|Hne].
    + destruct (deregisterNF_get_eq now id reason r b p Hget) as (p' & Hget' & Hst & _).
      exists p'. split; [done|]. right. done.
    + exists p. split; [|by left]. by rewrite deregisterNF_get_ne.
  - pose proof (checkHeartbeatTimeouts_get now r b id p Hnd Hget) as H.
    destruct (dueForRemoval now (heartbeatTimeout r) (gracePeriod r) p) eqn:Hdue.
    + destruct H as (p' & Hget' & Hst & _). exists p'. split; [done|].
      unfold dueForRemoval in Hdue.
      apply andb_prop in Hdue as [[_ Hu%bool_decide_eq_true]%andb_prop _].
      right. right. done.
    + eexists. split; [exact H|]. unfold scanProfile.
      destruct (expired _ _ p); simpl; [|by left].
      destruct (bool_decide_reflect (nfStatus p = REGISTERED)) as [Hst|Hst]; simpl.
      * right. left. done.
      * by left.
Qed.

(** C2 (as amended). After any sequence of registry operations on a registry
    with distinct keys, one further operation leaves every stored profile in
    the map and changes its status only as follows: a registration of its id
    makes it REGISTERED; a renewal of its id moves UNAVAILABLE to REGISTERED;
    a deregistration of its id moves any status to REMOVED; a sweep moves
    REGISTERED to UNAVAILABLE or UNAVAILABLE to REMOVED. In particular a
    REMOVED profile leaves REMOVED only by a registration of its id. *)
Theorem status_state_machine (st0 : NRFRegistry * Browser) (ops : list RegistryOp)
    (op : RegistryOp) (id : string) (p : NFProfile) :
  keys_unique st0.1 →
  getNFProfile id (runOps ops st0).1 = Some p →
  ∃ p', getNFProfile id (applyOp op (runOps ops st0)).1 = Some p'
        ∧ statusMove op id (nfStatus p) (nfStatus p')
        ∧ (nfStatus p = REMOVED → nfStatus p' ≠ REMOVED →
           ∃ now nfProfile, op = Register now id nfProfile).
Proof.
  intros Hnd Hget.
  destruct (applyOp_statusMove op (runOps ops st0) id p) as (p' & Hget' & Hmove);
    [by apply keys_unique_runOps|done|].
  exists p'. split_and!; [done..|].
  intros Hrem Hnot. destruct Hmove as [Hsame|Hmove]; [congruence|].
  destruct op as [now k nfProfile|now k|now k reason|now]; simpl in Hmove.
  - destruct Hmove as [-> _]. by eexists _, _.
  - destruct Hmove as (_ & Hu & _). congruence.
  - destruct Hmove as [_ ?]. congruence.
  - destruct Hmove as [[? _]|[? _]]; congruence.
Qed.

(** ** Registries in their life *)

Lemma config_deregisterNF now id reason r b :
  heartbeatTimeout (deregisterNF now id reason r b).1 = heartbeatTimeout r
  ∧ gracePeriod (deregisterNF now id reason r b).1 = gracePeriod r.
Proof.
  unfold deregisterNF. destruct (jsmap_get id (registry r)); [|done].
  by destruct (startDeregisteredNFMonitoring _ _ _).
Qed.

Lemma config_removeAll now ids r b :
  heartbeatTimeout (removeAll now ids r b).1 = heartbeatTimeout r
  ∧ gracePeriod (removeAll now ids r b).1 = gracePeriod r.
Proof.
  revert r b. induction ids as [|k ids IH]; intros r b; [done|].
  rewrite removeAll_cons.
  destruct (IH (deregisterNF now k "AUTOMATIC_HEARTBEAT_TIMEOUT" r b).1
               (deregisterNF now k "AUTOMATIC_HEARTBEAT_TIMEOUT" r b).2) as [-> ->].
  apply config_deregisterNF.
Qed.

Lemma config_checkHeartbeatTimeouts now r b :
  heartbeatTimeout (checkHeartbeatTimeouts now r b).1 = heartbeatTimeout r
  ∧ gracePeriod (checkHeartbeatTimeouts now r b).1 = gracePeriod r.
Proof.
  rewrite checkHeartbeatTimeouts_unfold.
  split; (etrans; [apply config_removeAll|done]).
Qed.

Lemma config_updateHeartbeat now id r b :
  heartbeatTimeout (updateHeartbeat now id r b).1.1 = heartbeatTimeout r
  ∧ gracePeriod (updateHeartbeat now id r b).1.1 = gracePeriod r.
Proof.
  unfold updateHeartbeat. destruct (jsmap_get id (registry r)) as [p|]; [|done].
  by destruct (nfStatus (set_lastHeartbeat now p)).
Qed.

Lemma config_registerNF now id nfProfile r b :
  heartbeatTimeout (registerNF now id nfProfile r b).1.1 = heartbeatTimeout r
  ∧ gracePeriod (registerNF now id nfProfile r b).1.1 = gracePeriod r.
Proof. done. Qed.

Lemma config_applyEvent ev st :
  heartbeatTimeout (applyEvent ev st).1 = heartbeatTimeout st.1
  ∧ gracePeriod (applyEvent ev st).1 = gracePeriod st.1.
Proof.
  destruct ev as [[now id nfProfile|now id|now id reason|now]|id]; unfold applyEvent, applyOp.
  - apply config_registerNF.
  - apply config_updateHeartbeat.
  - apply config_deregisterNF.
  - apply config_checkHeartbeatTimeouts.
  - done.
Qed.

Lemma config_runEvents evs st :
  heartbeatTimeout (runEvents evs st).1 = heartbeatTimeout st.1
  ∧ gracePeriod (runEvents evs st).1 = gracePeriod st.1.
Proof.
  revert st. induction evs as [|ev evs IH]; intros st; [done|]. simpl.
  destruct (IH (applyEvent ev st)) as [-> ->]. apply config_applyEvent.
Qed.

Lemma keys_unique_runEvents evs st : keys_unique st.1 → keys_unique (runEvents evs st).1.
Proof.
  revert st. induction evs as [|ev evs IH]; intros st H; [done|].
  simpl. apply IH. destruct ev as [op|id]; unfold applyEvent.
  - by apply keys_unique_applyOp.
  - by apply keys_unique_purgeProfile.
Qed.

Lemma unavailableSinceExpiry_set id q (r r' : NRFRegistry) :
  registry r' = jsmap_set id q (registry r) →
  heartbeatTimeout r' = heartbeatTimeout r →
  nfStatus q ≠ UNAVAILABLE →
  unavailableSinceExpiry r → unavailableSinceExpiry r'.
Proof.
  intros Hreg Hto Hq Hr k p. rewrite Hreg, Hto.
  intros [[= -> ->]|Hin]%jsmap_set_elem Hst; [done|]. by apply (Hr k).
Qed.

Lemma unavailableSinceExpiry_registerNF now id nfProfile r b :
  unavailableSinceExpiry r → unavailableSinceExpiry (registerNF now id nfProfile r b).1.1.
Proof. intros Hr. eapply (unavailableSinceExpiry_set id); [reflexivity|done|done|done]. Qed.

Lemma unavailableSinceExpiry_updateHeartbeat now id r b :
  unavailableSinceExpiry r → unavailableSinceExpiry (updateHeartbeat now id r b).1.1.
Proof.
  unfold updateHeartbeat. destruct (jsmap_get id (registry r)) as [p|] eqn:Hget; [|done].
  intros Hr.
  destruct (nfStatus (set_lastHeartbeat now p)) eqn:Hst; simpl;
    (eapply (unavailableSinceExpiry_set id); [reflexivity|done| |done]);
    simpl in *; by rewrite ?Hst.
Qed.

Lemma unavailableSinceExpiry_deregisterNF now id reason r b :
  unavailableSinceExpiry r → unavailableSinceExpiry (deregisterNF now id reason r b).1.
Proof.
  unfold deregisterNF. destruct (jsmap_get id (registry r)) as [p|] eqn:Hget; [|done].
  set (p1 := set_deregistered _ _ _).
  pose proof (startDeregisteredNFMonitoring_profile id p1
                (updateStoredNF id (fun nf => nf_set_status "unstable"
                                                (nf_set_nrfStatus REMOVED nf)) b)) as Hp.
  destruct (startDeregisteredNFMonitoring _ _ _) as [p2 b2]. simpl in *.
  destruct Hp as (Hst & _). intros Hr.
  eapply (unavailableSinceExpiry_set id p2); [reflexivity|done| |done]. by rewrite Hst.
Qed.

Lemma unavailableSinceExpiry_removeAll now ids r b :
  unavailableSinceExpiry r → unavailableSinceExpiry (removeAll now ids r b).1.
Proof.
  revert r b. induction ids as [|k ids IH]; intros r b Hr; [done|].
  rewrite removeAll_cons. apply IH. by apply unavailableSinceExpiry_deregisterNF.
Qed.

Lemma unavailableSinceExpiry_checkHeartbeatTimeouts now r b :
  unavailableSinceExpiry r → unavailableSinceExpiry (checkHeartbeatTimeouts now r b).1.
Proof.
  intros Hr. rewrite checkHeartbeatTimeouts_unfold.
  apply unavailableSinceExpiry_removeAll. intros k q. simpl.
  intros Hin Hst. apply list_elem_of_In, in_map_iff in Hin as ([k0 p] & [= <- <-] & Hin).
  apply list_elem_of_In in Hin. simpl in *. unfold scanProfile in *.
  destruct (expired now (heartbeatTimeout r) p) eqn:Hexp; simpl in *.
  - destruct (bool_decide_reflect (nfStatus p = REGISTERED)) as [Hreg|Hreg]; simpl in *.
    + unfold expired in Hexp. apply Z.gtb_lt in Hexp.
      unfold lastRenewal in *. simpl. lia.
    + by apply (Hr k0).
  - by apply (Hr k0).
Qed.

Lemma unavailableSinceExpiry_purgeProfile id r :
  unavailableSinceExpiry r → unavailableSinceExpiry (purgeProfile id r).
Proof. intros Hr k p Hin%jsmap_delete_elem. by apply (Hr k). Qed.

Lemma unavailableSinceExpiry_runEvents evs st :
  unavailableSinceExpiry st.1 → unavailableSinceExpiry (runEvents evs st).1.
Proof.
  revert st. induction evs as [|ev evs IH]; intros st H; [done|].
  simpl. apply IH.
  destruct ev as [[now id nfProfile|now id|now id reason|now]|id]; unfold applyEvent, applyOp.
  - by apply unavailableSinceExpiry_registerNF.
  - by apply unavailableSinceExpiry_updateHeartbeat.
  - by apply unavailableSinceExpiry_deregisterNF.
  - by apply unavailableSinceExpiry_checkHeartbeatTimeouts.
  - by apply unavailableSinceExpiry_purgeProfile.
Qed.

(** In the life of a registry, a profile is UNAVAILABLE only since a sweep
    that found its heartbeat expired: once its grace period is over, its
    heartbeat is expired all the more. *)
Lemma grace_over_expired evs b0 now id p :
  let r := (runEvents evs (NRFRegistry_new, b0)).1 in
  getNFProfile id r = Some p →
  nfStatus p = UNAVAILABLE →
  now - statusChangedAt p > gracePeriod r →
  now - lastRenewal p > heartbeatTimeout r.
Proof.
  intros r Hget Hst Hgrace.
  assert (unavailableSinceExpiry r) as Hinv.
  { apply unavailableSinceExpiry_runEvents. intros k q Hin. by apply elem_of_nil in Hin. }
  destruct (config_runEvents evs (NRFRegistry_new, b0)) as [Hto Hgr].
  fold r in Hto, Hgr. simpl in Hto, Hgr.
  pose proof (Hinv id p (jsmap_get_Some_elem _ _ _ Hget) Hst). lia.
Qed.

(** C5 (as amended). In the life of a registry (from a new one, through any
    calls of its operations and any purges), a sweep at time [now] treats the
    profiles it finds as follows. A REGISTERED profile whose last renewal is
    older than the heartbeat timeout becomes UNAVAILABLE, with
    [statusChangedAt = now]. An UNAVAILABLE profile whose status change is
    older than the grace period is deregistered, with the reason
    ["AUTOMATIC_HEARTBEAT_TIMEOUT"]. The removals are collected during the
    scan and applied after it: the scan keeps every key, turns no status into
    REMOVED, leaves each marked profile in the map as UNAVAILABLE, and the
    sweep is [deregisterNF] over the collected ids on the state the completed
    scan left. *)
Theorem checkHeartbeatTimeouts_spec (evs : list RegistryEvent) (b0 : Browser) (now : Z) :
  let r := (runEvents evs (NRFRegistry_new, b0)).1 in
  let b := (runEvents evs (NRFRegistry_new, b0)).2 in
  (∀ id p, getNFProfile id r = Some p →
     nfStatus p = REGISTERED →
     now - lastRenewal p > heartbeatTimeout r →
     ∃ p', getNFProfile id (checkHeartbeatTimeouts now r b).1 = Some p'
           ∧ nfStatus p' = UNAVAILABLE ∧ statusChangedAt p' = now)
  ∧ (∀ id p, getNFProfile id r = Some p →
       nfStatus p = UNAVAILABLE →
       now - statusChangedAt p > gracePeriod r →
       ∃ p', getNFProfile id (checkHeartbeatTimeouts now r b).1 = Some p'
             ∧ nfStatus p' = REMOVED
             ∧ deregisteredAt p' = Some now
             ∧ deregistrationReason p' = Some "AUTOMATIC_HEARTBEAT_TIMEOUT")
  ∧ (∃ m b1 toRemove,
       sweepScan now (heartbeatTimeout r) (gracePeriod r) (registry r) b = (m, b1, toRemove)
       ∧ checkHeartbeatTimeouts now r b = removeAll now toRemove (set_registry m r) b1
       ∧ jsmap_keys m = jsmap_keys (registry r)
       ∧ (∀ id q, jsmap_get id m = Some q → nfStatus q = REMOVED →
            jsmap_get id (registry r) = Some q)
       ∧ (∀ id, id ∈ toRemove →
            ∃ q, jsmap_get id m = Some q ∧ nfStatus q = UNAVAILABLE)).
Proof.
  intros r b.
  assert (keys_unique r) as Hnd by apply keys_unique_runEvents, keys_unique_new.
  destruct (checkHeartbeatTimeouts_sweeps now r b Hnd) as (Hreg & Hun & Hscan).
  split_and!; [exact Hreg| |exact Hscan].
  intros id p Hget Hst Hgrace. apply (Hun id p Hget Hst); [|done].
  by apply (grace_over_expired evs b0 now id p).
Qed.
(** ** Network prefixes *)

Lemma js_split_part o rest :
  dot_free o = true → js_split "." (o +:+ "." +:+ rest) = o :: js_split "." rest.
Proof.
  induction o as [|c o IH]; simpl; [done|].
  intros [Hc Ho]%andb_prop. apply negb_true_iff in Hc. rewrite Hc.
  by rewrite (IH Ho).
Qed.

(** The network of a dotted address is its first three parts. *)
Lemma getNetworkFromIP_dotted o1 o2 o3 rest :
  dot_free o1 = true → dot_free o2 = true → dot_free o3 = true →
  getNetworkFromIP (o1 +:+ "." +:+ o2 +:+ "." +:+ o3 +:+ "." +:+ rest)
  = o1 +:+ "." +:+ o2 +:+ "." +:+ o3.
Proof.
  intros H1 H2 H3. unfold getNetworkFromIP.
  rewrite (js_split_part o1) by done. rewrite (js_split_part o2) by done.
  rewrite (js_split_part o3) by done. done.
Qed.

Lemma append_nil_l (s : string) : "" +:+ s = s.
Proof. done. Qed.

Lemma append_cons (c : ascii) (s t : string) : String c s +:+ t = String c (s +:+ t).
Proof. done. Qed.

Lemma dot_free_cut a a' r r' :
  dot_free a = true → dot_free a' = true →
  a +:+ "." +:+ r = a' +:+ "." +:+ r' → a = a' ∧ r = r'.
Proof.
  revert a'. induction a as [|c a IH]; intros [|c' a'];
    repeat (rewrite append_nil_l || rewrite append_cons); simpl.
  - by intros _ _ [= ->].
  - intros _ [Hc' _]%andb_prop [= <- _]. done.
  - intros [Hc _]%andb_prop _ [= -> _]. done.
  - intros [_ Ha]%andb_prop [_ Ha']%andb_prop [= -> Heq].
    destruct (IH a' Ha Ha' Heq) as [-> ->]. done.
Qed.

Lemma js_split_dot_free s : Forall (fun part => dot_free part = true) (js_split "." s).
Proof.
  induction s as [|c s IH]; simpl.
  - by apply Forall_cons.
  - destruct (Ascii.eqb c ".") eqn:Hc.
    + by apply Forall_cons.
    + destruct (js_split "." s) as [|hd tl].
      * apply Forall_cons. split; [|done]. simpl. by rewrite Hc.
      * apply Forall_cons in IH as [Hhd Htl]. apply Forall_cons. split; [|done].
        simpl. by rewrite Hc, Hhd.
Qed.

Lemma js_part_dot_free s i : dot_free (js_part (js_split "." s) i) = true.
Proof.
  unfold js_part. destruct (js_split "." s !! i) as [part|] eqn:Hi; simpl; [|done].
  pose proof (js_split_dot_free s) as Hall. rewrite Forall_forall in Hall.
  apply Hall. by eapply list_elem_of_lookup_2.
Qed.

(** Two addresses have the same network exactly when their first three
    parts agree. *)
Lemma getNetworkFromIP_samePrefix ipA ipB :
  getNetworkFromIP ipA = getNetworkFromIP ipB ↔ samePrefix ipA ipB.
Proof.
  unfold getNetworkFromIP, samePrefix. cbv zeta. split.
  - intros Heq.
    apply dot_free_cut in Heq as [H0 Heq]; [|by apply js_part_dot_free..].
    apply dot_free_cut in Heq as [H1 H2]; [|by apply js_part_dot_free..].
    intros [|[|[|i]]] Hi; [done..|lia].
  - intros Hsame. by rewrite (Hsame 0%nat), (Hsame 1%nat), (Hsame 2%nat) by lia.
Qed.

Lemma samePrefix_dotted a1 a2 a3 a4 b1 b2 b3 b4 :
  dot_free a1 = true → dot_free a2 = true → dot_free a3 = true →
  dot_free b1 = true → dot_free b2 = true → dot_free b3 = true →
  samePrefix (dotted a1 a2 a3 a4) (dotted b1 b2 b3 b4) ↔ a1 = b1 ∧ a2 = b2 ∧ a3 = b3.
Proof.
  intros Ha1 Ha2 Ha3 Hb1 Hb2 Hb3. rewrite <- getNetworkFromIP_samePrefix. unfold dotted.
  rewrite !getNetworkFromIP_dotted by done. split.
  - intros Heq. apply dot_free_cut in Heq as [-> Heq]; [|done..].
    apply dot_free_cut in Heq as [-> ->]; done.
  - by intros (-> & -> & ->).
Qed.

(** ** Connectivity policy *)

Lemma includes_elem x l : includes x l = true ↔ x ∈ l.
Proof.
  unfold includes. rewrite existsb_exists, list_elem_of_In. split.
  - by intros (y & Hin & ->%String.eqb_eq).
  - intros Hin. exists x. by rewrite String.eqb_refl.
Qed.

Lemma validConnections_closed : table_closed initializeValidConnections.
Proof.
  assert (Forall (fun e => Forall (fun x => is_Some (initializeValidConnections !! x)) e.2)
                 validConnectionsTable) as Hall.
  { unfold validConnectionsTable.
    repeat (apply Forall_cons; split; [simpl|]); try apply Forall_nil;
      by (vm_compute; eauto). }
  intros k l x Hk Hx. apply elem_of_list_to_map_2 in Hk.
  rewrite Forall_forall in Hall. specialize (Hall _ Hk). simpl in Hall.
  rewrite Forall_forall in Hall. by apply Hall.
Qed.

Lemma js_property_own {A} (t : gmap string A) k v :
  t !! k = Some v → js_property t k = Own v.
Proof. unfold js_property. by intros ->. Qed.

Lemma js_property_Own {A} (t : gmap string A) k v :
  js_property t k = Own v ↔ t !! k = Some v.
Proof.
  unfold js_property. destruct (t !! k); [|by destruct (includes k objectPrototypeNames)].
  split; by intros [= ->].
Qed.

Lemma js_property_plain {A} (t : gmap string A) k :
  plainName k → t !! k = None → js_property t k = Undefined.
Proof. unfold js_property, plainName. by intros -> ->. Qed.


(** No type of the connection table names an inherited member. *)
Lemma validConnections_plain k :
  is_Some (initializeValidConnections !! k) → plainName k.
Proof.
  assert (Forall (fun e => plainName e.1) validConnectionsTable) as Hall.
  { unfold validConnectionsTable. repeat (apply Forall_cons; split; [by vm_compute|]).
    by apply Forall_nil. }
  intros [l Hk]. apply elem_of_list_to_map_2 in Hk.
  rewrite Forall_forall in Hall. by apply (Hall (k, l)).
Qed.


Lemma isConnectionValid_compatible a b :
  isConnectionValid a b = Returns true ↔ compatibleEitherWay a b.
Proof.
  unfold isConnectionValid, isConnectionValid_in, compatibleEitherWay, js_property. split.
  - destruct (initializeValidConnections !! a) as [la|] eqn:Ha;
      [|by destruct (includes a objectPrototypeNames)].
    destruct (includes b la) eqn:Hin.
    + intros _. left. exists la. split; [done|]. by apply includes_elem.
    + destruct (initializeValidConnections !! b) as [lb|] eqn:Hb;
        [|by destruct (includes b objectPrototypeNames)].
      intros [= Hin']. right. exists lb. split; [done|]. by apply includes_elem.
  - intros [(la & Ha & Hin)|(lb & Hb & Hin)].
    + rewrite Ha. apply includes_elem in Hin. by rewrite Hin.
    + destruct (validConnections_closed _ _ _ Hb Hin) as [la Ha].
      rewrite Ha, Hb. apply includes_elem in Hin. rewrite Hin.
      by destruct (includes b la).
Qed.

(** A verdict of [true] does not depend on the order of the two types. *)
Lemma isConnectionValid_true_sym a b :
  isConnectionValid a b = Returns true ↔ isConnectionValid b a = Returns true.
Proof. rewrite !isConnectionValid_compatible. unfold compatibleEitherWay. tauto. Qed.

(** When [isConnectionValid] throws: the source names an inherited member,
    or the source is listed, does not list the target, and the target names
    an inherited member. *)
Lemma isConnectionValid_Throws a b e :
  isConnectionValid a b = Throws e ↔
  e = TypeError
  ∧ (includes a objectPrototypeNames = true
     ∨ (∃ la, initializeValidConnections !! a = Some la ∧ b ∉ la)
       ∧ includes b objectPrototypeNames = true).
Proof.
  destruct e. unfold isConnectionValid, isConnectionValid_in, js_property.
  destruct (initializeValidConnections !! a) as [la|] eqn:Ha.
  - pose proof (validConnections_plain a (ltac:(by eexists))) as Hpa.
    unfold plainName in Hpa. rewrite Hpa.
    destruct (includes b la) eqn:Hin.
    + split; [done|]. intros (_ & [?|[(la' & [= <-] & Hnot) _]]); [done|].
      by apply includes_elem in Hin.
    + assert (b ∉ la) as Hnot by (rewrite <- includes_elem; congruence).
      destruct (initializeValidConnections !! b) as [lb|] eqn:Hb.
      * pose proof (validConnections_plain b (ltac:(by eexists))) as Hpb.
        unfold plainName in Hpb. rewrite Hpb.
        split; [done|]. by intros (_ & [?|[_ ?]]).
      * destruct (includes b objectPrototypeNames).
        -- split; [|done]. intros _. split; [done|]. right. split; [by eauto|done].
        -- split; [done|]. by intros (_ & [?|[_ ?]]).
  - destruct (includes a objectPrototypeNames).
    + split; [|done]. intros _. split; [done|]. by left.
    + split; [done|]. by intros (_ & [?|[(? & ? & _) _]]).
Qed.

(** On types that name no inherited member [isConnectionValid] returns, and
    it returns the same verdict in both orders. *)
Lemma isConnectionValid_plain a b :
  plainName a → plainName b →
  isConnectionValid a b = isConnectionValid b a
  ∧ ∃ v, isConnectionValid a b = Returns v.
Proof.
  unfold plainName. intros Hpa Hpb.
  unfold isConnectionValid, isConnectionValid_in, js_property. rewrite Hpa, Hpb.
  destruct (initializeValidConnections !! a) as [la|] eqn:Ha,
           (initializeValidConnections !! b) as [lb|] eqn:Hb.
  - destruct (includes b la), (includes a lb); eauto.
  - destruct (includes b la) eqn:Hin; [|by eauto].
    apply includes_elem in Hin.
    destruct (validConnections_closed _ _ _ Ha Hin) as [? ?]. congruence.
  - destruct (includes a lb) eqn:Hin; [|by eauto].
    apply includes_elem in Hin.
    destruct (validConnections_closed _ _ _ Hb Hin) as [? ?]. congruence.
  - eauto.
Qed.


(** ** Data store *)

Lemma getNFById_id id d nf : getNFById id d = Some nf → nf_id nf = id.
Proof.
  unfold getNFById. intros H. apply find_some in H as [_ H]. by apply String.eqb_eq.
Qed.

Lemma getNFById_modify_first id k f l :
  (∀ nf, nf_id (f nf) = nf_id nf) →
  List.find (fun nf => String.eqb (nf_id nf) id) (modify_first k f l)
  = (if String.eqb k id then f else fun nf => nf)
      <$> List.find (fun nf => String.eqb (nf_id nf) id) l.
Proof.
  intros Hf. induction l as [|nf l IH]; simpl; [done|].
  destruct (String.eqb_spec (nf_id nf) k) as [Hk|Hk]; simpl.
  - rewrite Hf. destruct (String.eqb_spec (nf_id nf) id) as [Hid|Hid]; simpl.
    + assert (k = id) as -> by congruence. by rewrite String.eqb_refl.
    + assert (k ≠ id) as Hne%String.eqb_neq by congruence. rewrite Hne.
      by destruct (List.find _ l).
  - destruct (String.eqb_spec (nf_id nf) id) as [Hid|Hid]; simpl; [|done].
    assert (k ≠ id) as Hne%String.eqb_neq by congruence. by rewrite Hne.
Qed.

Lemma getNFById_updateNF id k f d :
  (∀ nf, nf_id (f nf) = nf_id nf) →
  getNFById id (updateNF k f d)
  = (if String.eqb k id then f else fun nf => nf) <$> getNFById id d.
Proof. intros Hf. unfold getNFById, updateNF. simpl. by apply getNFById_modify_first. Qed.

Lemma getNFById_updateStoredNF id k f b :
  (∀ nf, nf_id (f nf) = nf_id nf) →
  getNFById id (dataStore (updateStoredNF k f b))
  = (if String.eqb k id then f else fun nf => nf) <$> getNFById id (dataStore b).
Proof.
  intros Hf. unfold updateStoredNF.
  destruct (getNFById k (dataStore b)) as [nf|] eqn:Hk; simpl.
  - by apply getNFById_updateNF.
  - destruct (String.eqb_spec k id) as [->|Hne]; [by rewrite Hk|].
    by destruct (getNFById id (dataStore b)).
Qed.

Lemma sameNF_refl nf : sameNF nf nf.
Proof. done. Qed.


Lemma sameWiring_refl b : sameWiring b b.
Proof.
  split_and!; try done.
  - intros id nf H. exists nf. split; [done|apply sameNF_refl].
  - intros t Ht. by left.
Qed.


Lemma sameWiring_updateStoredNF k f b :
  (∀ nf, sameNF nf (f nf)) → sameWiring b (updateStoredNF k f b).
Proof.
  intros Hf. split_and!.
  - by rewrite connections_updateStoredNF.
  - intros id nf H. rewrite getNFById_updateStoredNF, H by (intros; apply Hf). simpl.
    destruct (String.eqb k id); eexists; (split; [done|]); [apply Hf|apply sameNF_refl].
  - by rewrite intervals_updateStoredNF.
  - rewrite intervals_updateStoredNF. intros t Ht. by left.
Qed.





Lemma sameWiring_updateHeartbeat now id r b :
  sameWiring b (updateHeartbeat now id r b).1.2.
Proof.
  unfold updateHeartbeat. destruct (jsmap_get id (registry r)) as [p|];
    [|apply sameWiring_refl].
  destruct (nfStatus (set_lastHeartbeat now p)); simpl; try apply sameWiring_refl.
  by apply sameWiring_updateStoredNF.
Qed.


(** ** Link creation *)

(** The three rejections that [createConnection] decides before it looks at
    the types, and what it does with the verdict of [isConnectionValid]. *)
Lemma createConnection_unknown now connId a b isManual w :
  getNFById a (dataStore (browser w)) = None
  ∨ getNFById b (dataStore (browser w)) = None →
  createConnection now connId a b isManual w = (w, Rejected InvalidNFIds).
Proof.
  unfold createConnection. intros [->| ->]; [done|].
  by destruct (getNFById a (dataStore (browser w))).
Qed.

Lemma createConnection_self now connId a isManual w nfA :
  getNFById a (dataStore (browser w)) = Some nfA →
  createConnection now connId a a isManual w = (w, Rejected SelfConnection).
Proof. unfold createConnection. intros ->. by rewrite String.eqb_refl. Qed.

Lemma createConnection_subnet now connId a b isManual w nfA nfB :
  getNFById a (dataStore (browser w)) = Some nfA →
  getNFById b (dataStore (browser w)) = Some nfB →
  a ≠ b →
  getNetworkFromIP (cfg_ipAddress (nf_config nfA))
  ≠ getNetworkFromIP (cfg_ipAddress (nf_config nfB)) →
  createConnection now connId a b isManual w
  = (w, Rejected (SubnetRestriction (getNetworkFromIP (cfg_ipAddress (nf_config nfA)))
                                    (getNetworkFromIP (cfg_ipAddress (nf_config nfB))))).
Proof.
  unfold createConnection. intros -> -> Hab Hnet.
  apply String.eqb_neq in Hab as ->. by apply String.eqb_neq in Hnet as ->.
Qed.

Lemma createConnection_verdict now connId a b isManual w nfA nfB :
  getNFById a (dataStore (browser w)) = Some nfA →
  getNFById b (dataStore (browser w)) = Some nfB →
  a ≠ b →
  getNetworkFromIP (cfg_ipAddress (nf_config nfA))
  = getNetworkFromIP (cfg_ipAddress (nf_config nfB)) →
  match isConnectionValid (nf_type nfA) (nf_type nfB) with
  | Throws e => createConnection now connId a b isManual w = (w, Threw e)
  | Returns false =>
      createConnection now connId a b isManual w
      = (w, Rejected (InvalidConnection (nf_type nfA) (nf_type nfB)))
  | Returns true =>
      ∃ c b', createConnection now connId a b isManual w = (set_browser b' w, Created c)
              ∧ c = {| conn_id := connId; sourceId := a; targetId := b;
                       interfaceName := getInterfaceName (nf_type nfA) (nf_type nfB);
                       protocol := or_str (globalHTTPProtocol (browser w)) "HTTP/2";
                       conn_status := "connected"; createdAt := now;
                       isManual := isManual; showVisual := true |}
              ∧ connections (dataStore b') = connections (dataStore (browser w)) ++ [c]
              ∧ intervals b' = intervals (browser w)
              ∧ (∀ t, t ∈ timeouts (browser w) → t ∈ timeouts b')
              ∧ (∀ id nf, getNFById id (dataStore (browser w)) = Some nf →
                   ∃ nf', getNFById id (dataStore b') = Some nf'
                          ∧ nf_id nf' = nf_id nf ∧ nf_name nf' = nf_name nf
                          ∧ nf_type nf' = nf_type nf
                          ∧ cfg_ipAddress (nf_config nf') = cfg_ipAddress (nf_config nf)
                          ∧ nf_heartbeatIntervalId nf' = nf_heartbeatIntervalId nf)
  end.
Proof.
  intros Ha Hb Hab Hnet. unfold createConnection. rewrite Ha, Hb.
  apply String.eqb_neq in Hab as ->. rewrite Hnet, String.eqb_refl. cbv zeta. cbn [negb].
  destruct (isConnectionValid (nf_type nfA) (nf_type nfB)) as [[|]|e]; [|done..].
  set (c := Build_Connection _ _ _ _ _ _ _ _ _).
  set (b1 := set_dataStore (addConnection c _) _).
  set (b2 := if String.eqb (nf_type nfB) "NRF" && _ then _ else _).
  set (b3 := if String.eqb (nf_type nfA) "UPF" && _ || _ then _ else _).
  set (b4 := if String.eqb (nf_type nfA) "UE" && _ || _ then _ else _).
  exists c, b4. split; [done|]. split; [done|].
  assert (connections (dataStore b2) = connections (dataStore (browser w)) ++ [c]
          ∧ intervals b2 = intervals (browser w)
          ∧ (∀ t, t ∈ timeouts (browser w) → t ∈ timeouts b2)
          ∧ ∀ id, getNFById id (dataStore b2) = getNFById id (dataStore (browser w)))
    as (Hc2 & Hi2 & Ht2 & Hn2).
  { subst b2. destruct (String.eqb (nf_type nfB) "NRF" && _);
      [|destruct (String.eqb (nf_type nfA) "NRF" && _)]; split_and!; try done;
      intros t Ht; simpl; apply elem_of_app; by left. }
  assert (connections (dataStore b3) = connections (dataStore (browser w)) ++ [c]
          ∧ intervals b3 = intervals (browser w)
          ∧ (∀ t, t ∈ timeouts (browser w) → t ∈ timeouts b3)
          ∧ ∀ id nf, getNFById id (dataStore (browser w)) = Some nf →
              ∃ nf', getNFById id (dataStore b3) = Some nf'
                     ∧ nf_id nf' = nf_id nf ∧ nf_name nf' = nf_name nf
                     ∧ nf_type nf' = nf_type nf
                     ∧ cfg_ipAddress (nf_config nf') = cfg_ipAddress (nf_config nf)
                     ∧ nf_heartbeatIntervalId nf' = nf_heartbeatIntervalId nf)
    as (Hc3 & Hi3 & Ht3 & Hn3).
  { subst b3. destruct (String.eqb (nf_type nfA) "UPF" && _ || _).
    - split_and!; try done. intros id nf Hid. cbn [dataStore set_dataStore].
      rewrite getNFById_updateNF, Hn2, Hid by done. simpl.
      destruct (String.eqb _ id); eexists; split; try done.
      unfold ensureTun0. by destruct (cfg_tun0Interface (nf_config nf)).
    - split_and!; try done. intros id nf Hid. rewrite Hn2. by eexists. }
  subst b4. destruct (String.eqb (nf_type nfA) "UE" && _ || _); [|done].
  split_and!; try done. intros t Ht. simpl. apply elem_of_app. left. by apply Ht3.
Qed.

Lemma createConnection_admissible now connId a b isManual w :
  is_Some (returned (createConnection now connId a b isManual w).2)
  ↔ admissible a b (dataStore (browser w)).
Proof.
  unfold admissible.
  destruct (getNFById a (dataStore (browser w))) as [nfA|] eqn:Ha.
  2:{ rewrite createConnection_unknown by auto.
      split; [by intros [? ?]|]. intros (? & ? & ? & _). done. }
  destruct (getNFById b (dataStore (browser w))) as [nfB|] eqn:Hb.
  2:{ rewrite createConnection_unknown by auto.
      split; [by intros [? ?]|]. intros (? & ? & _ & ? & _). done. }
  destruct (decide (a = b)) as [<-|Hab].
  { rewrite (createConnection_self _ _ _ _ _ nfA) by done.
    split; [by intros [? ?]|]. intros (? & ? & _ & _ & Hne & _). done. }
  destruct (decide (getNetworkFromIP (cfg_ipAddress (nf_config nfA))
                    = getNetworkFromIP (cfg_ipAddress (nf_config nfB)))) as [Hnet|Hnet].
  2:{ rewrite (createConnection_subnet _ _ _ _ _ _ nfA nfB) by done.
      split; [by intros [? ?]|].
      intros (? & ? & [= <-] & [= <-] & _ & ? & _). done. }
  pose proof (createConnection_verdict now connId a b isManual w nfA nfB Ha Hb Hab Hnet)
    as Hv.
  pose proof (isConnectionValid_compatible (nf_type nfA) (nf_type nfB)) as Hcomp.
  destruct (isConnectionValid (nf_type nfA) (nf_type nfB)) as [[|]|e].
  - destruct Hv as (c & b' & -> & _). split; [|by eauto].
    intros _. exists nfA, nfB. split_and!; try done. by apply Hcomp.
  - rewrite Hv. split; [by intros [? ?]|].
    intros (? & ? & [= <-] & [= <-] & _ & _ & Hc). apply Hcomp in Hc. done.
  - rewrite Hv. split; [by intros [? ?]|].
    intros (? & ? & [= <-] & [= <-] & _ & _ & Hc). apply Hcomp in Hc. done.
Qed.


(** ** Registry entries and their ids *)


Lemma keyed_set k p m r :
  keyed r → registry r = m → nfInstanceId p = k →
  ∀ k' p', (k', p') ∈ jsmap_set k p m → nfInstanceId p' = k'.
Proof.
  intros Hr <- Hp k' p' [[= -> ->]|Hin]%jsmap_set_elem; [done|]. by apply Hr.
Qed.

Lemma keyed_registerNF now id nfProfile r b :
  keyed r → keyed (registerNF now id nfProfile r b).1.1.
Proof. intros Hr. unfold keyed. simpl. by eapply keyed_set. Qed.

Lemma keyed_updateHeartbeat now id r b :
  keyed r → keyed (updateHeartbeat now id r b).1.1.
Proof.
  intros Hr. unfold updateHeartbeat.
  destruct (jsmap_get id (registry r)) as [p|] eqn:Hget; [|done].
  apply jsmap_get_Some_elem, Hr in Hget.
  destruct (nfStatus (set_lastHeartbeat now p)); unfold keyed; simpl;
    by eapply keyed_set.
Qed.

Lemma keyed_deregisterNF now id reason r b :
  keyed r → keyed (deregisterNF now id reason r b).1.
Proof.
  intros Hr. unfold deregisterNF.
  destruct (jsmap_get id (registry r)) as [p|] eqn:Hget; [|done].
  apply jsmap_get_Some_elem, Hr in Hget.
  set (p1 := set_deregistered _ _ _).
  pose proof (startDeregisteredNFMonitoring_profile id p1
                (updateStoredNF id (fun nf => nf_set_status "unstable"
                                                (nf_set_nrfStatus REMOVED nf)) b)) as Hp.
  destruct (startDeregisteredNFMonitoring _ _ _) as [p2 b2]. simpl in *.
  destruct Hp as (_ & _ & _ & _ & _ & _ & _ & Hid).
  unfold keyed. simpl. eapply keyed_set; [done..|]. by rewrite Hid.
Qed.


(** A REGISTERED profile of the registry is found by the query without
    filters. *)
Lemma discoverNFs_includes r id p :
  getNFProfile id r = Some p → nfStatus p = REGISTERED →
  p ∈ discoverNFs {| q_nfType := None; q_service := None |} r.
Proof.
  intros Hget Hst. unfold discoverNFs. apply list_elem_of_In, filter_In. split.
  - apply list_elem_of_In. unfold jsmap_values. apply list_elem_of_fmap.
    exists (id, p). split; [done|]. by apply jsmap_get_Some_elem.
  - unfold discover_keeps. rewrite Hst. done.
Qed.

(** ** Registries reached by operations *)

Lemma stamped_removeAll now ids r b : stamped r → stamped (removeAll now ids r b).1.
Proof.
  revert r b. induction ids as [|k ids IH]; intros r b Hr; [done|].
  rewrite removeAll_cons. apply IH. by apply stamped_deregisterNF.
Qed.

Lemma keyed_removeAll now ids r b : keyed r → keyed (removeAll now ids r b).1.
Proof.
  revert r b. induction ids as [|k ids IH]; intros r b Hr; [done|].
  rewrite removeAll_cons. apply IH. by apply keyed_deregisterNF.
Qed.

Lemma scanProfile_fields now timeout p :
  registeredAt (scanProfile now timeout p) = registeredAt p
  ∧ nfInstanceId (scanProfile now timeout p) = nfInstanceId p.
Proof. unfold scanProfile. by destruct (_ && _). Qed.

Lemma stamped_checkHeartbeatTimeouts now r b :
  stamped r → stamped (checkHeartbeatTimeouts now r b).1.
Proof.
  intros Hr. rewrite checkHeartbeatTimeouts_unfold. apply stamped_removeAll.
  intros k p. simpl. rewrite scan_get.
  destruct (jsmap_get k (registry r)) as [q|] eqn:Hq; [|done]. simpl.
  intros [= <-]. rewrite (proj1 (scanProfile_fields _ _ _)). by eapply Hr.
Qed.

Lemma keyed_checkHeartbeatTimeouts now r b :
  keyed r → keyed (checkHeartbeatTimeouts now r b).1.
Proof.
  intros Hr. rewrite checkHeartbeatTimeouts_unfold. apply keyed_removeAll.
  intros k p. simpl. rewrite list_elem_of_In, in_map_iff.
  intros [[k0 q] [[= <- <-] Hin%list_elem_of_In]]. simpl.
  rewrite (proj2 (scanProfile_fields _ _ _)). by apply Hr.
Qed.

(** The registries that operations at non-zero clock readings build from a
    registry with distinct keys, profiles under their own ids and non-zero
    registration times (the new registry is one) are of that kind again. *)
Lemma registry_invariants_runOps ops st :
  Forall (fun op => opTime op ≠ 0) ops →
  keys_unique st.1 ∧ keyed st.1 ∧ stamped st.1 →
  keys_unique (runOps ops st).1 ∧ keyed (runOps ops st).1 ∧ stamped (runOps ops st).1.
Proof.
  revert st. induction ops as [|op ops IH]; intros st Hops Hst; [done|].
  apply Forall_cons in Hops as [Hop Hops]. simpl. apply IH; [done|].
  destruct Hst as (Hnd & Hk & Hs). split_and!.
  - by apply keys_unique_applyOp.
  - destruct op; unfold applyOp.
    + by apply keyed_registerNF.
    + by apply keyed_updateHeartbeat.
    + by apply keyed_deregisterNF.
    + by apply keyed_checkHeartbeatTimeouts.
  - destruct op; unfold applyOp.
    + by apply stamped_registerNF.
    + by apply stamped_updateHeartbeat.
    + by apply stamped_deregisterNF.
    + by apply stamped_checkHeartbeatTimeouts.
Qed.
(** ** Links to the NRF *)




Lemma find_snoc {A} (f : A → bool) l x :
  List.find f l = None → List.find f (l ++ [x]) = if f x then Some x else None.
Proof.
  induction l as [|y l IH]; simpl; [done|]. destruct (f y); [done|apply IH].
Qed.

Lemma getNFById_setHeartbeat id k i d :
  getNFById id (updateNF k (nf_set_heartbeatIntervalId i) d)
  = (if String.eqb k id then nf_set_heartbeatIntervalId i else fun nf => nf)
      <$> getNFById id d.
Proof. by apply getNFById_updateNF. Qed.




Lemma nonRegistryEnd_cases nfA nfB nf :
  nonRegistryEnd nfA nfB = Some nf →
  (nf = nfA ∧ nf_type nfB = "NRF" ∧ nf_type nfA ≠ "NRF")
  ∨ (nf = nfB ∧ nf_type nfA = "NRF" ∧ nf_type nfB ≠ "NRF").
Proof.
  unfold nonRegistryEnd.
  destruct (String.eqb_spec (nf_type nfB) "NRF") as [HB|HB],
           (String.eqb_spec (nf_type nfA) "NRF") as [HA|HA]; simpl;
    intros [= <-]; auto.
Qed.

Lemma createConnection_registers now connId a b isManual w c nfA nfB nf :
  (createConnection now connId a b isManual w).2 = Created c →
  getNFById a (dataStore (browser w)) = Some nfA →
  getNFById b (dataStore (browser w)) = Some nfB →
  nonRegistryEnd nfA nfB = Some nf →
  (createConnection now connId a b isManual w).1
  = set_browser (setTimeout (RegisterWithNRF nf) 1500
                   (set_dataStore (addConnection c (dataStore (browser w))) (browser w))) w
  ∧ sourceId c = a ∧ targetId c = b ∧ conn_id c = connId ∧ a ≠ b.
Proof.
  unfold createConnection. intros Hc Ha Hb Hend. rewrite Ha, Hb in *.
  destruct (String.eqb_spec a b) as [Hab|Hab]; [done|].
  destruct (negb _); [done|].
  destruct (isConnectionValid (nf_type nfA) (nf_type nfB)) as [[|]|e]; [|done..].
  cbv zeta in Hc |- *. cbn [fst snd] in Hc |- *. injection Hc as <-.
  cbn [sourceId targetId conn_id]. split; [|done].
  assert (String.eqb "NRF" "ext-dn" = false ∧ String.eqb "NRF" "UPF" = false
          ∧ String.eqb "NRF" "AMF" = false ∧ String.eqb "NRF" "UE" = false
          ∧ String.eqb "NRF" "NRF" = true) as (E1 & E2 & E3 & E4 & E5) by done.
  destruct (nonRegistryEnd_cases _ _ _ Hend) as [(-> & HB & HA)|(-> & HA & HB)].
  - apply String.eqb_neq in HA as HA'. rewrite HB, HA', E1, E2, E3, E4, E5.
    by rewrite !andb_false_r.
  - apply String.eqb_neq in HB as HB'. rewrite HA, HB', E1, E2, E3, E4, E5.
    by rewrite !andb_false_r.
Qed.

(** The NF whose registration [createConnection] queues has a type of the
    connection table, and its services are a list. *)
Lemma createConnection_services_listed now connId a b isManual w c nfA nfB nf :
  (createConnection now connId a b isManual w).2 = Created c →
  getNFById a (dataStore (browser w)) = Some nfA →
  getNFById b (dataStore (browser w)) = Some nfB →
  nonRegistryEnd nfA nfB = Some nf →
  is_Some (initializeValidConnections !! nf_type nf)
  ∧ ∃ services, getServicesForNF (nf_type nf) = ArrayValue services.
Proof.
  intros Hc Ha Hb Hend.
  destruct (proj1 (createConnection_admissible now connId a b isManual w))
    as (nfA' & nfB' & Ha' & Hb' & _ & _ & Hcompat); [by rewrite Hc|].
  assert (nfA' = nfA) as -> by congruence. assert (nfB' = nfB) as -> by congruence.
  assert (is_Some (initializeValidConnections !! nf_type nfA)
          ∧ is_Some (initializeValidConnections !! nf_type nfB)) as [HA HB].
  { destruct Hcompat as [(l & Hl & Hin)|(l & Hl & Hin)].
    - split; [by eexists|]. by apply (validConnections_closed _ _ _ Hl Hin).
    - split; [|by eexists]. by apply (validConnections_closed _ _ _ Hl Hin). }
  assert (is_Some (initializeValidConnections !! nf_type nf)) as Hlisted.
  { by destruct (nonRegistryEnd_cases _ _ _ Hend) as [(-> & _)|(-> & _)]. }
  split; [done|]. apply validConnections_plain in Hlisted.
  unfold getServicesForNF, or_empty, js_property. unfold plainName in Hlisted.
  rewrite Hlisted. destruct (_ !! nf_type nf); by eauto.
Qed.

Lemma getConnectionById_removeConnection id d :
  getConnectionById id (removeConnection id d) = None.
Proof.
  unfold getConnectionById, removeConnection. simpl.
  induction (connections d) as [|c l IH]; simpl; [done|].
  destruct (String.eqb (conn_id c) id) eqn:Hc; simpl; [done|]. by rewrite Hc.
Qed.








(** ** The laboratory topology *)

Example lab_registered_profile :
  getNFProfile "amf-1" lab_registered.1 = Some amf1_profile.
Proof. by vm_compute. Qed.

Example lab_registered_status :
  nfStatus <$> getNFProfile "amf-1" lab_registered.1 = Some REGISTERED.
Proof. reflexivity. Qed.

Example lab_unavailable_status :
  nfStatus <$> getNFProfile "amf-1" lab_unavailable.1 = Some UNAVAILABLE
  ∧ statusChangedAt <$> getNFProfile "amf-1" lab_unavailable.1 = Some 130000.
Proof. by vm_compute. Qed.

Example lab_swept_status :
  nfStatus <$> getNFProfile "amf-1" lab_swept.1 = Some REMOVED
  ∧ discoverNFs {| q_nfType := None; q_service := None |} lab_swept.1 = [].
Proof. by vm_compute. Qed.

(** Scenario of the specification: amf-1 links to nrf-1 on the same subnet. *)
Example lab_link_amf_nrf :
  ∃ c, (createConnection 500 "conn-1" "amf-1" "nrf-1" true lab_world).2 = Created c
       ∧ interfaceName c = "Nnrf_NFManagement" ∧ protocol c = "HTTP/2".
Proof. eexists. by vm_compute. Qed.

(** Scenario of the specification: amf-1 and smf-1 are on different subnets. *)
Example lab_link_amf_smf :
  createConnection 500 "conn-2" "amf-1" "smf-1" true lab_world
  = (lab_world, Rejected (SubnetRestriction "192.168.1" "10.0.0")).
Proof. by vm_compute. Qed.

(** * Counterexamples *)

(** C1 as stated fails for the empty type: [discoverNFs({nfType: ""})] skips
    the type filter and returns the REGISTERED AMF profile, while no
    profile of the registry has the empty type. *)
Lemma discoverNFs_empty_type_counterexample :
  (∃ p, discoverNFs (byType "") lab_registered.1 = [p]
        ∧ nfStatus p = REGISTERED ∧ nfType p = "AMF")
  ∧ registeredOfType "" lab_registered.1 = [].
Proof. split; [eexists|]; by vm_compute. Qed.

(** C2 as stated fails for a deregistration: a REGISTERED profile goes to
    REMOVED in one step, without passing through UNAVAILABLE. *)
Lemma deregister_skips_UNAVAILABLE_counterexample :
  (∃ p, getNFProfile "amf-1" lab_registered.1 = Some p ∧ nfStatus p = REGISTERED)
  ∧ (∃ p', getNFProfile "amf-1"
             (applyOp (Deregister 2000 "amf-1" "MANUAL") lab_registered).1 = Some p'
           ∧ nfStatus p' = REMOVED)
  ∧ ¬ statusMoveAsSpecified (Deregister 2000 "amf-1" "MANUAL") "amf-1"
        REGISTERED REMOVED.
Proof.
  split_and!.
  - eexists. by vm_compute.
  - eexists. by vm_compute.
  - intros [?|[[? ?]|[[? ?]|[(? & ? & _)|(? & _)]]]]; discriminate.
Qed.

(** C5 as stated fails on the reason: the sweep deregisters the UNAVAILABLE
    profile whose grace period is over with the reason
    ["AUTOMATIC_HEARTBEAT_TIMEOUT"], not ["HEARTBEAT_TIMEOUT"]. *)
Lemma sweep_reason_counterexample :
  (∃ p, getNFProfile "amf-1" lab_unavailable.1 = Some p
        ∧ nfStatus p = UNAVAILABLE
        ∧ 170000 - statusChangedAt p > gracePeriod lab_unavailable.1)
  ∧ (∃ p', getNFProfile "amf-1"
             (checkHeartbeatTimeouts 170000 lab_unavailable.1 lab_unavailable.2).1
           = Some p'
           ∧ nfStatus p' = REMOVED
           ∧ deregistrationReason p' = Some "AUTOMATIC_HEARTBEAT_TIMEOUT"
           ∧ deregistrationReason p' ≠ Some "HEARTBEAT_TIMEOUT").
Proof. split; eexists; by vm_compute. Qed.


(** * The theorems at concrete inputs *)

(** [discoverNFs_spec] for the type AMF in the registry that holds amf-1. *)
Lemma discoverNFs_spec_witness :
  "AMF" ≠ ""
  ∧ discoverNFs (byType "AMF") lab_registered.1 = registeredOfType "AMF" lab_registered.1.
Proof.
  assert ("AMF" ≠ "") as H by discriminate.
  exact (conj H (proj1 (proj2 discoverNFs_spec) "AMF" lab_registered.1 H)).
Defined.

(** [registerNF_again]: amf-1, registered at time 1000, registers again at
    time 5000 under a new name and address. *)
Lemma registerNF_again_witness :
  ∃ p', getNFProfile "amf-1"
          (registerNF 5000 "amf-1" amf1_again lab_registered.1 lab_registered.2).1.1
        = Some p'
        ∧ registeredAt p' = 1000
        ∧ nfName p' = "AMF-blue"
        ∧ ipAddress p' = Some "192.168.1.50".
Proof.
  destruct (registerNF_again 5000 "amf-1" amf1_again lab_registered.1 lab_registered.2
              amf1_profile)
    as ((p' & Hget & Hra & _ & _ & Hname & Hip & _) & _).
  - by_decide.
  - by vm_compute.
  - by vm_compute.
  - exists p'. split_and!; [exact Hget|exact Hra|exact Hname|exact Hip].
Defined.

(** [updateHeartbeat_spec]: a heartbeat at time 140000 for amf-1, which the
    sweep made UNAVAILABLE at time 130000. *)
Lemma updateHeartbeat_spec_witness :
  ∃ p', getNFProfile "amf-1"
          (updateHeartbeat 140000 "amf-1" lab_unavailable.1 lab_unavailable.2).1.1
        = Some p'
        ∧ lastHeartbeat p' = 140000
        ∧ nfStatus p' = REGISTERED ∧ statusChangedAt p' = 140000.
Proof.
  destruct (proj2 (updateHeartbeat_spec 140000 "amf-1" lab_unavailable.1 lab_unavailable.2)
              (set_nfStatus UNAVAILABLE 130000 amf1_profile))
    as (p' & Hget & Hhb & Hun & _).
  - by vm_compute.
  - exists p'. destruct Hun as [Hst Hch]; [by vm_compute|].
    split_and!; [exact Hget|exact Hhb|exact Hst|exact Hch].
Defined.

(** [heartbeat_does_not_resurrect]: a heartbeat at time 3000 for amf-1,
    deregistered at time 2000 and not yet purged. *)
Lemma heartbeat_does_not_resurrect_witness :
  (updateHeartbeat 3000 "amf-1" lab_removed.1 lab_removed.2).2 = true
  ∧ ∃ p', getNFProfile "amf-1"
            (updateHeartbeat 3000 "amf-1" lab_removed.1 lab_removed.2).1.1 = Some p'
          ∧ lastHeartbeat p' = 3000 ∧ nfStatus p' = REMOVED.
Proof.
  edestruct (heartbeat_does_not_resurrect 3000 "amf-1" lab_removed.1 lab_removed.2)
    as (Hok & Hkeep & _).
  - reflexivity.
  - reflexivity.
  - exact (conj Hok Hkeep).
Defined.

(** [deregisterNF_spec]: amf-1 is deregistered at time 2000. *)
Lemma deregisterNF_spec_witness :
  ∃ p', getNFProfile "amf-1"
          (deregisterNF 2000 "amf-1" "MANUAL" lab_registered.1 lab_registered.2).1
        = Some p'
        ∧ nfStatus p' = REMOVED
        ∧ deregisteredAt p' = Some 2000
        ∧ deregistrationReason p' = Some "MANUAL".
Proof.
  refine (proj1 (proj2 (deregisterNF_spec 2000 "amf-1" "MANUAL"
                          lab_registered.1 lab_registered.2) amf1_profile _)).
  by vm_compute.
Defined.

(** [checkHeartbeatTimeouts_spec]: amf-1 registers at time 1000 and is
    last heard of then; the sweep at time 130000 makes it UNAVAILABLE, and
    the sweep at time 170000 deregisters it. *)
Lemma checkHeartbeatTimeouts_spec_witness :
  (∃ p', getNFProfile "amf-1"
           (checkHeartbeatTimeouts 130000 lab_registered.1 lab_registered.2).1 = Some p'
         ∧ nfStatus p' = UNAVAILABLE ∧ statusChangedAt p' = 130000)
  ∧ (∃ p', getNFProfile "amf-1"
             (checkHeartbeatTimeouts 170000 lab_unavailable.1 lab_unavailable.2).1 = Some p'
           ∧ nfStatus p' = REMOVED
           ∧ deregistrationReason p' = Some "AUTOMATIC_HEARTBEAT_TIMEOUT").
Proof.
  split.
  - refine (proj1 (checkHeartbeatTimeouts_spec
                     [Call (Register 1000 "amf-1" (profileOfNF amf1))] lab_browser 130000)
                  "amf-1" amf1_profile _ _ _); by vm_compute.
  - destruct (proj1 (proj2 (checkHeartbeatTimeouts_spec
                              [Call (Register 1000 "amf-1" (profileOfNF amf1));
                               Call (Sweep 130000)] lab_browser 170000))
                    "amf-1" (set_nfStatus UNAVAILABLE 130000 amf1_profile))
      as (p' & Hget & Hst & _ & Hreason); [by vm_compute..|].
    exists p'. split_and!; [exact Hget|exact Hst|exact Hreason].
Defined.

(** [status_state_machine]: a sweep after the registration of amf-1. *)
Lemma status_state_machine_witness :
  ∃ p', getNFProfile "amf-1"
          (applyOp (Sweep 130000)
             (runOps [Register 1000 "amf-1" (profileOfNF amf1)]
                     (NRFRegistry_new, lab_browser))).1 = Some p'
        ∧ statusMove (Sweep 130000) "amf-1" REGISTERED (nfStatus p').
Proof.
  destruct (status_state_machine (NRFRegistry_new, lab_browser)
              [Register 1000 "amf-1" (profileOfNF amf1)] (Sweep 130000)
              "amf-1" amf1_profile)
    as (p' & Hget & Hmove & _).
  - by_decide.
  - by vm_compute.
  - exists p'. exact (conj Hget Hmove).
Defined.




Lemma keyed_lab (p : NFProfile) : nfInstanceId p = "amf-1" →
  ∀ k q, (k, q) ∈ [("amf-1", p)] → nfInstanceId q = k.
Proof. intros Hp k q [= -> ->]%list_elem_of_singleton. exact Hp. Qed.


(** * Further properties *)

(** ** Registration records and new registrations *)

(** X1. Every [registerNF] call appends exactly one record to the
    registration history and makes it the latest record of its id; the
    latest records of other ids, the deregistration records and the profiles
    of other ids are untouched. *)
Theorem registerNF_records (now : Z) (id : string) (nfProfile : NFProfileInput)
    (r : NRFRegistry) (b : Browser) :
  let r' := (registerNF now id nfProfile r b).1.1 in
  (∃ rec, getAllRegistrationRecords r' = getAllRegistrationRecords r ++ [rec]
          ∧ getRegistrationRecord id r' = Some rec
          ∧ reg_nfInstanceId rec = id
          ∧ reg_nfType rec = in_nfType nfProfile
          ∧ reg_nfName rec = registeredName id nfProfile
          ∧ reg_timestamp rec = now)
  ∧ (∀ k, k ≠ id → getRegistrationRecord k r' = getRegistrationRecord k r)
  ∧ getAllDeregistrationRecords r' = getAllDeregistrationRecords r
  ∧ deregistrationMessages r' = deregistrationMessages r
  ∧ (∀ k, k ≠ id → getNFProfile k r' = getNFProfile k r).
Proof.
  simpl. unfold getRegistrationRecord, getNFProfile. simpl. split_and!; try done.
  - eexists. split; [reflexivity|]. rewrite lookup_insert_eq. simpl.
    split_and!; try done.
    unfold registeredName, spread, or_str. by destruct (in_nfName nfProfile).
  - intros k Hk. by rewrite lookup_insert_ne.
  - intros k Hk. by rewrite jsmap_get_set_ne.
Qed.

(** X2. [registerNF] for an id that is not in the registry adds its profile
    as the last entry of the map, REGISTERED, with [registeredAt],
    [lastHeartbeat] and [statusChangedAt] all set to the current time. *)
Theorem registerNF_new (now : Z) (id : string) (nfProfile : NFProfileInput)
    (r : NRFRegistry) (b : Browser) :
  getNFProfile id r = None →
  let r' := (registerNF now id nfProfile r b).1.1 in
  (∃ p, registry r' = registry r ++ [(id, p)]
        ∧ nfStatus p = REGISTERED
        ∧ registeredAt p = now ∧ lastHeartbeat p = now ∧ statusChangedAt p = now
        ∧ deregisteredAt p = None)
  ∧ length (getAllRegisteredNFs r') = S (length (getAllRegisteredNFs r)).
Proof.
  unfold getNFProfile, getAllRegisteredNFs, jsmap_values. intros Hget. simpl.
  rewrite Hget. simpl.
  assert (∀ (m : list (string * NFProfile)) v,
            jsmap_get id m = None → jsmap_set id v m = m ++ [(id, v)]) as Hset.
  { induction m as [|[k q] m IH]; intros v; simpl; [done|].
    destruct (String.eqb id k); [done|]. intros H. by rewrite IH. }
  rewrite Hset by done. split.
  - eexists. split; [reflexivity|]. done.
  - rewrite !length_fmap, length_app. simpl. lia.
Qed.

(** ** Histories and latest records over sequences of operations *)

Lemma latestOf_snoc_eq {A} (idOf : A → string) id h rec :
  idOf rec = id → latestOf idOf id (h ++ [rec]) = Some rec.
Proof.
  intros Hid. unfold latestOf. rewrite List.filter_app. simpl.
  apply String.eqb_eq in Hid as ->. apply last_snoc.
Qed.

Lemma latestOf_snoc_ne {A} (idOf : A → string) id h rec :
  idOf rec ≠ id → latestOf idOf id (h ++ [rec]) = latestOf idOf id h.
Proof.
  intros Hid. unfold latestOf. rewrite List.filter_app. simpl.
  apply String.eqb_neq in Hid as ->. by rewrite app_nil_r.
Qed.

Lemma recordsConsistent_new : recordsConsistent NRFRegistry_new.
Proof. split; intros id; apply lookup_empty. Qed.

Lemma recordsConsistent_registerNF now id nfProfile r b :
  recordsConsistent r → recordsConsistent (registerNF now id nfProfile r b).1.1.
Proof.
  intros [Hreg Hdereg]. split; [|exact Hdereg].
  intros k. unfold getRegistrationRecord, getAllRegistrationRecords. simpl.
  destruct (decide (id = k)) as [<-|Hne].
  - rewrite lookup_insert_eq. symmetry. by apply latestOf_snoc_eq.
  - rewrite lookup_insert_ne by done. rewrite latestOf_snoc_ne by done. apply Hreg.
Qed.

Lemma records_updateHeartbeat now id r b :
  registrationMessages (updateHeartbeat now id r b).1.1 = registrationMessages r
  ∧ registrationHistory (updateHeartbeat now id r b).1.1 = registrationHistory r
  ∧ deregistrationMessages (updateHeartbeat now id r b).1.1 = deregistrationMessages r
  ∧ deregistrationHistory (updateHeartbeat now id r b).1.1 = deregistrationHistory r.
Proof.
  unfold updateHeartbeat. destruct (jsmap_get id (registry r)) as [p|]; [|done].
  by destruct (nfStatus (set_lastHeartbeat now p)).
Qed.

Lemma recordsConsistent_updateHeartbeat now id r b :
  recordsConsistent r → recordsConsistent (updateHeartbeat now id r b).1.1.
Proof.
  destruct (records_updateHeartbeat now id r b) as (H1 & H2 & H3 & H4).
  unfold recordsConsistent, getRegistrationRecord, getDeregistrationRecord,
    getAllRegistrationRecords, getAllDeregistrationRecords.
  by rewrite H1, H2, H3, H4.
Qed.

(** The records [deregisterNF] leaves: nothing new for an unknown id, one
    deregistration record for a known one. *)
Lemma records_deregisterNF now id reason r b :
  registrationMessages (deregisterNF now id reason r b).1 = registrationMessages r
  ∧ registrationHistory (deregisterNF now id reason r b).1 = registrationHistory r
  ∧ ((deregistrationMessages (deregisterNF now id reason r b).1 = deregistrationMessages r
      ∧ deregistrationHistory (deregisterNF now id reason r b).1 = deregistrationHistory r)
     ∨ ∃ rec, dereg_nfInstanceId rec = id
              ∧ deregistrationMessages (deregisterNF now id reason r b).1
                = <[id := rec]> (deregistrationMessages r)
              ∧ deregistrationHistory (deregisterNF now id reason r b).1
                = deregistrationHistory r ++ [rec]).
Proof.
  unfold deregisterNF. destruct (jsmap_get id (registry r)) as [p|]; [|by auto].
  destruct (startDeregisteredNFMonitoring _ _ _) as [p2 b2]. simpl.
  split_and!; [done..|]. right. eexists. split; [|split; reflexivity]. done.
Qed.

Lemma recordsConsistent_deregisterNF now id reason r b :
  recordsConsistent r → recordsConsistent (deregisterNF now id reason r b).1.
Proof.
  intros [Hreg Hdereg].
  destruct (records_deregisterNF now id reason r b) as (H1 & H2 & H3).
  unfold recordsConsistent, getRegistrationRecord, getDeregistrationRecord,
    getAllRegistrationRecords, getAllDeregistrationRecords in *.
  rewrite H1, H2. split; [done|].
  destruct H3 as [[-> ->]|(rec & Hid & -> & ->)]; [done|].
  intros k. destruct (decide (id = k)) as [<-|Hne].
  - rewrite lookup_insert_eq. symmetry. by apply latestOf_snoc_eq.
  - rewrite lookup_insert_ne by done. rewrite latestOf_snoc_ne by congruence. apply Hdereg.
Qed.

Lemma recordsConsistent_removeAll now ids r b :
  recordsConsistent r → recordsConsistent (removeAll now ids r b).1.
Proof.
  revert r b. induction ids as [|k ids IH]; intros r b Hr; [done|].
  rewrite removeAll_cons. apply IH. by apply recordsConsistent_deregisterNF.
Qed.

Lemma recordsConsistent_checkHeartbeatTimeouts now r b :
  recordsConsistent r → recordsConsistent (checkHeartbeatTimeouts now r b).1.
Proof.
  intros Hr. rewrite checkHeartbeatTimeouts_unfold. by apply recordsConsistent_removeAll.
Qed.

Lemma recordsConsistent_applyOp op st :
  recordsConsistent st.1 → recordsConsistent (applyOp op st).1.
Proof.
  destruct op; unfold applyOp.
  - apply recordsConsistent_registerNF.
  - apply recordsConsistent_updateHeartbeat.
  - apply recordsConsistent_deregisterNF.
  - apply recordsConsistent_checkHeartbeatTimeouts.
Qed.

Lemma recordsConsistent_runOps ops st :
  recordsConsistent st.1 → recordsConsistent (runOps ops st).1.
Proof.
  revert st. induction ops as [|op ops IH]; intros st H; [done|].
  simpl. apply IH. by apply recordsConsistent_applyOp.
Qed.

(** X3. In every registry that registrations, renewals, deregistrations and
    sweeps build from a new one, [getRegistrationRecord(id)] is the last
    record of the registration history about [id], and
    [getDeregistrationRecord(id)] the last record of the deregistration
    history about [id] (none when the history has none). *)
Theorem latest_records_follow_history (ops : list RegistryOp) (b : Browser) (id : string) :
  let r := (runOps ops (NRFRegistry_new, b)).1 in
  getRegistrationRecord id r
  = latestOf reg_nfInstanceId id (getAllRegistrationRecords r)
  ∧ getDeregistrationRecord id r
    = latestOf dereg_nfInstanceId id (getAllDeregistrationRecords r).
Proof.
  simpl.
  destruct (recordsConsistent_runOps ops (NRFRegistry_new, b) recordsConsistent_new)
    as [Hreg Hdereg].
  split; [apply Hreg|apply Hdereg].
Qed.

Lemma keys_updateHeartbeat now id r b :
  jsmap_keys (registry (updateHeartbeat now id r b).1.1) = jsmap_keys (registry r).
Proof.
  unfold updateHeartbeat. destruct (jsmap_get id (registry r)) as [p|] eqn:Hget; [|done].
  destruct (nfStatus (set_lastHeartbeat now p)); simpl;
    apply jsmap_keys_set_present; by rewrite Hget.
Qed.

Lemma records_removeAll now ids r b :
  registrationHistory (removeAll now ids r b).1 = registrationHistory r
  ∧ deregistrationHistory r `prefix_of` deregistrationHistory (removeAll now ids r b).1.
Proof.
  revert r b. induction ids as [|k ids IH]; intros r b; [done|].
  rewrite removeAll_cons.
  destruct (IH (deregisterNF now k "AUTOMATIC_HEARTBEAT_TIMEOUT" r b).1
               (deregisterNF now k "AUTOMATIC_HEARTBEAT_TIMEOUT" r b).2) as [-> Hp].
  destruct (records_deregisterNF now k "AUTOMATIC_HEARTBEAT_TIMEOUT" r b)
    as (_ & -> & H3).
  split; [done|]. etrans; [|exact Hp].
  destruct H3 as [[_ ->]|(rec & _ & _ & ->)]; [done|]. by apply prefix_app_r.
Qed.

(** One operation never drops or reorders an entry of the registry map and
    only appends to the histories. *)
Lemma applyOp_grows op st :
  jsmap_keys (registry st.1) `prefix_of` jsmap_keys (registry (applyOp op st).1)
  ∧ registrationHistory st.1 `prefix_of` registrationHistory (applyOp op st).1
  ∧ deregistrationHistory st.1 `prefix_of` deregistrationHistory (applyOp op st).1.
Proof.
  destruct st as [r b]. destruct op as [now id nfProfile|now id|now id reason|now];
    unfold applyOp; cbn [fst snd].
  - split_and!.
    + simpl. destruct (jsmap_get id (registry r)) as [p|] eqn:Hget.
      * rewrite jsmap_keys_set_present; [done|by rewrite Hget].
      * rewrite jsmap_keys_set_absent by done. by apply prefix_app_r.
    + simpl. by apply prefix_app_r.
    + done.
  - destruct (records_updateHeartbeat now id r b) as (_ & -> & _ & ->).
    by rewrite keys_updateHeartbeat.
  - rewrite keys_deregisterNF.
    destruct (records_deregisterNF now id reason r b) as (_ & -> & H3).
    split_and!; [done..|].
    destruct H3 as [[_ ->]|(rec & _ & _ & ->)]; [done|]. by apply prefix_app_r.
  - rewrite keys_checkHeartbeatTimeouts, checkHeartbeatTimeouts_unfold.
    destruct (records_removeAll now
                (List.map fst (List.filter
                   (fun e => dueForRemoval now (heartbeatTimeout r) (gracePeriod r) e.2)
                   (registry r)))
                (set_registry
                   (List.map (fun e => (e.1, scanProfile now (heartbeatTimeout r) e.2))
                             (registry r)) r)
                (sweepScan now (heartbeatTimeout r) (gracePeriod r) (registry r) b).1.2)
      as [-> Hp].
    by split_and!.
Qed.

(** X4. Over any sequence of registrations, renewals, deregistrations and
    sweeps, the entries of the registry map are never dropped or reordered
    (new ids are appended after the old ones) and both histories only grow at
    their end. *)
Theorem registry_only_grows (ops : list RegistryOp) (st : NRFRegistry * Browser) :
  jsmap_keys (registry st.1) `prefix_of` jsmap_keys (registry (runOps ops st).1)
  ∧ getAllRegistrationRecords st.1 `prefix_of` getAllRegistrationRecords (runOps ops st).1
  ∧ getAllDeregistrationRecords st.1
      `prefix_of` getAllDeregistrationRecords (runOps ops st).1.
Proof.
  unfold getAllRegistrationRecords, getAllDeregistrationRecords.
  revert st. induction ops as [|op ops IH]; intros st; [done|].
  simpl. destruct (IH (applyOp op st)) as (H1 & H2 & H3).
  destruct (applyOp_grows op st) as (G1 & G2 & G3).
  split_and!; etrans; done.
Qed.

(** ** Discovery and statistics *)

Lemma discoverNFs_elem q r p :
  p ∈ discoverNFs q r ↔ p ∈ getAllRegisteredNFs r ∧ discover_keeps q p = true.
Proof.
  unfold discoverNFs, getAllRegisteredNFs.
  by rewrite list_elem_of_In, filter_In, <- list_elem_of_In.
Qed.

Lemma getNFProfile_stored id r p : getNFProfile id r = Some p → p ∈ getAllRegisteredNFs r.
Proof.
  intros Hget. unfold getAllRegisteredNFs, jsmap_values. apply list_elem_of_fmap.
  exists (id, p). split; [done|]. by apply jsmap_get_Some_elem.
Qed.

Lemma existsb_answersTo s svcs :
  existsb (fun svc => String.eqb (serviceInstanceId svc) s
                      || String.eqb (serviceName svc) s) svcs = true
  ↔ ∃ svc, svc ∈ svcs ∧ answersTo s svc.
Proof.
  rewrite existsb_exists. unfold answersTo. split.
  - intros (svc & Hin%list_elem_of_In & [H|H]%orb_prop); exists svc;
      apply String.eqb_eq in H; auto.
  - intros (svc & Hin%list_elem_of_In & [H|H]); exists svc; split; try done;
      apply String.eqb_eq in H; rewrite H; [done|apply orb_true_r].
Qed.

(** X5. Right after [registerNF], the profile it stored is returned by a
    discovery without filters, by a discovery for its type (when the type is
    not empty), and by a discovery for any service it was registered with. *)
Theorem registerNF_then_discover (now : Z) (id : string) (nfProfile : NFProfileInput)
    (r : NRFRegistry) (b : Browser) :
  let r' := (registerNF now id nfProfile r b).1.1 in
  ∃ p, getNFProfile id r' = Some p
       ∧ p ∈ discoverNFs anyNF r'
       ∧ (in_nfType nfProfile ≠ "" → p ∈ discoverNFs (byType (in_nfType nfProfile)) r')
       ∧ (∀ svcs svc s, in_services nfProfile = Some svcs → svc ∈ svcs →
            answersTo s svc → p ∈ discoverNFs (byService s) r').
Proof.
  cbv zeta.
  assert (∃ p, getNFProfile id (registerNF now id nfProfile r b).1.1 = Some p
               ∧ nfStatus p = REGISTERED ∧ nfType p = in_nfType nfProfile
               ∧ services p = in_services nfProfile) as (p & Hget & Hst & Hty & Hsv).
  { unfold getNFProfile. simpl. rewrite jsmap_get_set_eq. by eexists. }
  exists p. pose proof (getNFProfile_stored _ _ _ Hget) as Hin.
  split_and!; [done|..].
  - apply discoverNFs_elem. split; [done|]. unfold discover_keeps. by rewrite Hst.
  - intros HT. apply discoverNFs_elem. split; [done|].
    rewrite discover_keeps_byType by done. rewrite Hst, Hty, String.eqb_refl. done.
  - intros svcs svc s Hs Hsvc Hans. apply discoverNFs_elem. split; [done|].
    unfold discover_keeps. rewrite Hst, Hsv, Hs. simpl.
    destruct (truthy_str s); [|done]. apply existsb_answersTo. eauto.
Qed.

(** X6. For a non-empty service [s], [discoverNFs({service: s})] returns
    exactly the stored REGISTERED profiles that either carry no [services]
    key at all or list a service whose instance id or name is [s]: the
    service filter is skipped for a profile without services. *)
Theorem discoverNFs_by_service (s : string) (r : NRFRegistry) (p : NFProfile) :
  s ≠ "" →
  p ∈ discoverNFs (byService s) r
  ↔ p ∈ getAllRegisteredNFs r
    ∧ nfStatus p = REGISTERED
    ∧ match services p with
      | None => True
      | Some svcs => ∃ svc, svc ∈ svcs ∧ answersTo s svc
      end.
Proof.
  intros Hs. rewrite discoverNFs_elem. unfold discover_keeps, byService. simpl.
  unfold truthy_str. apply String.eqb_neq in Hs as ->. simpl.
  destruct (bool_decide_reflect (nfStatus p = REGISTERED)) as [Hst|Hst]; simpl.
  - destruct (services p) as [svcs|].
    + rewrite existsb_answersTo. tauto.
    + tauto.
  - split; [by intros [_ ?]|]. by intros (_ & ? & _).
Qed.

(** The profiles of a list that have status [st]. *)
Lemma fold_countStatus l init :
  let count st := length (List.filter (fun p => bool_decide (nfStatus p = st)) l) in
  fold_left countStatus l init
  = {| stat_total := stat_total init;
       stat_registered := stat_registered init + count REGISTERED;
       stat_unavailable := stat_unavailable init + count UNAVAILABLE;
       stat_removed := stat_removed init + count REMOVED |}.
Proof.
  simpl. revert init. induction l as [|p l IH]; intros init; simpl.
  - destruct init. simpl. f_equal; lia.
  - rewrite IH. unfold countStatus. destruct (nfStatus p); simpl; f_equal; lia.
Qed.

Lemma count_statuses (l : list NFProfile) :
  let count st := length (List.filter (fun p => bool_decide (nfStatus p = st)) l) in
  (count REGISTERED + count UNAVAILABLE + count REMOVED = length l)%nat.
Proof.
  simpl. induction l as [|p l IH]; simpl; [done|].
  destruct (nfStatus p); simpl; lia.
Qed.

(** X7. [getStatistics] counts every stored profile exactly once: [total] is
    the size of the registry map and equals
    [registered + unavailable + removed]; [registered] is the number of
    profiles a discovery without filters returns. *)
Theorem getStatistics_spec (r : NRFRegistry) :
  stat_total (getStatistics r) = length (getAllRegisteredNFs r)
  ∧ (stat_registered (getStatistics r) + stat_unavailable (getStatistics r)
     + stat_removed (getStatistics r) = stat_total (getStatistics r))%nat
  ∧ stat_registered (getStatistics r) = length (discoverNFs anyNF r).
Proof.
  unfold getStatistics, getAllRegisteredNFs. rewrite fold_countStatus. simpl.
  pose proof (count_statuses (jsmap_values (registry r))) as Hsum. simpl in Hsum.
  unfold jsmap_values in *. rewrite length_fmap in *. split_and!; [done|lia|].
  unfold discoverNFs, jsmap_values. f_equal. apply filter_ext. intros p.
  unfold discover_keeps. simpl. by destruct (bool_decide (nfStatus p = REGISTERED)).
Qed.

(** ** Sweeps, renewals and purges composed *)

Lemma sweepScan_settled now timeout grace m b :
  Forall (fun e => settled now timeout grace e.2 = true) m →
  sweepScan now timeout grace m b = (m, b, []).
Proof.
  revert b. induction m as [|[id p] m IH]; intros b Hall; simpl; [done|].
  apply Forall_cons in Hall as [Hp Hm]. simpl in Hp.
  unfold settled, dueForRemoval, expired in Hp.
  destruct (now - lastRenewal p >? timeout); simpl in *.
  - destruct (nfStatus p); simpl in *; try discriminate.
    + destruct (now - statusChangedAt p >? grace); [discriminate|].
      by rewrite (IH b Hm).
    + by rewrite (IH b Hm).
  - by rewrite (IH b Hm).
Qed.

Lemma set_registry_same r : set_registry (registry r) r = r.
Proof. by destruct r. Qed.

(** After a sweep at [now], every profile is settled for a sweep at [now]. *)
Lemma checkHeartbeatTimeouts_settles now r b :
  keys_unique r → 0 ≤ gracePeriod r →
  Forall (fun e => settled now (heartbeatTimeout r) (gracePeriod r) e.2 = true)
         (registry (checkHeartbeatTimeouts now r b).1).
Proof.
  intros Hnd Hgrace. apply Forall_forall. intros [k q] Hin. simpl.
  pose proof (keys_unique_checkHeartbeatTimeouts now r b Hnd) as Hnd'.
  pose proof (jsmap_elem_get k q _ Hnd' Hin) as Hq.
  assert (is_Some (jsmap_get k (registry r))) as [p Hp].
  { destruct (jsmap_get k (registry r)) eqn:Hk; [done|]. exfalso.
    apply jsmap_get_None in Hk. apply Hk.
    rewrite <- (keys_checkHeartbeatTimeouts now r b).
    unfold jsmap_keys. apply list_elem_of_fmap. by exists (k, q). }
  pose proof (checkHeartbeatTimeouts_get now r b k p Hnd Hp) as H.
  unfold getNFProfile in H. unfold settled.
  destruct (dueForRemoval now (heartbeatTimeout r) (gracePeriod r) p) eqn:Hdue.
  - destruct H as (q' & Hq' & Hst & _). assert (q' = q) as -> by congruence.
    unfold dueForRemoval. rewrite Hst. simpl. by rewrite !andb_false_r.
  - assert (q = scanProfile now (heartbeatTimeout r) p) as -> by congruence.
    unfold scanProfile.
    destruct (expired now (heartbeatTimeout r) p) eqn:Hexp; simpl.
    + destruct (bool_decide_reflect (nfStatus p = REGISTERED)) as [Hst|Hst]; simpl.
      * unfold dueForRemoval, expired, lastRenewal. simpl.
        fold (lastRenewal p). rewrite andb_false_r. simpl.
        destruct (Z.gtb_spec (now - now) (gracePeriod r)); [lia|].
        by rewrite andb_false_r.
      * rewrite Hexp, Hdue. simpl.
        by rewrite bool_decide_eq_false_2.
    + by rewrite Hexp, Hdue.
Qed.

(** X8. With distinct keys and a non-negative grace period, a second sweep
    at the same instant changes nothing: profiles the first sweep made
    UNAVAILABLE start their grace period at that instant, and the profiles
    it removed are REMOVED and ignored. *)
Theorem sweep_idempotent (now : Z) (r : NRFRegistry) (b : Browser) :
  keys_unique r →
  0 ≤ gracePeriod r →
  checkHeartbeatTimeouts now (checkHeartbeatTimeouts now r b).1
                             (checkHeartbeatTimeouts now r b).2
  = checkHeartbeatTimeouts now r b.
Proof.
  intros Hnd Hgrace.
  pose proof (checkHeartbeatTimeouts_settles now r b Hnd Hgrace) as Hall.
  destruct (config_checkHeartbeatTimeouts now r b) as [Ht Hg].
  destruct (checkHeartbeatTimeouts now r b) as [r1 b1]. simpl in *.
  unfold checkHeartbeatTimeouts. rewrite Ht, Hg.
  rewrite (sweepScan_settled _ _ _ _ _ Hall). unfold removeAll. simpl.
  by rewrite set_registry_same.
Qed.

(** X9. A renewal resets the timeout window: after [updateHeartbeat] at a
    non-zero time [t] for a stored profile that is not REMOVED, any sweep at a
    time [now] with [now - t] within the heartbeat timeout leaves the profile
    REGISTERED with its [lastHeartbeat] at [t], whatever its earlier status
    and timestamps. *)
Theorem renewal_protects_from_sweep (t now : Z) (id : string) (r : NRFRegistry)
    (b : Browser) (p : NFProfile) :
  keys_unique r →
  getNFProfile id r = Some p →
  nfStatus p ≠ REMOVED →
  t ≠ 0 →
  now - t ≤ heartbeatTimeout r →
  ∃ q, getNFProfile id
         (checkHeartbeatTimeouts now (updateHeartbeat t id r b).1.1
                                     (updateHeartbeat t id r b).1.2).1 = Some q
       ∧ nfStatus q = REGISTERED
       ∧ lastHeartbeat q = t.
Proof.
  intros Hnd Hget Hst Ht Hfresh.
  pose proof (updateHeartbeat_get t id r b p Hget) as Hup.
  pose proof (keys_unique_updateHeartbeat t id r b Hnd) as Hnd1.
  destruct (config_updateHeartbeat t id r b) as [Hto Hgr].
  set (q := match nfStatus p with
            | UNAVAILABLE => set_nfStatus REGISTERED t (set_lastHeartbeat t p)
            | _ => set_lastHeartbeat t p
            end) in Hup.
  assert (nfStatus q = REGISTERED ∧ lastHeartbeat q = t) as [Hq1 Hq2].
  { unfold q. by destruct (nfStatus p) eqn:E. }
  pose proof (checkHeartbeatTimeouts_get now _ (updateHeartbeat t id r b).1.2 id q
                Hnd1 Hup) as H.
  rewrite Hto, Hgr in H.
  assert (expired now (heartbeatTimeout r) q = false) as Hexp.
  { unfold expired, lastRenewal, truthy_num. rewrite Hq2.
    apply Z.eqb_neq in Ht as ->. simpl.
    destruct (Z.gtb_spec (now - t) (heartbeatTimeout r)); [lia|done]. }
  unfold dueForRemoval, scanProfile in H. rewrite Hexp in H. simpl in H.
  by exists q.
Qed.

Lemma jsmap_set_set {V} k (v v' : V) m : jsmap_set k v' (jsmap_set k v m) = jsmap_set k v' m.
Proof.
  induction m as [|[k0 v0] m IH]; simpl.
  - by rewrite String.eqb_refl.
  - destruct (String.eqb k k0) eqn:Hk; simpl; rewrite Hk; [done|]. by rewrite IH.
Qed.

Lemma jsmap_delete_set_absent {V} k (v : V) m :
  jsmap_get k m = None → jsmap_delete k (jsmap_set k v m) = m.
Proof.
  induction m as [|[k0 v0] m IH]; simpl.
  - by rewrite String.eqb_refl.
  - destruct (String.eqb k k0) eqn:Hk; [done|]. simpl. rewrite Hk.
    intros H. by rewrite IH.
Qed.

Lemma deregisterNF_registry now id reason r b p :
  getNFProfile id r = Some p →
  ∃ p', registry (deregisterNF now id reason r b).1 = jsmap_set id p' (registry r).
Proof.
  unfold getNFProfile, deregisterNF. intros ->.
  destruct (startDeregisteredNFMonitoring _ _ _) as [p2 b2]. simpl. by eexists.
Qed.

(** X10. The purge that [deregisterNF] schedules is not cancelled by a later
    registration: when the id is registered again before the purge runs, the
    profile is REGISTERED, the purge is still pending, and when it fires it
    deletes the newly registered profile, after which a heartbeat for the id
    is refused. *)
Theorem stale_purge_deletes_reregistered (now now2 now3 : Z) (id reason : string)
    (nfProfile : NFProfileInput) (r : NRFRegistry) (b : Browser) (p : NFProfile)
    (cm : bool) :
  getNFProfile id r = Some p →
  let st1 := deregisterNF now id reason r b in
  let st2 := (registerNF now2 id nfProfile st1.1 st1.2).1 in
  (∃ q, getNFProfile id st2.1 = Some q ∧ nfStatus q = REGISTERED)
  ∧ ∃ t, t ∈ timeouts st2.2
         ∧ timer_task t = PurgeProfile id ∧ timer_delay t = 5000
         ∧ let w3 := fireTimeout now3 t
                       {| browser := st2.2; nrfRegistry := Some st2.1;
                          connectionManager := cm |} in
           ∃ r3, nrfRegistry w3 = Some r3
                 ∧ getNFProfile id r3 = None
                 ∧ (updateHeartbeat now3 id r3 (browser w3)).2 = false.
Proof.
  intros Hget. cbv zeta.
  destruct (deregisterNF_known now id reason r b p Hget)
    as (_ & _ & _ & _ & _ & (i & Htimeouts) & _).
  destruct (deregisterNF now id reason r b) as [r1 b1]. cbn [fst snd] in *.
  split.
  - unfold getNFProfile. simpl. rewrite jsmap_get_set_eq. by eexists.
  - exists {| timer_id := i; timer_delay := 5000; timer_task := PurgeProfile id |}.
    split_and!; [|done..|].
    + simpl. rewrite timeouts_updateStoredNF, Htimeouts.
      apply elem_of_app. right. by apply list_elem_of_singleton.
    + unfold fireTimeout. cbn [timer_task set_browser nrfRegistry browser].
      eexists. split; [reflexivity|].
      assert (getNFProfile id
                (purgeProfile id (registerNF now2 id nfProfile r1 b1).1.1) = None) as Hnone.
      { unfold getNFProfile, purgeProfile. simpl. apply jsmap_get_delete_eq. }
      split; [exact Hnone|].
      unfold updateHeartbeat. unfold getNFProfile in Hnone. by rewrite Hnone.
Qed.

(** X11. Registering an id that is not in the registry, deregistering it and
    letting the purge run gives back the registry map as it was, entry by
    entry and in order; the two histories keep one record each of the
    round trip. *)
Theorem register_deregister_purge (now now2 : Z) (id reason : string)
    (nfProfile : NFProfileInput) (r : NRFRegistry) (b : Browser) :
  getNFProfile id r = None →
  let st1 := (registerNF now id nfProfile r b).1 in
  let st2 := deregisterNF now2 id reason st1.1 st1.2 in
  let r3 := purgeProfile id st2.1 in
  registry r3 = registry r
  ∧ length (getAllRegistrationRecords r3) = S (length (getAllRegistrationRecords r))
  ∧ length (getAllDeregistrationRecords r3) = S (length (getAllDeregistrationRecords r)).
Proof.
  intros Hnone. cbv zeta.
  assert (∃ p1, getNFProfile id (registerNF now id nfProfile r b).1.1 = Some p1
                ∧ registry (registerNF now id nfProfile r b).1.1
                  = jsmap_set id p1 (registry r)
                ∧ length (registrationHistory (registerNF now id nfProfile r b).1.1)
                  = S (length (registrationHistory r))
                ∧ deregistrationHistory (registerNF now id nfProfile r b).1.1
                  = deregistrationHistory r) as (p1 & Hget1 & Hreg1 & Hh1 & Hd1).
  { unfold getNFProfile. simpl. rewrite jsmap_get_set_eq, length_app. simpl.
    eexists. split_and!; [done..|lia|done]. }
  destruct (registerNF now id nfProfile r b) as [[r1 b1] res]. cbn [fst snd] in *.
  destruct (deregisterNF_registry now2 id reason r1 b1 p1 Hget1) as (p2 & Hreg2).
  destruct (records_deregisterNF now2 id reason r1 b1) as (_ & Hh2 & Hd2).
  unfold getAllRegistrationRecords, getAllDeregistrationRecords, purgeProfile. simpl.
  split_and!.
  - rewrite Hreg2, Hreg1, jsmap_set_set. by apply jsmap_delete_set_absent.
  - by rewrite Hh2, Hh1.
  - destruct Hd2 as [[_ Hd2]|(rec & _ & _ & Hd2)].
    + exfalso. destruct (deregisterNF_known now2 id reason r1 b1 p1 Hget1)
        as (_ & (rec & Hrec & _) & _). rewrite Hrec in Hd2.
      apply (f_equal length) in Hd2. rewrite length_app in Hd2. simpl in Hd2. lia.
    + rewrite Hd2, Hd1, length_app. simpl. lia.
Qed.

(** ** The heartbeat monitor *)

Lemma filter_fresh_timer {T} (l : list (Timer T)) (t : Timer T) :
  (∀ t', t' ∈ l → timer_id t' ≠ timer_id t) →
  List.filter (fun t' => negb (Pos.eqb (timer_id t') (timer_id t))) (l ++ [t]) = l.
Proof.
  intros Hfresh. rewrite List.filter_app. simpl. rewrite Pos.eqb_refl. simpl.
  rewrite app_nil_r. induction l as [|t0 l IH]; simpl; [done|].
  assert (timer_id t0 ≠ timer_id t) as Hne by (apply Hfresh, elem_of_cons; by left).
  apply Pos.eqb_neq in Hne as ->. simpl. f_equal. apply IH.
  intros t' Ht'. apply Hfresh, elem_of_cons. by right.
Qed.

(** X12. [startHeartbeatMonitor] is idempotent: a second call changes
    nothing. From a registry that is not monitoring, with the next timer id
    unused, it installs one interval of 10000 ms whose callback is the sweep:
    each time the interval fires, the registry and the browser become what
    [checkHeartbeatTimeouts] makes of them at that instant.
    [stopHeartbeatMonitor] then clears exactly that interval: the installed
    intervals and the monitoring flags are as before the start. *)
Theorem heartbeatMonitor_start_stop (r : NRFRegistry) (b : Browser) :
  startHeartbeatMonitor (startHeartbeatMonitor r b).1 (startHeartbeatMonitor r b).2
  = startHeartbeatMonitor r b
  ∧ (isMonitoring r = false →
     (∀ t, t ∈ intervals b → timer_id t ≠ nextTimerId b) →
     let st := startHeartbeatMonitor r b in
     let st' := stopHeartbeatMonitor st.1 st.2 in
     isMonitoring st.1 = true
     ∧ (∃ t, intervals st.2 = intervals b ++ [t]
             ∧ timer_task t = HeartbeatMonitorTick ∧ timer_delay t = 10000
             ∧ monitorIntervalId st.1 = Some (timer_id t)
             ∧ ∀ now w r',
                 nrfRegistry w = Some r' →
                 nrfRegistry (fireInterval now t w)
                 = Some (checkHeartbeatTimeouts now r' (browser w)).1
                 ∧ browser (fireInterval now t w)
                   = (checkHeartbeatTimeouts now r' (browser w)).2
                 ∧ connectionManager (fireInterval now t w) = connectionManager w)
     ∧ isMonitoring st'.1 = false
     ∧ monitorIntervalId st'.1 = None
     ∧ intervals st'.2 = intervals b
     ∧ registry st'.1 = registry r).
Proof.
  split.
  - unfold startHeartbeatMonitor. destruct (isMonitoring r) eqn:Hm; simpl.
    + by rewrite Hm.
    + done.
  - intros Hm Hfresh. unfold startHeartbeatMonitor. rewrite Hm. simpl.
    split_and!; try done.
    + eexists. split_and!; try done.
      intros now w r' Hr'. unfold fireInterval. cbn [timer_task]. rewrite Hr'.
      by destruct (checkHeartbeatTimeouts now r' (browser w)).
    + apply (filter_fresh_timer (intervals b)
               {| timer_id := nextTimerId b; timer_delay := 10000;
                  timer_task := HeartbeatMonitorTick |}). exact Hfresh.
Qed.

(** ** Types outside the connection table *)

Lemma isConnectionValid_unknown_source T x :
  initializeValidConnections !! T = None → plainName T →
  isConnectionValid T x = Returns false.
Proof.
  intros H Hplain. unfold isConnectionValid, isConnectionValid_in.
  by rewrite (js_property_plain _ _ Hplain H).
Qed.

Lemma isConnectionValid_unknown_target T x :
  initializeValidConnections !! T = None → plainName T → plainName x →
  isConnectionValid x T = Returns false.
Proof.
  intros H HT Hx. destruct (isConnectionValid_plain x T Hx HT) as [-> _].
  by apply isConnectionValid_unknown_source.
Qed.

Lemma isConnectionValid_inherited_source T x :
  includes T objectPrototypeNames = true → isConnectionValid T x = Throws TypeError.
Proof. intros HT. apply isConnectionValid_Throws. split; [done|]. by left. Qed.

Lemma isConnectionValid_unknown_never T x :
  initializeValidConnections !! T = None →
  isConnectionValid T x ≠ Returns true ∧ isConnectionValid x T ≠ Returns true.
Proof.
  intros HT.
  assert (¬ compatibleEitherWay T x) as Hnot.
  { intros [(l & Hl & _)|(l & Hl & Hin)]; [congruence|].
    destruct (validConnections_closed _ _ _ Hl Hin) as [? ?]. congruence. }
  split; intros Htrue; apply Hnot.
  - by apply isConnectionValid_compatible.
  - apply isConnectionValid_compatible in Htrue. unfold compatibleEitherWay in *. tauto.
Qed.

(** X13. A type that has no entry in the connection table (the generic
    [Service] type of the service manager, for one) is accepted with no
    type, in either direction. When neither type names a member of
    [Object.prototype] the verdict is [false]; when the unlisted type names
    one ([constructor], for one) the call with that type first throws a
    [TypeError], and so does the call with that type second unless the first
    type is unlisted too or lists it. [createConnection] never links an NF of
    an unlisted type and leaves the state as it was: it returns [null] when
    the two types name no inherited member, and otherwise returns [null] or
    throws. *)
Theorem unknown_type_never_links :
  (∀ T x, initializeValidConnections !! T = None →
          isConnectionValid T x ≠ Returns true ∧ isConnectionValid x T ≠ Returns true)
  ∧ (∀ T x, initializeValidConnections !! T = None → plainName T →
            isConnectionValid T x = Returns false
            ∧ (plainName x → isConnectionValid x T = Returns false))
  ∧ (∀ T x, includes T objectPrototypeNames = true →
            isConnectionValid T x = Throws TypeError
            ∧ (is_Some (initializeValidConnections !! x) →
               isConnectionValid x T = Throws TypeError)
            ∧ (initializeValidConnections !! x = None → plainName x →
               isConnectionValid x T = Returns false))
  ∧ (∀ now connId a b isManual w nfA nfB,
       getNFById a (dataStore (browser w)) = Some nfA →
       getNFById b (dataStore (browser w)) = Some nfB →
       initializeValidConnections !! nf_type nfA = None
       ∨ initializeValidConnections !! nf_type nfB = None →
       (createConnection now connId a b isManual w).1 = w
       ∧ (∀ c, (createConnection now connId a b isManual w).2 ≠ Created c)
       ∧ (plainName (nf_type nfA) → plainName (nf_type nfB) →
          ∃ why, (createConnection now connId a b isManual w).2 = Rejected why)).
Proof.
  split; [exact isConnectionValid_unknown_never|].
  split.
  { intros T x HT Hplain. split; [by apply isConnectionValid_unknown_source|].
    intros Hx. by apply isConnectionValid_unknown_target. }
  split.
  { intros T x HT. split; [by apply isConnectionValid_inherited_source|]. split.
    - intros [lx Hx]. apply isConnectionValid_Throws. split; [done|]. right.
      split; [|done]. exists lx. split; [done|]. intros Hin.
      destruct (validConnections_closed _ _ _ Hx Hin) as [lT HlT].
      pose proof (validConnections_plain T (ltac:(by eexists))) as Hplain.
      unfold plainName in Hplain. congruence.
    - intros Hx Hplain. by apply isConnectionValid_unknown_source. }
  intros now connId a b isManual w nfA nfB Ha Hb Hunknown.
  assert (isConnectionValid (nf_type nfA) (nf_type nfB) ≠ Returns true) as Hinvalid.
  { destruct Hunknown as [H|H].
    - apply (isConnectionValid_unknown_never _ (nf_type nfB) H).
    - apply (isConnectionValid_unknown_never _ (nf_type nfA) H). }
  destruct (decide (a = b)) as [<-|Hab].
  { rewrite (createConnection_self _ _ _ _ _ nfA Ha). split_and!; [done|done|by eauto]. }
  destruct (decide (getNetworkFromIP (cfg_ipAddress (nf_config nfA))
                    = getNetworkFromIP (cfg_ipAddress (nf_config nfB)))) as [Hnet|Hnet].
  2:{ rewrite (createConnection_subnet _ _ _ _ _ _ nfA nfB) by done.
      split_and!; [done|done|by eauto]. }
  pose proof (createConnection_verdict now connId a b isManual w nfA nfB Ha Hb Hab Hnet)
    as Hverdict.
  destruct (isConnectionValid (nf_type nfA) (nf_type nfB)) as [[|]|e] eqn:Hvalid; [done|..].
  - rewrite Hverdict. split_and!; [done|done|by eauto].
  - rewrite Hverdict. split_and!; [done|done|].
    intros HpA HpB. destruct (isConnectionValid_plain _ _ HpA HpB) as [_ [v Hv]]. congruence.
Qed.

(** ** Interface names *)

Lemma dash_splits_append s t : (s, t) ∈ dash_splits (s +:+ "-" +:+ t).
Proof.
  induction s as [|c s IH]; simpl.
  - apply elem_of_cons. by left.
  - apply elem_of_app. right. apply list_elem_of_In.
    apply (in_map (fun st => (String c st.1, st.2)) _ (s, t)).
    by apply list_elem_of_In.
Qed.

Lemma interfaces_agree_true : interfaces_agree = true.
Proof. by vm_compute. Qed.

Lemma interfaces_cover_true : interfaces_cover = true.
Proof. by vm_compute. Qed.

Lemma interfaces_reverse s t name :
  (list_to_map interfacesTable : gmap string string) !! (s +:+ "-" +:+ t) = Some name →
  (list_to_map interfacesTable : gmap string string) !! (t +:+ "-" +:+ s) = None
  ∨ (list_to_map interfacesTable : gmap string string) !! (t +:+ "-" +:+ s) = Some name.
Proof.
  intros Hst. apply elem_of_list_to_map_2 in Hst.
  pose proof interfaces_agree_true as Hall. unfold interfaces_agree in Hall.
  rewrite forallb_forall in Hall. specialize (Hall _ (proj1 (list_elem_of_In _ _) Hst)).
  cbn beta iota delta [fst snd] in Hall. rewrite forallb_forall in Hall.
  specialize (Hall _ (proj1 (list_elem_of_In _ _) (dash_splits_append s t))).
  cbn beta iota delta [fst snd] in Hall.
  destruct (_ !! (t +:+ "-" +:+ s)) as [name'|]; [|by left].
  right. apply String.eqb_eq in Hall. by subst.
Qed.

(** X14. The interface name of a pair of types does not depend on the order
    of the two, for all strings, although the table is keyed by ordered pairs
    and lists some pairs in both orders; and every pair of types that
    [isConnectionValid] accepts has a name of its own, so that no connection
    [createConnection] creates carries the default name SBI. *)
Theorem getInterfaceName_spec :
  (∀ a b, getInterfaceName a b = getInterfaceName b a)
  ∧ (∀ a b, isConnectionValid a b = Returns true → getInterfaceName a b ≠ "SBI")
  ∧ (∀ now connId a b isManual w c,
       returned (createConnection now connId a b isManual w).2 = Some c →
       interfaceName c ≠ "SBI").
Proof.
  assert (∀ a b, getInterfaceName a b = getInterfaceName b a) as Hsym.
  { intros a b. unfold getInterfaceName. cbv zeta.
    destruct (_ !! (a +:+ "-" +:+ b)) as [n1|] eqn:Hab;
      destruct (_ !! (b +:+ "-" +:+ a)) as [n2|] eqn:Hba; try done.
    destruct (interfaces_reverse a b n1 Hab); congruence. }
  assert (∀ a b, isConnectionValid a b = Returns true → getInterfaceName a b ≠ "SBI")
    as Hcover.
  { assert (∀ a b peers, initializeValidConnections !! a = Some peers → b ∈ peers →
                         getInterfaceName a b ≠ "SBI") as Hone.
    { intros a b peers Ha Hb. apply elem_of_list_to_map_2 in Ha.
      pose proof interfaces_cover_true as Hall. unfold interfaces_cover in Hall.
      rewrite forallb_forall in Hall.
      specialize (Hall _ (proj1 (list_elem_of_In _ _) Ha)).
      cbn beta iota delta [fst snd] in Hall.
      rewrite forallb_forall in Hall.
      specialize (Hall _ (proj1 (list_elem_of_In _ _) Hb)).
      apply negb_true_iff, String.eqb_neq in Hall. exact Hall. }
    intros a b [[peers [Ha Hb]]|[peers [Hb Ha]]]%isConnectionValid_compatible.
    - by apply (Hone a b peers).
    - rewrite Hsym. by apply (Hone b a peers). }
  split; [exact Hsym|]. split; [exact Hcover|].
  intros now connId a b isManual w c Hc.
  destruct (proj1 (createConnection_admissible now connId a b isManual w))
    as (nfA & nfB & Ha & Hb & Hab & Hnet & Hcompat); [by rewrite Hc|].
  apply isConnectionValid_compatible in Hcompat.
  pose proof (createConnection_verdict now connId a b isManual w nfA nfB Ha Hb Hab Hnet)
    as Hverdict.
  rewrite Hcompat in Hverdict. destruct Hverdict as (c' & b' & Hcreate & -> & _).
  rewrite Hcreate in Hc. injection Hc as <-.
  cbn [interfaceName]. by apply Hcover.
Qed.

(** ** Targets offered to the user *)

Lemma js_filter_Returns {A} (f : A → Outcome bool) (xs l : list A) :
  js_filter f xs = Returns l →
  (∀ x, x ∈ xs → ∃ v, f x = Returns v)
  ∧ l = List.filter (fun x => match f x with Returns true => true | _ => false end) xs.
Proof.
  revert l. induction xs as [|x xs IH]; intros l; simpl.
  - intros [= <-]. split; [|done]. by intros x ?%elem_of_nil.
  - destruct (f x) as [keep|e] eqn:Hfx; simpl; [|done].
    destruct (js_filter f xs) as [kept|e]; simpl; [|done].
    destruct (IH kept eq_refl) as [Hall ->]. intros [= <-]. split.
    + intros y [->|Hy]%elem_of_cons; [by eauto|by apply Hall].
    + by destruct keep.
Qed.

Lemma js_filter_returns {A} (f : A → Outcome bool) (xs : list A) :
  (∀ x, x ∈ xs → ∃ v, f x = Returns v) → ∃ l, js_filter f xs = Returns l.
Proof.
  induction xs as [|x xs IH]; intros Hall; simpl; [by eauto|].
  destruct (Hall x) as [v ->]; [apply elem_of_cons; by left|].
  destruct IH as [l ->]; [|simpl; by eauto].
  intros y Hy. apply Hall, elem_of_cons. by right.
Qed.

Lemma js_filter_Throws {A} (f : A → Outcome bool) (xs : list A) :
  js_filter f xs = Throws TypeError ↔ ∃ x, x ∈ xs ∧ f x = Throws TypeError.
Proof.
  split.
  - induction xs as [|x xs IH]; simpl; [done|].
    destruct (f x) as [keep|[]] eqn:Hfx; simpl.
    + destruct (js_filter f xs) as [kept|[]]; simpl; [done|]. intros _.
      destruct (IH eq_refl) as (y & Hy & Hfy). exists y. split; [|done].
      apply elem_of_cons. by right.
    + intros _. exists x. split; [|done]. apply elem_of_cons. by left.
  - intros (x & Hx & Hfx). destruct (js_filter f xs) as [l|[]] eqn:Hl; [|done].
    destruct (js_filter_Returns f xs l Hl) as [Hall _].
    destruct (Hall x Hx) as [v Hv]. congruence.
Qed.

Lemma getNFById_elem id d nf : getNFById id d = Some nf → nf ∈ getAllNFs d.
Proof.
  unfold getNFById, getAllNFs. intros H. apply find_some in H as [H _].
  by apply list_elem_of_In.
Qed.

(** X15. For an id the store does not know [getValidTargets] and
    [getValidTargetsInSameSubnet] return the empty list. For a stored source
    each of them throws a [TypeError] exactly when [isConnectionValid] throws
    on the source type and the type of some other NF of the store, wherever
    the address of that NF lies; when no type in the store names a member of
    [Object.prototype] both return. When they return, the targets offered in
    the same subnet are among the targets offered, and an NF of the store
    (found under its own id) is offered in the same subnet exactly when
    [createConnection] from the source to it returns a connection. *)
Theorem getValidTargetsInSameSubnet_spec (nfId : string) (d : DataStore) :
  (getNFById nfId d = None →
   getValidTargets nfId d = Returns [] ∧ getValidTargetsInSameSubnet nfId d = Returns [])
  ∧ (∀ s, getNFById nfId d = Some s →
          let throws := ∃ t, t ∈ getAllNFs d ∧ nf_id t ≠ nfId
                             ∧ isConnectionValid (nf_type s) (nf_type t) = Throws TypeError in
          (getValidTargets nfId d = Throws TypeError ↔ throws)
          ∧ (getValidTargetsInSameSubnet nfId d = Throws TypeError ↔ throws))
  ∧ ((∀ t, t ∈ getAllNFs d → plainName (nf_type t)) →
     ∃ l l', getValidTargets nfId d = Returns l
             ∧ getValidTargetsInSameSubnet nfId d = Returns l')
  ∧ (∀ l l', getValidTargets nfId d = Returns l →
             getValidTargetsInSameSubnet nfId d = Returns l' →
             ∀ t, t ∈ l' → t ∈ l)
  ∧ (∀ l' t now connId isManual w,
       getValidTargetsInSameSubnet nfId d = Returns l' →
       dataStore (browser w) = d →
       t ∈ getAllNFs d → getNFById (nf_id t) d = Some t →
       (t ∈ l' ↔ is_Some (returned (createConnection now connId nfId (nf_id t) isManual w).2))).
Proof.
  unfold getValidTargets, getValidTargetsInSameSubnet. split_and!.
  - by intros ->.
  - intros s ->. cbv zeta. rewrite !js_filter_Throws. split.
    + split.
      * intros (t & Ht & Hthrows). exists t. split; [done|].
        destruct (String.eqb (nf_id t) nfId) eqn:Hid; [done|].
        by apply String.eqb_neq in Hid.
      * intros (t & Ht & Hid & Hthrows). exists t. split; [done|].
        by apply String.eqb_neq in Hid as ->.
    + split.
      * intros (t & Ht & Hthrows). exists t. split; [done|].
        destruct (String.eqb (nf_id t) nfId) eqn:Hid; [done|].
        apply String.eqb_neq in Hid. split; [done|]. simpl in Hthrows.
        by destruct (isConnectionValid (nf_type s) (nf_type t)) as [v|[]].
      * intros (t & Ht & Hid & Hthrows). exists t. split; [done|].
        apply String.eqb_neq in Hid as ->. simpl. by rewrite Hthrows.
  - intros Hplain. destruct (getNFById nfId d) as [s|] eqn:Hs; [|by eauto]. cbv zeta.
    pose proof (Hplain s (getNFById_elem _ _ _ Hs)) as Hps.
    destruct (js_filter_returns
                (fun nf => if negb (String.eqb (nf_id nf) nfId)
                           then isConnectionValid (nf_type s) (nf_type nf)
                           else Returns false) (getAllNFs d)) as [l Hl].
    { intros t Ht. destruct (negb _); [|by eauto].
      by destruct (isConnectionValid_plain _ _ Hps (Hplain t Ht)) as [_ ?]. }
    destruct (js_filter_returns
                (fun nf => if negb (String.eqb (nf_id nf) nfId)
                           then
                             valid ← isConnectionValid (nf_type s) (nf_type nf);
                             Returns (valid && String.eqb
                                                 (getNetworkFromIP (cfg_ipAddress (nf_config nf)))
                                                 (getNetworkFromIP (cfg_ipAddress (nf_config s))))
                           else Returns false) (getAllNFs d)) as [l' Hl'].
    { intros t Ht. destruct (negb _); [|by eauto].
      destruct (isConnectionValid_plain _ _ Hps (Hplain t Ht)) as [_ [v ->]].
      simpl. by eauto. }
    by exists l, l'.
  - intros l l'. destruct (getNFById nfId d) as [s|]; [|by intros [= <-] [= <-]]. cbv zeta.
    intros [_ ->]%js_filter_Returns [_ ->]%js_filter_Returns t.
    rewrite !list_elem_of_In, !filter_In. intros [Hin Hkeep]. split; [done|].
    destruct (negb _); [|done]. simpl in Hkeep.
    by destruct (isConnectionValid (nf_type s) (nf_type t)) as [[|]|e].
  - intros l' t now connId isManual w Hl' Hd Hin Hself.
    destruct (getNFById nfId d) as [s|] eqn:Hs.
    2:{ injection Hl' as <-. rewrite createConnection_unknown by (left; by rewrite Hd).
        split; [by intros ?%elem_of_nil | by intros [? ?]]. }
    cbv zeta in Hl'. apply js_filter_Returns in Hl' as [_ ->].
    rewrite list_elem_of_In, filter_In, createConnection_admissible, Hd.
    unfold admissible. split.
    + intros [_ Hkeep]. exists s, t.
      destruct (String.eqb (nf_id t) nfId) eqn:Hid; [done|]. simpl in Hkeep.
      apply String.eqb_neq in Hid.
      destruct (isConnectionValid (nf_type s) (nf_type t)) as [[|]|e] eqn:Hvalid; try done.
      simpl in Hkeep.
      destruct (String.eqb (getNetworkFromIP (cfg_ipAddress (nf_config t))) _) eqn:Hnet;
        [|done].
      apply String.eqb_eq in Hnet.
      split_and!; [done|done|congruence|done|by apply isConnectionValid_compatible].
    + intros (nfA & nfB & HA & HB & Hne & Hnet & Hcompat).
      assert (nfA = s) as -> by congruence. assert (nfB = t) as -> by congruence.
      split; [by apply list_elem_of_In|].
      apply String.eqb_neq in Hne. rewrite String.eqb_sym in Hne. rewrite Hne. simpl.
      apply isConnectionValid_compatible in Hcompat as ->. simpl.
      by rewrite Hnet, String.eqb_refl.
Qed.

(** ** Starting a heartbeat *)

Lemma sameWiring_heartbeatId b b' id nf :
  sameWiring b b' → getNFById id (dataStore b) = Some nf →
  ∃ nf', getNFById id (dataStore b') = Some nf'
         ∧ nf_type nf' = nf_type nf
         ∧ nf_heartbeatIntervalId nf' = nf_heartbeatIntervalId nf.
Proof.
  intros (_ & Hn & _) Hget. destruct (Hn _ _ Hget) as (nf' & Hget' & Hs).
  exists nf'. by destruct Hs as (_ & _ & ? & _ & ?).
Qed.

(** The condition under which [startNFHeartbeat] finds no link to an NRF. *)
Lemma find_nrfConnection_None x d :
  (∀ c o, c ∈ getConnectionsForNF x d → getNFById (otherEnd x c) d = Some o →
          nf_type o ≠ "NRF") →
  List.find (fun conn => match getNFById (otherEnd x conn) d with
                         | Some otherNF => String.eqb (nf_type otherNF) "NRF"
                         | None => false
                         end)
            (getConnectionsForNF x d) = None.
Proof.
  intros Hno. destruct (List.find _ _) as [c|] eqn:Hfind; [|done].
  apply find_some in Hfind as [Hin Hother].
  destruct (getNFById (otherEnd x c) d) as [o|] eqn:Ho; [|done].
  apply String.eqb_eq in Hother. by destruct (Hno c o (proj2 (list_elem_of_In _ _) Hin) Ho).
Qed.

(** X16. [startNFHeartbeat] does nothing for an id the store does not know,
    for an NRF, and for an NF none of whose links leads to an NRF; and it is
    idempotent: whatever the first call did, a second call (at any later
    time) changes nothing, so that an NF never has two heartbeat
    intervals started for it. *)
Theorem startNFHeartbeat_guards (now : Z) (nfId : string) (w : World) :
  (getNFById nfId (dataStore (browser w)) = None → startNFHeartbeat now nfId w = w)
  ∧ (∀ nf, getNFById nfId (dataStore (browser w)) = Some nf → nf_type nf = "NRF" →
           startNFHeartbeat now nfId w = w)
  ∧ ((∀ c o, c ∈ getConnectionsForNF nfId (dataStore (browser w)) →
             getNFById (otherEnd nfId c) (dataStore (browser w)) = Some o →
             nf_type o ≠ "NRF") →
     startNFHeartbeat now nfId w = w)
  ∧ (∀ now', startNFHeartbeat now' nfId (startNFHeartbeat now nfId w)
             = startNFHeartbeat now nfId w).
Proof.
  split_and!.
  - intros Hnone. unfold startNFHeartbeat. by rewrite Hnone.
  - intros nf Hget Hnrf. unfold startNFHeartbeat. by rewrite Hget, Hnrf.
  - intros Hno. unfold startNFHeartbeat.
    destruct (getNFById nfId _) as [nf|]; [|done].
    destruct (String.eqb (nf_type nf) "NRF"); [done|].
    destruct (nf_heartbeatIntervalId nf); [done|].
    cbv zeta. by rewrite (find_nrfConnection_None nfId _ Hno).
  - intros now'.
    assert (∀ w', (∃ nf' i, getNFById nfId (dataStore (browser w')) = Some nf'
                            ∧ nf_heartbeatIntervalId nf' = Some i) →
                  startNFHeartbeat now' nfId w' = w') as Hstarted.
    { intros w' (nf' & i & Hget' & Hid). unfold startNFHeartbeat. rewrite Hget', Hid.
      by destruct (String.eqb (nf_type nf') "NRF"). }
    unfold startNFHeartbeat at 2 3.
    destruct (getNFById nfId (dataStore (browser w))) as [nf|] eqn:Hget.
    2:{ unfold startNFHeartbeat. by rewrite Hget. }
    destruct (String.eqb (nf_type nf) "NRF") eqn:Htype.
    { unfold startNFHeartbeat. by rewrite Hget, Htype. }
    destruct (nf_heartbeatIntervalId nf) as [i|] eqn:Hid.
    { apply Hstarted. eauto. }
    cbv zeta. destruct (List.find _ _) as [c|] eqn:Hfind.
    2:{ unfold startNFHeartbeat. by rewrite Hget, Htype, Hid, Hfind. }
    unfold setInterval. cbv beta iota zeta.
    set (b1 := Build_Browser _ _ _ _ _).
    set (b2 := set_dataStore _ b1).
    assert (∃ nf2, getNFById nfId (dataStore b2) = Some nf2
                   ∧ nf_heartbeatIntervalId nf2 = Some (nextTimerId (browser w))) as Hb2.
    { subst b2 b1. simpl. rewrite getNFById_setHeartbeat, Hget. simpl.
      rewrite String.eqb_refl. by eexists. }
    destruct Hb2 as (nf2 & Hget2 & Hid2).
    destruct (nrfRegistry w) as [r|].
    + pose proof (sameWiring_updateHeartbeat now nfId r b2) as Hsame.
      destruct (updateHeartbeat now nfId r b2) as [[r' b3] ok]. simpl in Hsame.
      apply Hstarted. simpl.
      destruct (sameWiring_heartbeatId _ _ _ _ Hsame Hget2) as (nf3 & Hget3 & _ & Hid3).
      exists nf3, (nextTimerId (browser w)). split; [done|]. congruence.
    + apply Hstarted. simpl. eauto.
Qed.

(** ** Removing links *)

Lemma getConnectionById_removeConnection_ne id k d :
  id ≠ k → getConnectionById id (removeConnection k d) = getConnectionById id d.
Proof.
  intros Hne. unfold getConnectionById, removeConnection. simpl.
  induction (connections d) as [|c l IH]; simpl; [done|].
  destruct (String.eqb_spec (conn_id c) k) as [Hk|Hk]; simpl.
  - assert (conn_id c ≠ id) as Hid%String.eqb_neq by congruence. by rewrite Hid.
  - by rewrite IH.
Qed.

(** X17. [deleteConnection] does nothing for an id the store does not know,
    and is idempotent. For a link neither of whose ends is to be
    deregistered (no end is an NRF, both are, or an end is missing from the
    store) it removes that link only: the registry, the timers and the NF
    objects are untouched, and every other link id resolves as before. *)
Theorem deleteConnection_plain (now : Z) (connectionId : string) (w : World) :
  (getConnectionById connectionId (dataStore (browser w)) = None →
   deleteConnection now connectionId w = w)
  ∧ (∀ now', deleteConnection now' connectionId (deleteConnection now connectionId w)
             = deleteConnection now connectionId w)
  ∧ (∀ c, getConnectionById connectionId (dataStore (browser w)) = Some c →
          (∀ nfS nfT, getNFById (sourceId c) (dataStore (browser w)) = Some nfS →
                      getNFById (targetId c) (dataStore (browser w)) = Some nfT →
                      nonRegistryEnd nfS nfT = None) →
          let w' := deleteConnection now connectionId w in
          nrfRegistry w' = nrfRegistry w
          ∧ timeouts (browser w') = timeouts (browser w)
          ∧ intervals (browser w') = intervals (browser w)
          ∧ nfs (dataStore (browser w')) = nfs (dataStore (browser w))
          ∧ getConnectionById connectionId (dataStore (browser w')) = None
          ∧ ∀ id, id ≠ connectionId →
                  getConnectionById id (dataStore (browser w'))
                  = getConnectionById id (dataStore (browser w))).
Proof.
  split_and!.
  - intros Hnone. unfold deleteConnection. by rewrite Hnone.
  - intros now'. unfold deleteConnection at 2 3.
    destruct (getConnectionById connectionId (dataStore (browser w))) as [c|] eqn:Hc.
    2:{ unfold deleteConnection. by rewrite Hc. }
    cbv zeta. set (w1 := match getNFById (sourceId c) _ with Some _ => _ | None => _ end).
    unfold deleteConnection. simpl. by rewrite getConnectionById_removeConnection.
  - intros c Hc Hplain. unfold deleteConnection. rewrite Hc. cbv zeta.
    assert (match getNFById (sourceId c) (dataStore (browser w)),
                  getNFById (targetId c) (dataStore (browser w)) with
            | Some sourceNF, Some targetNF =>
                if String.eqb (nf_type targetNF) "NRF"
                   && negb (String.eqb (nf_type sourceNF) "NRF")
                then deregisterDisconnected now sourceNF w
                else if String.eqb (nf_type sourceNF) "NRF"
                        && negb (String.eqb (nf_type targetNF) "NRF")
                then deregisterDisconnected now targetNF w
                else w
            | _, _ => w
            end = w) as ->.
    { destruct (getNFById (sourceId c) _) as [nfS|]; [|done].
      destruct (getNFById (targetId c) _) as [nfT|]; [|done].
      specialize (Hplain nfS nfT eq_refl eq_refl). unfold nonRegistryEnd in Hplain.
      destruct (String.eqb (nf_type nfT) "NRF" && negb _); [done|].
      by destruct (String.eqb (nf_type nfS) "NRF" && negb _). }
    simpl. split_and!; try done.
    + apply getConnectionById_removeConnection.
    + intros id Hne. by apply getConnectionById_removeConnection_ne.
Qed.

(** ** A link to the NRF removed before its registration runs *)

Lemma filter_fresh_connection connId (l : list Connection) c :
  List.find (fun c' => String.eqb (conn_id c') connId) l = None →
  conn_id c = connId →
  List.filter (fun c' => negb (String.eqb (conn_id c') connId)) (l ++ [c]) = l.
Proof.
  intros Hfresh Hc. rewrite List.filter_app. simpl. rewrite Hc, String.eqb_refl. simpl.
  rewrite app_nil_r. induction l as [|c0 l IH]; simpl in *; [done|].
  destruct (String.eqb (conn_id c0) connId); [done|]. simpl. f_equal. by apply IH.
Qed.

Lemma nonRegistryEnd_id a b d nfA nfB nf :
  getNFById a d = Some nfA → getNFById b d = Some nfB →
  nonRegistryEnd nfA nfB = Some nf →
  getNFById (nf_id nf) d = Some nf ∧ nf_type nf ≠ "NRF".
Proof.
  intros Ha Hb [(-> & _ & ?)|(-> & _ & ?)]%nonRegistryEnd_cases.
  - by rewrite (getNFById_id _ _ _ Ha).
  - by rewrite (getNFById_id _ _ _ Hb).
Qed.

(** X18. A link to the NRF that is deleted before the 1500 ms callback of
    its creation has run: for an NF that is not registered yet, has no
    heartbeat and no other link to an NRF, the deletion restores the links of
    the store and leaves the registry alone, but the callback stays queued;
    when it runs it registers the NF all the same, and starts no heartbeat
    for it, since the NF has no link to the NRF any more. *)
Theorem registration_outlives_deleted_link (now1 now2 now3 : Z) (connId a b : string)
    (isManual : bool) (w : World) (c : Connection) (nfA nfB nf : NF) (r : NRFRegistry) :
  nrfRegistry w = Some r →
  getConnectionById connId (dataStore (browser w)) = None →
  (createConnection now1 connId a b isManual w).2 = Created c →
  getNFById a (dataStore (browser w)) = Some nfA →
  getNFById b (dataStore (browser w)) = Some nfB →
  nonRegistryEnd nfA nfB = Some nf →
  getNFProfile (nf_id nf) r = None →
  nf_heartbeatIntervalId nf = None →
  (∀ c' o, c' ∈ getConnectionsForNF (nf_id nf) (dataStore (browser w)) →
           getNFById (otherEnd (nf_id nf) c') (dataStore (browser w)) = Some o →
           nf_type o ≠ "NRF") →
  let w1 := (createConnection now1 connId a b isManual w).1 in
  let w2 := deleteConnection now2 connId w1 in
  let t := {| timer_id := nextTimerId (browser w); timer_delay := 1500;
              timer_task := RegisterWithNRF nf |} in
  let w3 := fireTimeout now3 t w2 in
  c ∈ connections (dataStore (browser w1))
  ∧ connections (dataStore (browser w2)) = connections (dataStore (browser w))
  ∧ nrfRegistry w2 = Some r
  ∧ timeouts (browser w2) = timeouts (browser w) ++ [t]
  ∧ (∃ r3 p, nrfRegistry w3 = Some r3
             ∧ getNFProfile (nf_id nf) r3 = Some p
             ∧ nfStatus p = REGISTERED
             ∧ p ∈ discoverNFs anyNF r3)
  ∧ connections (dataStore (browser w3)) = connections (dataStore (browser w))
  ∧ intervals (browser w3) = intervals (browser w).
Proof.
  intros Hr Hfresh Hc Ha Hb Hend Hnew Hhb Hnolink w1 w2 t w3.
  destruct (createConnection_registers _ _ _ _ _ _ _ _ _ _ Hc Ha Hb Hend)
    as (Hw1 & Hsrc & Htgt & Hcid & Hab).
  destruct (nonRegistryEnd_id _ _ _ _ _ _ Ha Hb Hend) as [Hnf Htype].
  assert (w2 = set_browser (setTimeout (RegisterWithNRF nf) 1500 (browser w)) w) as Hw2.
  { subst w2 w1. rewrite Hw1. unfold deleteConnection.
    assert (getConnectionById connId
              (dataStore (browser (set_browser
                 (setTimeout (RegisterWithNRF nf) 1500
                    (set_dataStore (addConnection c (dataStore (browser w))) (browser w))) w)))
            = Some c) as ->.
    { simpl. unfold getConnectionById, addConnection. simpl.
      rewrite (find_snoc _ _ _ Hfresh), Hcid. by rewrite String.eqb_refl. }
    cbv zeta.
    assert (∀ x, getNFById x (dataStore (browser (set_browser
                 (setTimeout (RegisterWithNRF nf) 1500
                    (set_dataStore (addConnection c (dataStore (browser w))) (browser w))) w)))
                 = getNFById x (dataStore (browser w))) as Hsame by done.
    rewrite !Hsame, Hsrc, Htgt, Ha, Hb.
    set (w0 := set_browser _ w).
    assert (deregisterDisconnected now2 nf w0 = w0) as Hdereg.
    { unfold deregisterDisconnected. subst w0. simpl. rewrite Hr.
      unfold deregisterNF. unfold getNFProfile in Hnew. rewrite Hnew.
      unfold set_browser. rewrite Hr. simpl.
      destruct (connectionManager w); [|done].
      unfold stopNFHeartbeat.
      change (getNFById (nf_id nf) _)
        with (getNFById (nf_id nf) (dataStore (browser w))).
      by rewrite Hnf, Hhb. }
    assert ((if String.eqb (nf_type nfB) "NRF" && negb (String.eqb (nf_type nfA) "NRF")
             then deregisterDisconnected now2 nfA w0
             else if String.eqb (nf_type nfA) "NRF" && negb (String.eqb (nf_type nfB) "NRF")
                  then deregisterDisconnected now2 nfB w0
                  else w0) = w0) as ->.
    { unfold nonRegistryEnd in Hend.
      destruct (String.eqb (nf_type nfB) "NRF" && negb _); [by injection Hend as ->|].
      destruct (String.eqb (nf_type nfA) "NRF" && negb _); [by injection Hend as ->|done]. }
    subst w0. unfold set_browser, set_dataStore, setTimeout, removeConnection, addConnection.
    simpl. rewrite (filter_fresh_connection _ _ _ Hfresh Hcid).
    by destruct w as [[[] ? ? ? ?] ? ?]. }
  set (b0 := dropTimeout (timer_id t)
                (setTimeout (RegisterWithNRF nf) 1500 (browser w))).
  set (b' := updateStoredNF (nf_id nf) (nf_set_nrfStatus REGISTERED) b0).
  set (r' := (registerNF now3 (nf_id nf) (profileOfNF nf) r b0).1.1).
  assert (∀ x, getNFById x (dataStore b')
               = (if String.eqb (nf_id nf) x then nf_set_nrfStatus REGISTERED
                  else fun nf0 => nf0) <$> getNFById x (dataStore (browser w))) as Hget'.
  { intros x. subst b'. by rewrite getNFById_updateStoredNF. }
  assert (connections (dataStore b') = connections (dataStore (browser w))) as Hconns.
  { subst b'. by rewrite connections_updateStoredNF. }
  assert (intervals b' = intervals (browser w)) as Hints.
  { subst b'. by rewrite intervals_updateStoredNF. }
  assert (w3 = {| browser := b'; nrfRegistry := Some r';
                  connectionManager := connectionManager w |}) as Hw3.
  { subst w3. rewrite Hw2. unfold fireTimeout.
    change (timer_task t) with (RegisterWithNRF nf).
    cbn [set_browser nrfRegistry browser connectionManager]. rewrite Hr.
    change (registerNF now3 (nf_id nf) (profileOfNF nf) r
              (dropTimeout (timer_id t) (setTimeout (RegisterWithNRF nf) 1500 (browser w))))
      with (r', b', (registerNF now3 (nf_id nf) (profileOfNF nf) r b0).2).
    cbv beta iota. clearbody b' r'. unfold startNFHeartbeat.
    cbn [browser nrfRegistry connectionManager].
    rewrite Hget', Hnf, String.eqb_refl. cbn [fmap option_fmap option_map].
    cbn [nf_set_nrfStatus nf_type nf_heartbeatIntervalId]. rewrite Hhb.
    apply String.eqb_neq in Htype as ->.
    cbv zeta. rewrite find_nrfConnection_None; [done|].
    intros c' o Hc' Ho. unfold getConnectionsForNF in Hc'. rewrite Hconns in Hc'.
    rewrite Hget' in Ho. destruct (getNFById (otherEnd (nf_id nf) c') (dataStore (browser w)))
      as [o0|] eqn:Ho0;
      [|done].
    simpl in Ho. injection Ho as <-. pose proof (Hnolink c' o0 Hc' Ho0) as Htype0.
    by destruct (String.eqb (nf_id nf) (otherEnd (nf_id nf) c')). }
  assert (∃ r3 p, nrfRegistry w3 = Some r3
                  ∧ getNFProfile (nf_id nf) r3 = Some p
                  ∧ nfStatus p = REGISTERED
                  ∧ p ∈ discoverNFs anyNF r3) as Hfired.
  { rewrite Hw3. exists r'.
    assert (∃ p, getNFProfile (nf_id nf) r' = Some p ∧ nfStatus p = REGISTERED)
      as (p & Hp & Hst).
    { subst r'. unfold getNFProfile. simpl. rewrite jsmap_get_set_eq. by eexists. }
    exists p. split_and!; try done. by apply (discoverNFs_includes r' (nf_id nf)). }
  split_and!.
  - subst w1. rewrite Hw1. simpl. apply elem_of_app. right. by apply list_elem_of_singleton.
  - by rewrite Hw2.
  - by rewrite Hw2.
  - by rewrite Hw2.
  - exact Hfired.
  - by rewrite Hw3.
  - by rewrite Hw3.
Qed.

(** ** Deployment order *)

Section DeploymentOrder.
Context {A : Type} (type : A → string).

Lemma filter_type_twice T ty (nfs : list A) :
  List.filter (fun nf => String.eqb (type nf) T)
              (List.filter (fun nf => String.eqb (type nf) ty) nfs)
  = if String.eqb ty T then List.filter (fun nf => String.eqb (type nf) T) nfs else [].
Proof.
  induction nfs as [|x nfs IH]; simpl.
  - by destruct (String.eqb ty T).
  - destruct (String.eqb_spec (type x) ty) as [Hx|Hx]; simpl; rewrite IH.
    + destruct (String.eqb_spec ty T) as [HT|HT].
      * by rewrite Hx, HT.
      * assert (type x ≠ T) as Hne%String.eqb_neq by congruence. by rewrite Hne.
    + destruct (String.eqb_spec ty T) as [HT|HT]; [|done].
      assert (type x ≠ T) as Hne%String.eqb_neq by congruence. by rewrite Hne.
Qed.

Lemma blocks_type o (nfs : list A) x :
  x ∈ flat_map (fun ty => List.filter (fun nf => String.eqb (type nf) ty) nfs) o ↔
  x ∈ nfs ∧ type x ∈ o.
Proof.
  rewrite list_elem_of_In, in_flat_map. split.
  - intros (ty & Hty & Hx). apply filter_In in Hx as [Hx Heq].
    apply String.eqb_eq in Heq. subst ty. by rewrite !list_elem_of_In.
  - intros [Hx Hty]. exists (type x). rewrite filter_In, String.eqb_refl.
    by rewrite <- !list_elem_of_In.
Qed.

Lemma filter_blocks o T (nfs : list A) :
  NoDup o →
  List.filter (fun nf => String.eqb (type nf) T)
     (flat_map (fun ty => List.filter (fun nf => String.eqb (type nf) ty) nfs) o)
  = if bool_decide (T ∈ o) then List.filter (fun nf => String.eqb (type nf) T) nfs else [].
Proof.
  induction o as [|ty o IH]; [done|]. intros [Hnotin Hnd]%NoDup_cons. simpl.
  rewrite List.filter_app, filter_type_twice, (IH Hnd).
  destruct (String.eqb_spec ty T) as [->|Hne].
  - rewrite (bool_decide_eq_false_2 _ Hnotin), app_nil_r.
    rewrite bool_decide_eq_true_2; [done|]. apply elem_of_cons. by left.
  - simpl. destruct (bool_decide_reflect (T ∈ o)) as [Hin|Hout].
    + rewrite bool_decide_eq_true_2; [done|]. apply elem_of_cons. by right.
    + rewrite bool_decide_eq_false_2; [done|].
      intros [?|?]%elem_of_cons; [congruence|done].
Qed.

Lemma flat_map_ext_elem {B} (f g : string → list B) o :
  (∀ ty, ty ∈ o → f ty = g ty) → flat_map f o = flat_map g o.
Proof.
  induction o as [|ty o IH]; intros Hfg; simpl; [done|].
  rewrite Hfg by (apply elem_of_cons; by left). f_equal.
  apply IH. intros ty' Hin. apply Hfg, elem_of_cons. by right.
Qed.

Lemma blocks_again o (nfs : list A) :
  NoDup o →
  flat_map (fun ty => List.filter (fun nf => String.eqb (type nf) ty)
              (flat_map (fun ty' => List.filter (fun nf => String.eqb (type nf) ty') nfs) o)) o
  = flat_map (fun ty => List.filter (fun nf => String.eqb (type nf) ty) nfs) o.
Proof.
  intros Hnd. apply flat_map_ext_elem. intros ty Hty.
  by rewrite (filter_blocks o ty nfs Hnd), bool_decide_eq_true_2.
Qed.

Lemma blocks_insert o (f : string → list A) x :
  NoDup o →
  flat_map (fun ty => if String.eqb (type x) ty then x :: f ty else f ty) o
  ≡ₚ (if bool_decide (type x ∈ o) then [x] else []) ++ flat_map f o.
Proof.
  induction o as [|ty o IH]; [done|]. intros [Hnotin Hnd]%NoDup_cons. simpl.
  rewrite (IH Hnd). destruct (String.eqb_spec (type x) ty) as [Hx|Hx].
  - rewrite bool_decide_eq_false_2 by congruence.
    rewrite bool_decide_eq_true_2; [done|]. apply elem_of_cons. by left.
  - destruct (bool_decide_reflect (type x ∈ o)) as [Hin|Hout].
    + rewrite bool_decide_eq_true_2 by (apply elem_of_cons; by right). simpl.
      by rewrite Permutation_middle.
    + rewrite bool_decide_eq_false_2; [done|].
      intros [?|?]%elem_of_cons; [congruence|done].
Qed.

Lemma blocks_permutation o (nfs : list A) :
  NoDup o →
  flat_map (fun ty => List.filter (fun nf => String.eqb (type nf) ty) nfs) o
  ≡ₚ List.filter (fun nf => bool_decide (type nf ∈ o)) nfs.
Proof.
  intros Hnd. induction nfs as [|x nfs IH]; simpl.
  - induction o as [|ty o IHo]; [done|]. simpl. apply IHo. by apply NoDup_cons in Hnd as [_ ?].
  - rewrite (blocks_insert o
               (fun ty => List.filter (fun nf => String.eqb (type nf) ty) nfs) x Hnd).
    rewrite IH. by destruct (bool_decide (type x ∈ o)).
Qed.

Lemma precedes_cons ty o T1 T2 : precedes o T1 T2 → precedes (ty :: o) T1 T2.
Proof. intros (l1 & l2 & -> & Hin). by exists (ty :: l1), l2. Qed.

Lemma blocks_sorted o (nfs : list A) i j a b :
  (i < j)%nat →
  flat_map (fun ty => List.filter (fun nf => String.eqb (type nf) ty) nfs) o !! i = Some a →
  flat_map (fun ty => List.filter (fun nf => String.eqb (type nf) ty) nfs) o !! j = Some b →
  precedes o (type a) (type b).
Proof.
  revert i j. induction o as [|ty o IH]; intros i j Hij; simpl; [done|].
  rewrite !lookup_app_Some. intros [Ha|[Hi Ha]] Hb.
  - assert (type a = ty) as ->.
    { apply list_elem_of_lookup_2, list_elem_of_In, filter_In in Ha as [_ Ha].
      by apply String.eqb_eq. }
    exists [], o. split; [done|]. apply elem_of_cons.
    destruct Hb as [Hb|[_ Hb]].
    + left. apply list_elem_of_lookup_2, list_elem_of_In, filter_In in Hb as [_ Hb].
      by apply String.eqb_eq.
    + right. apply list_elem_of_lookup_2 in Hb. by apply blocks_type in Hb as [_ ?].
  - destruct Hb as [Hb|[Hj Hb]].
    + apply lookup_lt_Some in Hb. lia.
    + apply precedes_cons. eapply IH; [|exact Ha|exact Hb]. lia.
Qed.

End DeploymentOrder.

Lemma deploymentOrder_NoDup : NoDup deploymentOrder.
Proof. apply (bool_decide_unpack _). by vm_compute. Qed.

(** X19. [getDeploymentOrder] deploys every topology entry of a listed type
    exactly once and drops the entries of any other type; the entries come
    out grouped in the order of the list, NRF first, the entries of one type
    in the order the topology gives them; and ordering an ordered list
    changes nothing. *)
Theorem getDeploymentOrder_spec {A : Type} (type : A → string) (nfs : list A) :
  getDeploymentOrder type nfs
  ≡ₚ List.filter (fun nf => bool_decide (type nf ∈ deploymentOrder)) nfs
  ∧ (∀ i j a b, (i < j)%nat →
                getDeploymentOrder type nfs !! i = Some a →
                getDeploymentOrder type nfs !! j = Some b →
                precedes deploymentOrder (type a) (type b))
  ∧ (∀ T, T ∈ deploymentOrder →
          List.filter (fun nf => String.eqb (type nf) T) (getDeploymentOrder type nfs)
          = List.filter (fun nf => String.eqb (type nf) T) nfs)
  ∧ getDeploymentOrder type (getDeploymentOrder type nfs) = getDeploymentOrder type nfs.
Proof.
  unfold getDeploymentOrder. split_and!.
  - apply blocks_permutation, deploymentOrder_NoDup.
  - intros i j a b. apply blocks_sorted.
  - intros T HT. rewrite (filter_blocks type _ T nfs deploymentOrder_NoDup).
    by rewrite bool_decide_eq_true_2.
  - apply blocks_again, deploymentOrder_NoDup.
Qed.

(** ** Connection statistics *)

Lemma subnetGroups_snoc nfs x :
  subnetGroups (nfs ++ [x])
  = jsmap_set (getNetworkFromIP (cfg_ipAddress (nf_config x)))
      (default [] (jsmap_get (getNetworkFromIP (cfg_ipAddress (nf_config x)))
                     (subnetGroups nfs)) ++ [x])
      (subnetGroups nfs).
Proof. unfold subnetGroups. by rewrite fold_left_app. Qed.

Lemma inSubnet_snoc k nfs x :
  inSubnet k (nfs ++ [x])
  = inSubnet k nfs
    ++ (if String.eqb (getNetworkFromIP (cfg_ipAddress (nf_config x))) k then [x] else []).
Proof. unfold inSubnet. by rewrite List.filter_app. Qed.

(** The group stored under a network holds the NFs of that network, in store
    order; a network without NFs has no group. *)
Lemma subnetGroups_get nfs k :
  jsmap_get k (subnetGroups nfs)
  = match inSubnet k nfs with [] => None | _ :: _ => Some (inSubnet k nfs) end.
Proof.
  induction nfs as [|x nfs IH] using rev_ind; [done|].
  rewrite subnetGroups_snoc, inSubnet_snoc.
  destruct (String.eqb_spec (getNetworkFromIP (cfg_ipAddress (nf_config x))) k) as [->|Hne].
  - rewrite jsmap_get_set_eq, IH. by destruct (inSubnet _ nfs).
  - rewrite jsmap_get_set_ne by done. by rewrite IH, app_nil_r.
Qed.

Lemma subnetGroups_NoDup nfs : NoDup (jsmap_keys (subnetGroups nfs)).
Proof.
  induction nfs as [|x nfs IH] using rev_ind; [apply NoDup_nil_2|].
  rewrite subnetGroups_snoc. by apply jsmap_keys_NoDup_set.
Qed.

Lemma jsmap_set_grow (k : string) (x : NF) (m : list (string * list NF)) :
  sum_list ((fun e => length e.2) <$> jsmap_set k (default [] (jsmap_get k m) ++ [x]) m)
  = S (sum_list ((fun e => length e.2) <$> m)).
Proof.
  induction m as [|[k0 g0] m IH]; csimpl; [done|].
  destruct (String.eqb k k0); csimpl.
  - rewrite length_app. simpl. lia.
  - rewrite IH. lia.
Qed.

Lemma subnetGroups_sum nfs :
  sum_list ((fun e => length e.2) <$> subnetGroups nfs) = length nfs.
Proof.
  induction nfs as [|x nfs IH] using rev_ind; [done|].
  rewrite subnetGroups_snoc, jsmap_set_grow, IH, length_app. simpl. lia.
Qed.

Lemma jsmap_keys_lookup {V B} (F : string → option V → B) (m : list (string * V)) :
  NoDup (jsmap_keys m) →
  List.map (fun k => F k (jsmap_get k m)) (jsmap_keys m)
  = List.map (fun e => F e.1 (Some e.2)) m.
Proof.
  unfold jsmap_keys. induction m as [|[k0 v0] m IH]; csimpl; [done|].
  intros [Hnotin Hnd]%NoDup_cons. rewrite String.eqb_refl. f_equal.
  rewrite <- (IH Hnd). apply map_ext_in. intros k Hk%list_elem_of_In.
  destruct (String.eqb_spec k k0) as [->|Hne]; [done|done].
Qed.

Lemma filter_disjoint_length {B} (f g : B → bool) (l : list B) :
  (∀ x, f x = true → g x = false) →
  (length (List.filter f l) + length (List.filter g l) ≤ length l)%nat.
Proof.
  intros Hfg. induction l as [|x l IH]; simpl; [done|].
  destruct (f x) eqn:Hf; [rewrite (Hfg x Hf)|destruct (g x)]; simpl; lia.
Qed.

(** X20. The subnet groups of [getConnectionStats] partition the NFs of the
    store: every group is the non-empty list of the NFs whose address lies in
    its network, in store order, with [nfCount] its length; every NF falls in
    the group of its network; the counts add up to the number of NFs; and
    [totalSubnets] is the number of groups. The two protocol counts and the
    two status counts never exceed [total]. *)
Theorem getConnectionStats_spec (d : DataStore) :
  let s := getConnectionStats d in
  sum_list (nfCount <$> subnets s) = length (getAllNFs d)
  ∧ totalSubnets s = length (subnets s)
  ∧ (∀ e, e ∈ subnets s →
          ∃ k, network e = k +:+ ".0/24"
               ∧ inSubnet k (getAllNFs d) ≠ []
               ∧ nfCount e = length (inSubnet k (getAllNFs d))
               ∧ snf_ip <$> subnet_nfs e
                 = (fun nf => cfg_ipAddress (nf_config nf)) <$> inSubnet k (getAllNFs d))
  ∧ (∀ nf, nf ∈ getAllNFs d →
           ∃ e, e ∈ subnets s
                ∧ network e = getNetworkFromIP (cfg_ipAddress (nf_config nf)) +:+ ".0/24"
                ∧ snf_ip <$> subnet_nfs e
                  = (fun nf' => cfg_ipAddress (nf_config nf'))
                      <$> inSubnet (getNetworkFromIP (cfg_ipAddress (nf_config nf)))
                                   (getAllNFs d))
  ∧ (byProtocol_HTTP2 s + byProtocol_HTTP1 s ≤ total s)%nat
  ∧ (byStatus_connected s + byStatus_disconnected s ≤ total s)%nat.
Proof.
  set (nfl := getAllNFs d).
  assert (∀ k, k ∈ jsmap_keys (subnetGroups nfl) →
               inSubnet k nfl ≠ []
               ∧ default [] (jsmap_get k (subnetGroups nfl)) = inSubnet k nfl) as Hgroup.
  { intros k Hk. pose proof (subnetGroups_get nfl k) as Hget.
    destruct (jsmap_get k (subnetGroups nfl)) as [g|] eqn:Hg.
    - destruct (inSubnet k nfl) eqn:Hin; [done|]. by injection Hget as ->.
    - by apply jsmap_get_None in Hg. }
  cbv zeta. unfold getConnectionStats. cbn [subnets totalSubnets total byProtocol_HTTP2
    byProtocol_HTTP1 byStatus_connected byStatus_disconnected]. fold nfl. split_and!.
  - rewrite <- (subnetGroups_sum nfl). f_equal.
    etrans; [|exact (jsmap_keys_lookup (fun _ o => length (default [] o))
                       (subnetGroups nfl) (subnetGroups_NoDup nfl))].
    change (nfCount <$> List.map ?f ?l) with (nfCount <$> (f <$> l)).
    by rewrite <- list_fmap_compose.
  - by rewrite length_map.
  - intros e He. apply list_elem_of_In, in_map_iff in He as (k & <- & Hk%list_elem_of_In).
    destruct (Hgroup k Hk) as [Hne Hdef]. exists k. cbn [network nfCount subnet_nfs].
    rewrite Hdef. split_and!; try done.
    change (snf_ip <$> List.map ?f ?l) with (snf_ip <$> (f <$> l)).
    by rewrite <- list_fmap_compose.
  - intros nf Hnf. set (k := getNetworkFromIP (cfg_ipAddress (nf_config nf))).
    assert (nf ∈ inSubnet k nfl) as Hin.
    { unfold inSubnet. apply list_elem_of_In, filter_In. split; [by apply list_elem_of_In|].
      apply String.eqb_refl. }
    assert (k ∈ jsmap_keys (subnetGroups nfl)) as Hk.
    { destruct (decide (k ∈ jsmap_keys (subnetGroups nfl))) as [?|Hout]; [done|].
      apply jsmap_get_None in Hout. rewrite subnetGroups_get in Hout.
      destruct (inSubnet k nfl); [by apply elem_of_nil in Hin|done]. }
    destruct (Hgroup k Hk) as [Hne Hdef].
    eexists. split; [apply list_elem_of_In, in_map; by apply list_elem_of_In|].
    cbn [network subnet_nfs]. rewrite Hdef. split; [done|].
    change (snf_ip <$> List.map ?f ?l) with (snf_ip <$> (f <$> l)).
    by rewrite <- list_fmap_compose.
  - apply filter_disjoint_length. intros c Hc%String.eqb_eq. by rewrite Hc.
  - apply filter_disjoint_length. intros c Hc%String.eqb_eq. by rewrite Hc.
Qed.

(** ** Links between addresses of one prefix *)

Lemma linkable_admissible a b d : linkable a b d ↔ admissible a b d.
Proof.
  unfold linkable, admissible. split; intros (nfA & nfB & ? & ? & ? & Hnet & ?);
    exists nfA, nfB; split_and!; try done; by apply getNetworkFromIP_samePrefix.
Qed.

(** X21. [createConnection] returns a connection exactly when both NFs are
    in the store, the two ids differ, the first three dot-separated parts of
    the two addresses agree, and one of the two types lists the other. The
    four tests are made in that order and each failed test returns [null]
    with its own error, except that the test of the types throws where
    [isConnectionValid] throws, which it does not for types that name no
    member of [Object.prototype]. Unless a connection is returned the state
    is as it was; when one is returned, it carries the given id and ends and
    is the last link of the store. *)
Theorem createConnection_linkable (now : Z) (connId a b : string) (isManual : bool)
    (w : World) :
  let d := dataStore (browser w) in
  let out := createConnection now connId a b isManual w in
  (is_Some (returned out.2) ↔ linkable a b d)
  ∧ ((∀ c, out.2 ≠ Created c) → out.1 = w)
  ∧ (∀ c, out.2 = Created c →
          conn_id c = connId ∧ sourceId c = a ∧ targetId c = b
          ∧ connections (dataStore (browser out.1)) = connections d ++ [c])
  ∧ (getNFById a d = None ∨ getNFById b d = None → out.2 = Rejected InvalidNFIds)
  ∧ (∀ nfA nfB,
       getNFById a d = Some nfA → getNFById b d = Some nfB →
       let ipA := cfg_ipAddress (nf_config nfA) in
       let ipB := cfg_ipAddress (nf_config nfB) in
       (a = b → out.2 = Rejected SelfConnection)
       ∧ (a ≠ b → ¬ samePrefix ipA ipB →
          out.2 = Rejected (SubnetRestriction (getNetworkFromIP ipA) (getNetworkFromIP ipB)))
       ∧ (a ≠ b → samePrefix ipA ipB →
          match isConnectionValid (nf_type nfA) (nf_type nfB) with
          | Returns true => ∃ c, out.2 = Created c
          | Returns false => out.2 = Rejected (InvalidConnection (nf_type nfA) (nf_type nfB))
          | Throws e => out.2 = Threw e
          end)
       ∧ (plainName (nf_type nfA) → plainName (nf_type nfB) → ∀ e, out.2 ≠ Threw e))
  ∧ (∀ a1 a2 a3 a4 b1 b2 b3 b4,
       dot_free a1 = true → dot_free a2 = true → dot_free a3 = true →
       dot_free b1 = true → dot_free b2 = true → dot_free b3 = true →
       samePrefix (dotted a1 a2 a3 a4) (dotted b1 b2 b3 b4) ↔ a1 = b1 ∧ a2 = b2 ∧ a3 = b3).
Proof.
  cbv zeta. split_and!.
  - rewrite linkable_admissible. apply createConnection_admissible.
  - intros Hnone.
    destruct (getNFById a (dataStore (browser w))) as [nfA|] eqn:Ha;
      [|by rewrite createConnection_unknown by auto].
    destruct (getNFById b (dataStore (browser w))) as [nfB|] eqn:Hb;
      [|by rewrite createConnection_unknown by auto].
    destruct (decide (a = b)) as [<-|Hab];
      [by rewrite (createConnection_self _ _ _ _ _ nfA)|].
    destruct (decide (getNetworkFromIP (cfg_ipAddress (nf_config nfA))
                      = getNetworkFromIP (cfg_ipAddress (nf_config nfB)))) as [Hnet|Hnet];
      [|by rewrite (createConnection_subnet _ _ _ _ _ _ nfA nfB)].
    pose proof (createConnection_verdict now connId a b isManual w nfA nfB Ha Hb Hab Hnet)
      as Hverdict.
    destruct (isConnectionValid (nf_type nfA) (nf_type nfB)) as [[|]|e];
      [|by rewrite Hverdict..].
    destruct Hverdict as (c & b' & Hcreate & _). rewrite Hcreate in Hnone.
    by destruct (Hnone c).
  - intros c Hc.
    destruct (proj1 (createConnection_admissible now connId a b isManual w))
      as (nfA & nfB & Ha & Hb & Hab & Hnet & Hcompat); [by rewrite Hc|].
    apply isConnectionValid_compatible in Hcompat.
    pose proof (createConnection_verdict now connId a b isManual w nfA nfB Ha Hb Hab Hnet)
      as Hverdict.
    rewrite Hcompat in Hverdict. destruct Hverdict as (c' & b' & Hcreate & -> & Hconns & _).
    rewrite Hcreate in Hc |- *. injection Hc as <-. done.
  - intros Hnone. by rewrite createConnection_unknown.
  - intros nfA nfB Ha Hb. split_and!.
    + intros <-. by rewrite (createConnection_self _ _ _ _ _ nfA).
    + intros Hab Hnet. rewrite (createConnection_subnet _ _ _ _ _ _ nfA nfB); try done.
      by rewrite getNetworkFromIP_samePrefix.
    + intros Hab Hnet%getNetworkFromIP_samePrefix.
      pose proof (createConnection_verdict now connId a b isManual w nfA nfB Ha Hb Hab Hnet)
        as Hverdict.
      destruct (isConnectionValid (nf_type nfA) (nf_type nfB)) as [[|]|e];
        [|by rewrite Hverdict..].
      destruct Hverdict as (c & b' & -> & _). by exists c.
    + intros HpA HpB e.
      destruct (decide (a = b)) as [<-|Hab];
        [by rewrite (createConnection_self _ _ _ _ _ nfA)|].
      destruct (decide (getNetworkFromIP (cfg_ipAddress (nf_config nfA))
                        = getNetworkFromIP (cfg_ipAddress (nf_config nfB)))) as [Hnet|Hnet];
        [|by rewrite (createConnection_subnet _ _ _ _ _ _ nfA nfB)].
      pose proof (createConnection_verdict now connId a b isManual w nfA nfB Ha Hb Hab Hnet)
        as Hverdict.
      destruct (isConnectionValid_plain _ _ HpA HpB) as [_ [v Hv]].
      rewrite Hv in Hverdict. destruct v.
      * destruct Hverdict as (c & b' & -> & _). done.
      * by rewrite Hverdict.
  - apply samePrefix_dotted.
Qed.

(** ** The order of the two types *)

Lemma admissible_sym a b d : admissible a b d → admissible b a d.
Proof.
  intros (nfA & nfB & Ha & Hb & Hab & Hnet & Hcompat). exists nfB, nfA.
  split_and!; try done; unfold compatibleEitherWay in *; tauto.
Qed.

(** X22. On types that name no member of [Object.prototype], the listed
    types among them, [isConnectionValid] returns a verdict and returns the
    same verdict for the two orders of the types; for all types, it returns
    [true] for one order exactly when it does for the other, although the
    table is not symmetric (ext-dn lists UPF, UPF does not list ext-dn).
    [createConnection] returns a connection from [a] to [b] exactly when it
    returns one from [b] to [a]. *)
Theorem isConnectionValid_either_order :
  (∀ a b, plainName a → plainName b →
          isConnectionValid a b = isConnectionValid b a
          ∧ ∃ v, isConnectionValid a b = Returns v)
  ∧ (∀ a b, is_Some (initializeValidConnections !! a) →
            is_Some (initializeValidConnections !! b) →
            isConnectionValid a b = isConnectionValid b a)
  ∧ (∀ a b, isConnectionValid a b = Returns true ↔ isConnectionValid b a = Returns true)
  ∧ (∃ peers, initializeValidConnections !! "ext-dn" = Some peers ∧ "UPF" ∈ peers)
  ∧ (∃ peers, initializeValidConnections !! "UPF" = Some peers ∧ "ext-dn" ∉ peers)
  ∧ (∀ now connId connId' a b isManual isManual' w,
       is_Some (returned (createConnection now connId a b isManual w).2)
       ↔ is_Some (returned (createConnection now connId' b a isManual' w).2)).
Proof.
  split_and!.
  - exact isConnectionValid_plain.
  - intros a b Ha Hb.
    by destruct (isConnectionValid_plain a b (validConnections_plain a Ha)
                   (validConnections_plain b Hb)).
  - exact isConnectionValid_true_sym.
  - eexists. split; [by vm_compute|]. apply (bool_decide_unpack _). by vm_compute.
  - eexists. split; [by vm_compute|]. apply (bool_decide_unpack _). by vm_compute.
  - intros now connId connId' a b isManual isManual' w.
    rewrite !createConnection_admissible. split; apply admissible_sym.
Qed.

(** * The further theorems at concrete inputs *)

(** [registerNF_new]: amf-1 registers at time 1000 with an empty registry. *)
Lemma registerNF_new_witness :
  ∃ p, registry (registerNF 1000 "amf-1" (profileOfNF amf1) NRFRegistry_new lab_browser).1.1
       = [("amf-1", p)]
       ∧ nfStatus p = REGISTERED ∧ registeredAt p = 1000.
Proof.
  destruct (registerNF_new 1000 "amf-1" (profileOfNF amf1) NRFRegistry_new lab_browser)
    as ((p & Hreg & Hst & Hra & _) & _).
  - reflexivity.
  - exists p. split_and!; [exact Hreg|exact Hst|exact Hra].
Defined.

(** [discoverNFs_by_service]: amf-1 is found by the name of its first
    service. *)
Lemma discoverNFs_by_service_witness :
  "namf-comm" ≠ "" ∧ amf1_profile ∈ discoverNFs (byService "namf-comm") lab_registered.1.
Proof.
  assert ("namf-comm" ≠ "") as H by discriminate. split; [exact H|].
  apply (proj2 (discoverNFs_by_service "namf-comm" lab_registered.1 amf1_profile H)).
  split_and!.
  - apply list_elem_of_singleton. reflexivity.
  - reflexivity.
  - exists (svc "namf-comm"). split; [apply elem_of_cons; by left|by right].
Defined.

(** [sweep_idempotent]: the sweep at time 130000 over amf-1, twice. *)
Lemma sweep_idempotent_witness :
  checkHeartbeatTimeouts 130000 lab_unavailable.1 lab_unavailable.2 = lab_unavailable.
Proof.
  refine (sweep_idempotent 130000 lab_registered.1 lab_registered.2 _ _).
  - by_decide.
  - by vm_compute.
Defined.

(** [renewal_protects_from_sweep]: amf-1 renews at time 100000 and the sweep
    runs at time 130000. *)
Lemma renewal_protects_from_sweep_witness :
  ∃ q, getNFProfile "amf-1"
         (checkHeartbeatTimeouts 130000
            (updateHeartbeat 100000 "amf-1" lab_registered.1 lab_registered.2).1.1
            (updateHeartbeat 100000 "amf-1" lab_registered.1 lab_registered.2).1.2).1
       = Some q
       ∧ nfStatus q = REGISTERED ∧ lastHeartbeat q = 100000.
Proof.
  refine (renewal_protects_from_sweep 100000 130000 "amf-1" lab_registered.1
            lab_registered.2 amf1_profile _ _ _ _ _).
  - by_decide.
  - by vm_compute.
  - discriminate.
  - discriminate.
  - by vm_compute.
Defined.

(** [stale_purge_deletes_reregistered]: amf-1 is deregistered at time 2000,
    registers again at time 3000, and the purge runs at time 7000. *)
Lemma stale_purge_deletes_reregistered_witness :
  ∃ q, getNFProfile "amf-1"
         (registerNF 3000 "amf-1" amf1_again lab_removed.1 lab_removed.2).1.1 = Some q
       ∧ nfStatus q = REGISTERED.
Proof.
  refine (proj1 (stale_purge_deletes_reregistered 2000 3000 7000 "amf-1" "MANUAL"
                   amf1_again lab_registered.1 lab_registered.2 amf1_profile true _)).
  by vm_compute.
Defined.

(** [register_deregister_purge]: amf-1 registers at time 1000 with an empty
    registry, is deregistered at time 2000, and the purge runs. *)
Lemma register_deregister_purge_witness :
  registry (purgeProfile "amf-1" lab_removed.1) = [].
Proof.
  refine (proj1 (register_deregister_purge 1000 2000 "amf-1" "MANUAL" (profileOfNF amf1)
                   NRFRegistry_new lab_browser _)).
  reflexivity.
Defined.

(** [registration_outlives_deleted_link]: amf-1 links to nrf-1 at time 500,
    the link is deleted at time 900, the registration callback runs at time
    2000. *)
Lemma registration_outlives_deleted_link_witness :
  (∃ r3 p, nrfRegistry
             (fireTimeout 2000
                {| timer_id := 1%positive; timer_delay := 1500;
                   timer_task := RegisterWithNRF amf1 |}
                (deleteConnection 900 "conn-1"
                   (createConnection 500 "conn-1" "amf-1" "nrf-1" true lab_world).1))
           = Some r3
           ∧ getNFProfile "amf-1" r3 = Some p ∧ nfStatus p = REGISTERED)
  ∧ intervals
      (browser
         (fireTimeout 2000
            {| timer_id := 1%positive; timer_delay := 1500;
               timer_task := RegisterWithNRF amf1 |}
            (deleteConnection 900 "conn-1"
               (createConnection 500 "conn-1" "amf-1" "nrf-1" true lab_world).1))) = [].
Proof.
  destruct (registration_outlives_deleted_link 500 900 2000 "conn-1" "amf-1" "nrf-1" true
              lab_world lab_link amf1 nrf1 amf1 NRFRegistry_new)
    as (_ & _ & _ & _ & (r3 & p & Hr3 & Hget & Hst & _) & _ & Hints).
  - reflexivity.
  - reflexivity.
  - by vm_compute.
  - reflexivity.
  - reflexivity.
  - by vm_compute.
  - reflexivity.
  - reflexivity.
  - intros c' o Hc'. by apply elem_of_nil in Hc'.
  - split; [|exact Hints]. exists r3, p. split_and!; [exact Hr3|exact Hget|exact Hst].
Defined.

(** [heartbeatMonitor_start_stop]: the monitor of a new registry is started
    and stopped in the laboratory browser; its interval, fired at time 130000
    on the registry that holds amf-1 since time 1000, makes amf-1
    UNAVAILABLE. *)
Lemma heartbeatMonitor_start_stop_witness :
  isMonitoring (startHeartbeatMonitor NRFRegistry_new lab_browser).1 = true
  ∧ (∃ t r p,
       intervals (startHeartbeatMonitor NRFRegistry_new lab_browser).2 = [t]
       ∧ nrfRegistry (fireInterval 130000 t
                        {| browser := lab_registered.2;
                           nrfRegistry := Some lab_registered.1;
                           connectionManager := true |}) = Some r
       ∧ getNFProfile "amf-1" r = Some p ∧ nfStatus p = UNAVAILABLE)
  ∧ intervals (stopHeartbeatMonitor (startHeartbeatMonitor NRFRegistry_new lab_browser).1
                                    (startHeartbeatMonitor NRFRegistry_new lab_browser).2).2
    = [].
Proof.
  destruct (proj2 (heartbeatMonitor_start_stop NRFRegistry_new lab_browser))
    as (Hon & (t & Hone & _ & _ & _ & Hfire) & _ & _ & Hints & _).
  - reflexivity.
  - intros t Ht. by apply elem_of_nil in Ht.
  - split; [exact Hon|]. split; [|exact Hints].
    destruct (Hfire 130000 {| browser := lab_registered.2;
                              nrfRegistry := Some lab_registered.1;
                              connectionManager := true |} lab_registered.1 eq_refl)
      as (Hr & _).
    exists t, lab_unavailable.1, (set_nfStatus UNAVAILABLE 130000 amf1_profile).
    split_and!; [exact Hone|exact Hr|by vm_compute|reflexivity].
Defined.

(** [unknown_type_never_links]: the type of a generic service, and the type
    [constructor]. *)
Lemma unknown_type_never_links_witness :
  (isConnectionValid "Service" "NRF" = Returns false
   ∧ isConnectionValid "NRF" "Service" = Returns false)
  ∧ (isConnectionValid "constructor" "NRF" = Throws TypeError
     ∧ isConnectionValid "NRF" "constructor" = Throws TypeError
     ∧ isConnectionValid "Service" "constructor" = Returns false).
Proof.
  destruct unknown_type_never_links as (_ & Hplain & Hinherited & _). split.
  - destruct (Hplain "Service" "NRF") as [H1 H2]; [reflexivity..|].
    exact (conj H1 (H2 eq_refl)).
  - destruct (Hinherited "constructor" "NRF") as (H1 & H2 & _); [reflexivity|].
    destruct (Hinherited "constructor" "Service") as (_ & _ & H3); [reflexivity|].
    split_and!; [exact H1|apply H2; eexists; by vm_compute|apply H3; reflexivity].
Defined.

(** [getValidTargetsInSameSubnet_spec]: nrf-1 is offered to amf-1; with
    odd-1 in the store, no target is offered to amf-1. *)
Lemma getValidTargetsInSameSubnet_spec_witness :
  (∃ l', getValidTargetsInSameSubnet "amf-1" (dataStore lab_browser) = Returns l'
         ∧ nrf1 ∈ l')
  ∧ getValidTargets "amf-1" (dataStore (browser lab_world_odd)) = Throws TypeError
  ∧ getValidTargetsInSameSubnet "amf-1" (dataStore (browser lab_world_odd))
    = Throws TypeError.
Proof.
  split.
  - destruct (getValidTargetsInSameSubnet_spec "amf-1" (dataStore lab_browser))
      as (_ & _ & Hreturns & _ & Hoffered).
    destruct Hreturns as (l & l' & _ & Hl').
    { intros t Ht. repeat (apply elem_of_cons in Ht as [->|Ht]; [reflexivity|]).
      by apply elem_of_nil in Ht. }
    exists l'. split; [exact Hl'|].
    apply (Hoffered l' nrf1 500 "conn-1" true lab_world Hl' eq_refl).
    + apply elem_of_cons. by left.
    + reflexivity.
    + eexists. by vm_compute.
  - destruct (getValidTargetsInSameSubnet_spec "amf-1" (dataStore (browser lab_world_odd)))
      as (_ & Hthrows & _).
    destruct (Hthrows amf1 eq_refl) as [H1 H2].
    assert (∃ t, t ∈ getAllNFs (dataStore (browser lab_world_odd)) ∧ nf_id t ≠ "amf-1"
                 ∧ isConnectionValid (nf_type amf1) (nf_type t) = Throws TypeError) as Hodd.
    { exists odd1. split_and!; [|done|reflexivity].
      do 3 (apply elem_of_cons; right). apply elem_of_cons. by left. }
    exact (conj (proj2 H1 Hodd) (proj2 H2 Hodd)).
Defined.

(** [createConnection_linkable]: amf-1 links to nrf-1; both addresses begin
    with 192.168.1. *)
Lemma createConnection_linkable_witness :
  linkable "amf-1" "nrf-1" (dataStore lab_browser)
  ∧ samePrefix (dotted "192" "168" "1" "20") (dotted "192" "168" "1" "10")
  ∧ ¬ samePrefix (dotted "192" "168" "1" "20") (dotted "192" "168" "2" "20").
Proof.
  destruct (createConnection_linkable 500 "conn-1" "amf-1" "nrf-1" true lab_world)
    as (Hiff & _ & _ & _ & _ & Hdotted).
  split_and!.
  - apply Hiff. eexists. by vm_compute.
  - by apply Hdotted.
  - intros Hsame. apply Hdotted in Hsame as (_ & _ & Hthird); done.
Defined.
